(** * Semantic ray-cast LiDAR: scan, classify, assemble

    A shallow embedding of [RayCastSemanticLidar.cpp] (the sensor's tick:
    laser angles, ray pattern, hit classification, sweep assembly) and of
    [carla/geom/Vector4DuInt.h] (the packed colour quad).

    Numbers.  Unsigned machine integers are [Z] with the wrap-around written
    out ([to_uint8], [to_uint32]); counts that drive loops are [nat].  The
    C++ type [float] is modelled by the exact rationals [Q]: every operation
    of the source is kept, in the source's order, and evaluated without
    rounding.  Conversions from [float] to an integer type keep the C++
    rule: truncation toward zero, undefined when the truncated value does
    not fit.  What is proved of a value that the code computes in [float]
    is stated through the code's own expression for it, or is an order or
    a bound that does not depend on the rounding; a closed form is stated
    for one evaluation at most, and said to hold in exact arithmetic.
    Where the specification states an equality that exact arithmetic
    satisfies and the code does not (the last laser angle, the stored
    angle after several ticks), Module [Binary32] evaluates the code's
    expressions in IEEE binary32, and the run is among those that
    contradict the specification.  The other runs that contradict it use
    small dyadic rationals, on which binary32 is exact as well. *)

From Stdlib Require Import ZArith QArith Qround Qabs Lqa Lia List String Ascii Bool.
From Stdlib Require Import Floats.SpecFloat.
From stdpp Require Import base list.
Import ListNotations.

Local Open Scope Z_scope.
Local Open Scope Q_scope.

(* ===================================================================== *)
(** ** Outcomes of a call *)
(* ===================================================================== *)

(** A call returns, or halts the process (a log of verbosity [Fatal], a
    failed [check]), or runs into C++ undefined behaviour. *)
Inductive outcome (A : Type) : Type :=
| Returned (a : A)
| Fatal
| Undefined.

Arguments Returned {A} a.
Arguments Fatal {A}.
Arguments Undefined {A}.

#[export] Instance outcome_ret : MRet outcome := fun A a => Returned a.

#[export] Instance outcome_bind : MBind outcome := fun A B k c =>
  match c with
  | Returned a => k a
  | Fatal => Fatal
  | Undefined => Undefined
  end.

(** Modelled from the spec: the logging macro [UE_LOG] of the host engine is
    not among the sources.  Section 7 of the specification: a log of
    verbosity [Fatal] "logs diagnostic detail and halts"; a warning only
    reports.  The text of the message plays no role. *)
Inductive ELogVerbosity : Type := LogWarning | LogFatal.

Definition UE_LOG (v : ELogVerbosity) : outcome unit :=
  match v with
  | LogWarning => Returned tt
  | LogFatal => Fatal
  end.

(** The host's assertion macro: halts when the condition fails. *)
Definition check (b : bool) : outcome unit :=
  if b then Returned tt else Fatal.

(** [TArray::operator[]] checks its index. *)
Definition TArray_at {A : Type} (l : list A) (i : nat) : outcome A :=
  match l !! i with
  | Some a => Returned a
  | None => Fatal
  end.

(** [std::vector::operator[]] does not. *)
Definition vector_at {A : Type} (l : list A) (i : nat) : outcome A :=
  match l !! i with
  | Some a => Returned a
  | None => Undefined
  end.

(* ===================================================================== *)
(** ** Scalars *)
(* ===================================================================== *)

Definition float : Type := Q.

Definition to_uint8 (n : Z) : Z := (n mod 256)%Z.
Definition to_uint32 (n : Z) : Z := (n mod 2 ^ 32)%Z.

(** Truncation toward zero, the rule of every float-to-integer conversion. *)
Definition Qtrunc (q : Q) : Z := Z.quot (Qnum q) (Zpos (Qden q)).

(** [static_cast<uint8_t>(f)]. *)
Definition static_cast_uint8 (f : float) : outcome Z :=
  let t := Qtrunc f in
  if ((0 <=? t) && (t <=? 255))%Z then Returned t else Undefined.

(** The implicit conversion of a [float] to [uint32]. *)
Definition float_to_uint32 (f : float) : outcome Z :=
  let t := Qtrunc f in
  if ((0 <=? t) && (t <? 2 ^ 32))%Z then Returned t else Undefined.

Definition float_of_nat (n : nat) : float := inject_Z (Z.of_nat n).

(** [roundf]: to the nearest integer, halves away from zero. *)
Definition roundf (f : float) : float :=
  if Qle_bool 0 f then inject_Z (Qfloor (f + (1 # 2)))
  else inject_Z (- Qfloor (- f + (1 # 2))).

(** Modelled from the spec: [FMath::RoundHalfFromZero] belongs to the host
    engine.  Section 4.1: "round(...) using round-half-away-from-zero". *)
Definition RoundHalfFromZero (f : float) : float := roundf f.

(** [std::fmod x y]: [x - n * y] with [n] the quotient [x / y] truncated
    toward zero, so the result has the sign of [x].  (For [y = 0] the C
    function yields a NaN, which [Q] does not have; every use below has
    [y] the horizontal field of view.) *)
Definition fmod (x y : float) : float := x - inject_Z (Qtrunc (x / y)) * y.

(* ===================================================================== *)
(** ** [carla::geom::Vector4DuInt] *)
(* ===================================================================== *)

Module Vector4DuInt.

Record t : Type := Build { x : Z; y : Z; z : Z; w : Z }.

(** [Vector4DuInt() = default]: the member initialisers are all [0]. *)
Definition default : t := Build 0 0 0 0.

(** [Vector4DuInt(uint8_t ix, uint8_t iy, uint8_t iz, uint8_t iw)]: an
    argument of a wider type is converted to [uint8_t] at the call. *)
Definition make (ix iy iz iw : Z) : t :=
  Build (to_uint8 ix) (to_uint8 iy) (to_uint8 iz) (to_uint8 iw).

(** [x * x + ...] is computed in [int] and widened to [uint64_t]. *)
Definition SquaredLength (v : t) : Z :=
  (x v * x v + y v * y v + z v * z v + w v * w v)%Z.

Definition add_assign (lhs rhs : t) : t :=
  Build (to_uint8 (x lhs + x rhs)) (to_uint8 (y lhs + y rhs))
        (to_uint8 (z lhs + z rhs)) (to_uint8 (w lhs + w rhs)).

Definition sub_assign (lhs rhs : t) : t :=
  Build (to_uint8 (x lhs - x rhs)) (to_uint8 (y lhs - y rhs))
        (to_uint8 (z lhs - z rhs)) (to_uint8 (w lhs - w rhs)).

(** [operator*=]: the scalar is a [uint8_t] parameter as well; reducing
    the product modulo 256 accounts for its reduction on the way in. *)
Definition mul_assign (lhs : t) (rhs : Z) : t :=
  Build (to_uint8 (x lhs * rhs)) (to_uint8 (y lhs * rhs))
        (to_uint8 (z lhs * rhs)) (to_uint8 (w lhs * rhs)).

(** [operator/=]: the divisor is a [uint8_t] parameter, so a wider
    integer is reduced modulo 256 on the way in (256 arrives as 0);
    integer division of every component; a zero divisor is undefined. *)
Definition div_assign (lhs : t) (rhs : Z) : outcome t :=
  let rhs := to_uint8 rhs in
  if (rhs =? 0)%Z then Undefined
  else Returned (Build (to_uint8 (x lhs / rhs)) (to_uint8 (y lhs / rhs))
                       (to_uint8 (z lhs / rhs)) (to_uint8 (w lhs / rhs))).

(** The friend operators work on a copy of their vector argument. *)
Definition add (lhs rhs : t) : t := add_assign lhs rhs.
Definition sub (lhs rhs : t) : t := sub_assign lhs rhs.
Definition mul (lhs : t) (rhs : Z) : t := mul_assign lhs rhs.
Definition mul_l (lhs : Z) (rhs : t) : t := mul_assign rhs lhs.
Definition div (lhs : t) (rhs : Z) : outcome t := div_assign lhs rhs.
Definition div_l (lhs : Z) (rhs : t) : outcome t := div_assign rhs lhs.

(** [operator==] *)
Definition eqb (a b : t) : bool :=
  ((x a =? x b) && (y a =? y b) && (z a =? z b) && (w a =? w b))%Z.

(** [operator!=] *)
Definition neqb (a b : t) : bool := negb (eqb a b).

End Vector4DuInt.

(* ===================================================================== *)
(** ** Host types, as far as the sensor reads them *)
(* ===================================================================== *)

Record FColor : Type := mkFColor { R : Z; G : Z; B : Z; A : Z }.

Record FVector : Type := mkFVector { X : float; Y : float; Z_ : float }.

Record FVector2D : Type := mkFVector2D { U : float; V : float }.

Definition FVector_sub (a b : FVector) : FVector :=
  mkFVector (X a - X b) (Y a - Y b) (Z_ a - Z_ b).

Definition FVector_neg (a : FVector) : FVector :=
  mkFVector (- X a) (- Y a) (- Z_ a).

Definition DotProduct (a b : FVector) : float :=
  X a * X b + Y a * Y b + Z_ a * Z_ b.

Definition ZeroVector : FVector := mkFVector 0 0 0.

(** First mip of a 2D texture: its size and its pixels, row after row.
    [Lock] is [None] when locking the bulk data yields a null pointer. *)
Record UTexture2D : Type := mkUTexture2D {
  SizeX : Z;
  SizeY : Z;
  Lock : option (list FColor)
}.

(** A texture; [Cast<UTexture2D>] of it is [None] when the texture is of
    another class. *)
Record UTexture : Type := mkUTexture {
  TextureName : string;
  Cast_UTexture2D : option UTexture2D
}.

(** A texture parameter holds a pointer to a texture, possibly null. *)
Record FTextureParameterValue : Type := mkFTextureParameterValue {
  TextureParameterName : string;
  TextureParameterValue : option UTexture
}.

Record FScalarParameterValue : Type := mkFScalarParameterValue {
  ScalarParameterName : string;
  ScalarParameterValue : float
}.

Record FVectorParameterValue : Type := mkFVectorParameterValue {
  VectorParameterName : string;
  VectorParameterValue : float * float * float * float
}.

Record UMaterialInstance : Type := mkUMaterialInstance {
  MaterialInstanceName : string;
  TextureParameterValues : list FTextureParameterValue;
  ScalarParameterValues : list FScalarParameterValue;
  VectorParameterValues : list FVectorParameterValue
}.

(** A material interface is a material instance or some other material;
    [Cast<UMaterialInstance>] succeeds on the former only. *)
Inductive UMaterialInterface : Type :=
| OtherMaterial (name : string)
| MaterialInstance (mi : UMaterialInstance).

Definition Cast_UMaterialInstance (m : UMaterialInterface) : option UMaterialInstance :=
  match m with
  | OtherMaterial _ => None
  | MaterialInstance mi => Some mi
  end.

(** A primitive component of the scene.  [IsStaticMesh] tells whether
    [Cast<UStaticMeshComponent>] succeeds; [CalcUV] is the lookup behind
    [UGameplayStatics::FindCollisionUV] (hit location, face index, UV
    channel). *)
Record UPrimitiveComponent : Type := mkUPrimitiveComponent {
  ComponentName : string;
  IsStaticMesh : bool;
  CustomDepthStencilValue : Z;
  CalcUV : FVector -> Z -> Z -> option FVector2D;
  GetMaterialFromCollisionFaceIndex : Z -> option UMaterialInterface
}.

Record FHitResult : Type := mkFHitResult {
  bBlockingHit : bool;
  Distance : float;
  Location : FVector;
  ImpactPoint : FVector;
  ImpactNormal : FVector;
  TraceEnd : FVector;
  FaceIndex : Z;
  Component : option UPrimitiveComponent
}.

Definition set_TraceEnd (h : FHitResult) (v : FVector) : FHitResult :=
  mkFHitResult (bBlockingHit h) (Distance h) (Location h) (ImpactPoint h)
               (ImpactNormal h) v (FaceIndex h) (Component h).

Definition FindCollisionUV (Hit : FHitResult) (UVChannel : Z) : option FVector2D :=
  match Component Hit with
  | Some c => CalcUV c (Location Hit) (FaceIndex Hit) UVChannel
  | None => None
  end.

Record FTransform : Type := mkFTransform {
  GetLocation : FVector;
  Rotator : FVector
}.

(** [FName] compares without regard to case. *)
Definition lower (c : ascii) : ascii :=
  let n := nat_of_ascii c in
  if ((65 <=? n) && (n <=? 90))%nat then ascii_of_nat (n + 32) else c.

Fixpoint FName_eqb (a b : string) : bool :=
  match a, b with
  | EmptyString, EmptyString => true
  | String c a', String d b' => Ascii.eqb (lower c) (lower d) && FName_eqb a' b'
  | _, _ => false
  end.

(* ===================================================================== *)
(** ** The detection record *)
(* ===================================================================== *)

Record FSemanticDetection : Type := mkFSemanticDetection {
  point : FVector;
  cos_inc_angle : float;
  object_idx : Z;
  object_tag : Z;
  base_color : Vector4DuInt.t;
  ORME : Vector4DuInt.t
}.

(** Modelled from the spec: the declaration of the record is not among the
    sources.  Section 3: object tag "0 when none", index [0] for a normal
    hit; a default-constructed record has every member zero. *)
Definition FSemanticDetection_default : FSemanticDetection :=
  mkFSemanticDetection ZeroVector 0 0 0 Vector4DuInt.default Vector4DuInt.default.

Definition set_point (d : FSemanticDetection) (v : FVector) :=
  mkFSemanticDetection v (cos_inc_angle d) (object_idx d) (object_tag d)
                       (base_color d) (ORME d).
Definition set_cos_inc_angle (d : FSemanticDetection) (c : float) :=
  mkFSemanticDetection (point d) c (object_idx d) (object_tag d)
                       (base_color d) (ORME d).
Definition set_object_idx (d : FSemanticDetection) (i : Z) :=
  mkFSemanticDetection (point d) (cos_inc_angle d) (to_uint32 i) (object_tag d)
                       (base_color d) (ORME d).
Definition set_object_tag (d : FSemanticDetection) (t : Z) :=
  mkFSemanticDetection (point d) (cos_inc_angle d) (object_idx d) (to_uint32 t)
                       (base_color d) (ORME d).
Definition set_base_color (d : FSemanticDetection) (c : Vector4DuInt.t) :=
  mkFSemanticDetection (point d) (cos_inc_angle d) (object_idx d) (object_tag d)
                       c (ORME d).
Definition set_ORME (d : FSemanticDetection) (c : Vector4DuInt.t) :=
  mkFSemanticDetection (point d) (cos_inc_angle d) (object_idx d) (object_tag d)
                       (base_color d) c.

(* ===================================================================== *)
(** ** Sensor description and sweep data *)
(* ===================================================================== *)

(** Modelled from the spec: the declaration of [FLidarDescription] is not
    among the sources.  Section 3, SensorConfig: channel count, points per
    second, rotation frequency, horizontal field of view, upper and lower
    vertical limits, range. *)
Record FLidarDescription : Type := mkFLidarDescription {
  Channels : nat;
  Range : float;
  PointsPerSecond : nat;
  RotationFrequency : float;
  UpperFovLimit : float;
  LowerFovLimit : float;
  HorizontalFov : float
}.

(** Modelled from the spec: the class [FSemanticLidarData] is not among the
    sources.  Sections 3 and 4.4: the sweep holds the current horizontal
    angle, a header with one detection count per channel, and the
    detections in the order they are written. *)
Record FSemanticLidarData : Type := mkFSemanticLidarData {
  HorizontalAngle : float;
  ChannelCount : nat;
  Header : list Z;
  SerPoints : list FSemanticDetection
}.

Definition FSemanticLidarData_new (ChannelCount : nat) : FSemanticLidarData :=
  mkFSemanticLidarData 0 ChannelCount (replicate ChannelCount 0%Z) [].

Definition GetHorizontalAngle (d : FSemanticLidarData) : float := HorizontalAngle d.

Definition SetHorizontalAngle (d : FSemanticLidarData) (a : float) : FSemanticLidarData :=
  mkFSemanticLidarData a (ChannelCount d) (Header d) (SerPoints d).

(** Clears the counts and the stored detections. *)
Definition ResetMemory (d : FSemanticLidarData) (points_per_channel : list Z)
  : FSemanticLidarData :=
  mkFSemanticLidarData (HorizontalAngle d) (ChannelCount d)
                       (replicate (ChannelCount d) 0%Z) [].

Definition WritePointSync (d : FSemanticLidarData) (detection : FSemanticDetection)
  : FSemanticLidarData :=
  mkFSemanticLidarData (HorizontalAngle d) (ChannelCount d) (Header d)
                       (SerPoints d ++ [detection]).

(** Copies one count per channel into the header. *)
Definition WriteChannelCount (d : FSemanticLidarData) (points_per_channel : list Z)
  : outcome FSemanticLidarData :=
  h ← mapM (vector_at points_per_channel) (seq 0 (ChannelCount d));
  mret (mkFSemanticLidarData (HorizontalAngle d) (ChannelCount d) h (SerPoints d)).

(** The members of [ARayCastSemanticLidar] that the tick reads or writes. *)
Record ARayCastSemanticLidar : Type := mkARayCastSemanticLidar {
  Description : FLidarDescription;
  SemanticLidarData : FSemanticLidarData;
  LaserAngles : list float;
  PointsPerChannel : list Z; RecordedHits : list (list FHitResult);
  RayPreprocessCondition : list (list bool);
  GetTransform : FTransform
}.

(** The scene query: what [ParallelLineTraceSingleByChannel] reports for the
    laser of pitch [VerticalAngle] and yaw [HorizontalAngle], cast from the
    sensor's pose over at most [Range]. *)
Definition World : Type := FTransform -> float -> float -> float -> FHitResult.

(** [std::vector::resize] *)
Definition resize {A : Type} (n : nat) (d : A) (l : list A) : list A :=
  take n l ++ replicate (n - length l) d.

(** A counted loop [for (i = 0; i < n; ++i) body], state passed along. *)
Fixpoint foldlM {S I : Type} (body : S -> I -> outcome S) (s : S) (l : list I)
  : outcome S :=
  match l with
  | [] => mret s
  | i :: l' => s' ← body s i; foldlM body s' l'
  end.

Definition for_loop {S : Type} (n : nat) (body : S -> nat -> outcome S) (s : S)
  : outcome S :=
  foldlM body s (seq 0 n).

(** Dereferencing a pointer; null is undefined behaviour. *)
Definition deref {A : Type} (p : option A) : outcome A :=
  match p with
  | Some a => Returned a
  | None => Undefined
  end.

(* ===================================================================== *)
(** ** The texture sampler *)
(* ===================================================================== *)

(** [ARayCastSemanticLidar::GetColorFromTexture].  The compression, mip and
    sRGB settings of the texture are saved, changed and restored; they do
    not enter the colour read and are left out. *)
Definition GetColorFromTexture (texture : UTexture2D) (uvCoordinates : FVector2D)
           (color : FColor) : outcome FColor :=
  FormatedImageData ←
    match Lock texture with
    | Some data => mret data
    | None => UE_LOG LogFatal;; mret []
    end;
  let width := to_uint32 (SizeX texture) in
  let height := to_uint32 (SizeY texture) in
  PixelX ← static_cast_uint8 (roundf (U uvCoordinates * inject_Z width));
  PixelY ← static_cast_uint8 (roundf (V uvCoordinates * inject_Z height));
  (if ((width <=? PixelX) || (height <=? PixelY))%Z
   then UE_LOG LogFatal else mret tt);;
  if ((0 <=? PixelX) && (0 <=? PixelY))%Z
  then deref (FormatedImageData !! Z.to_nat (to_uint32 (PixelY * width + PixelX)))
  else UE_LOG LogFatal;; mret color.

Definition Vector4DuInt_of_FColor (c : FColor) : Vector4DuInt.t :=
  Vector4DuInt.make (R c) (G c) (B c) (A c).

(* ===================================================================== *)
(** ** The hit classifier *)
(* ===================================================================== *)

(** [ARayCastSemanticLidar::ComputeRawDetectionFromMaterialInstance].  The
    three calls of [GetColorFromTexture] are commented out in the source:
    [textureColor] keeps its initial value throughout. *)
Definition ComputeRawDetectionFromMaterialInstance
           (Detection : FSemanticDetection) (materialInstance : UMaterialInstance)
           (Component : UPrimitiveComponent) : outcome FSemanticDetection :=
  let textureColor := mkFColor 0 0 0 0 in
  match length (TextureParameterValues materialInstance) with
  | 0%nat =>
      (* no textures -> check scalar parameters *)
      match length (ScalarParameterValues materialInstance) with
      | 0%nat =>
          (* no scalar parameters either -> check vector parameters *)
          UE_LOG LogWarning;;
          UE_LOG LogWarning;;
          match length (VectorParameterValues materialInstance) with
          | 0%nat =>
              UE_LOG LogWarning;;
              (* error code 6 *)
              let Detection := set_base_color Detection (Vector4DuInt.make 0 0 0 0) in
              let Detection := set_ORME Detection (Vector4DuInt.make 0 0 0 0) in
              let Detection := set_object_idx Detection 6 in
              mret Detection
          | _ =>
              (* list them for now *)
              for_loop (length (ScalarParameterValues materialInstance))
                       (fun _ iparam =>
                          TArray_at (ScalarParameterValues materialInstance) iparam;;
                          UE_LOG LogWarning) tt;;
              UE_LOG LogFatal;;
              (* error code 7 *)
              let Detection := set_base_color Detection (Vector4DuInt.make 0 0 0 0) in
              let Detection := set_ORME Detection (Vector4DuInt.make 0 0 0 0) in
              let Detection := set_object_idx Detection 7 in
              mret Detection
          end
      | _ =>
          (* check if first scalar texture is transparency *)
          p0 ← TArray_at (ScalarParameterValues materialInstance) 0;
          if FName_eqb (ScalarParameterName p0) "Transparency"
          then
            let Detection := set_ORME Detection (Vector4DuInt_of_FColor textureColor) in
            alpha ← static_cast_uint8 (ScalarParameterValue p0 * 256);
            let Detection :=
              set_base_color Detection
                (Vector4DuInt.make (R textureColor) (G textureColor) (B textureColor)
                                   (255 - alpha)) in
            mret Detection
          else
            UE_LOG LogWarning;;
            UE_LOG LogWarning;;
            (* error code 8 *)
            let Detection := set_base_color Detection (Vector4DuInt.make 0 0 0 0) in
            let Detection := set_ORME Detection (Vector4DuInt.make 0 0 0 0) in
            let Detection := set_object_idx Detection 8 in
            mret Detection
      end
  | 1%nat | 2%nat =>
      (* base color + normal *)
      let Detection := set_ORME Detection (Vector4DuInt_of_FColor textureColor) in
      t0 ← TArray_at (TextureParameterValues materialInstance) 0;
      let texture := t ← TextureParameterValue t0; Cast_UTexture2D t in
      (* GetColorFromTexture(texture, uv_coords, textureColor); *)
      let Detection := set_base_color Detection (Vector4DuInt_of_FColor textureColor) in
      mret Detection
  | 3%nat | 4%nat | 13%nat =>
      (* base color + normal + metallic/roughness *)
      t0 ← TArray_at (TextureParameterValues materialInstance) 0;
      let texture := t ← TextureParameterValue t0; Cast_UTexture2D t in
      (* GetColorFromTexture(texture, uv_coords, textureColor); *)
      let Detection := set_base_color Detection (Vector4DuInt_of_FColor textureColor) in
      t2 ← TArray_at (TextureParameterValues materialInstance) 2;
      let texture := t ← TextureParameterValue t2; Cast_UTexture2D t in
      (* GetColorFromTexture(texture, uv_coords, textureColor); *)
      let Detection := set_ORME Detection (Vector4DuInt_of_FColor textureColor) in
      mret Detection
  | _ =>
      UE_LOG LogWarning;;
      UE_LOG LogWarning;;
      UE_LOG LogWarning;;
      (* list them *)
      for_loop (length (TextureParameterValues materialInstance))
               (fun _ itex =>
                  t ← TArray_at (TextureParameterValues materialInstance) itex;
                  deref (TextureParameterValue t);;
                  UE_LOG LogWarning) tt;;
      UE_LOG LogFatal;;
      mret Detection
  end.

(** [ARayCastSemanticLidar::ComputeRawDetectionFromComponent] *)
Definition ComputeRawDetectionFromComponent
           (HitInfo : FHitResult) (Detection : FSemanticDetection)
           (Component : UPrimitiveComponent) : outcome FSemanticDetection :=
  if (FaceIndex HitInfo =? -1)%Z then
    (* error code 2 *)
    UE_LOG LogWarning;;
    UE_LOG LogWarning;;
    let Detection := set_base_color Detection (Vector4DuInt.make 0 0 0 0) in
    let Detection := set_ORME Detection (Vector4DuInt.make 0 0 0 0) in
    let Detection := set_object_idx Detection 2 in
    mret Detection
  else
  (* get UV coords for the mesh we hit *)
  match FindCollisionUV HitInfo 0 with
  | None =>
      (* error code 3 UV result is False *)
      UE_LOG LogWarning;;
      UE_LOG LogWarning;;
      let Detection := set_base_color Detection (Vector4DuInt.make 0 0 0 0) in
      let Detection := set_ORME Detection (Vector4DuInt.make 0 0 0 0) in
      let Detection := set_object_idx Detection 3 in
      mret Detection
  | Some uv_coords =>
  (* get material Interface *)
  match GetMaterialFromCollisionFaceIndex Component (FaceIndex HitInfo) with
  | None =>
      (* error code 4 *)
      UE_LOG LogWarning;;
      UE_LOG LogWarning;;
      let Detection := set_base_color Detection (Vector4DuInt.make 0 0 0 0) in
      let Detection := set_ORME Detection (Vector4DuInt.make 0 0 0 0) in
      let Detection := set_object_idx Detection 4 in
      mret Detection
  | Some matInt =>
  (* get material instance *)
  match Cast_UMaterialInstance matInt with
  | None =>
      (* error code 5 material instance == nullptr *)
      UE_LOG LogWarning;;
      UE_LOG LogWarning;;
      let Detection := set_base_color Detection (Vector4DuInt.make 0 0 0 0) in
      let Detection := set_ORME Detection (Vector4DuInt.make 0 0 0 0) in
      let Detection := set_object_idx Detection 5 in
      mret Detection
  | Some materialInstance =>
      (* Now actually compute the detection parameters *)
      ComputeRawDetectionFromMaterialInstance Detection materialInstance Component
  end end end.

(* ===================================================================== *)
(** ** The sensor *)
(* ===================================================================== *)

Definition set_Description (s : ARayCastSemanticLidar) (d : FLidarDescription) :=
  mkARayCastSemanticLidar d (SemanticLidarData s) (LaserAngles s) (PointsPerChannel s)
                          (RecordedHits s) (RayPreprocessCondition s) (GetTransform s).
Definition set_SemanticLidarData (s : ARayCastSemanticLidar) (d : FSemanticLidarData) :=
  mkARayCastSemanticLidar (Description s) d (LaserAngles s) (PointsPerChannel s)
                          (RecordedHits s) (RayPreprocessCondition s) (GetTransform s).
Definition set_LaserAngles (s : ARayCastSemanticLidar) (l : list float) :=
  mkARayCastSemanticLidar (Description s) (SemanticLidarData s) l (PointsPerChannel s)
                          (RecordedHits s) (RayPreprocessCondition s) (GetTransform s).
Definition set_PointsPerChannel (s : ARayCastSemanticLidar) (l : list Z) :=
  mkARayCastSemanticLidar (Description s) (SemanticLidarData s) (LaserAngles s) l
                          (RecordedHits s) (RayPreprocessCondition s) (GetTransform s).
Definition set_RecordedHits (s : ARayCastSemanticLidar) (l : list (list FHitResult)) :=
  mkARayCastSemanticLidar (Description s) (SemanticLidarData s) (LaserAngles s)
                          (PointsPerChannel s) l (RayPreprocessCondition s) (GetTransform s).
Definition set_RayPreprocessCondition (s : ARayCastSemanticLidar) (l : list (list bool)) :=
  mkARayCastSemanticLidar (Description s) (SemanticLidarData s) (LaserAngles s)
                          (PointsPerChannel s) (RecordedHits s) l (GetTransform s).

(** [ARayCastSemanticLidar::CreateLasers] *)
Definition CreateLasers (s : ARayCastSemanticLidar) : outcome ARayCastSemanticLidar :=
  let NumberOfLasers := Channels (Description s) in
  check (0 <? NumberOfLasers)%nat;;
  let DeltaAngle : float :=
    if (NumberOfLasers =? 1)%nat then 0
    else (UpperFovLimit (Description s) - LowerFovLimit (Description s))
         / float_of_nat (NumberOfLasers - 1) in
  let LaserAngles := [] in
  let LaserAngles :=
    fold_left (fun LaserAngles i =>
                 let VerticalAngle :=
                   UpperFovLimit (Description s) - float_of_nat i * DeltaAngle in
                 LaserAngles ++ [VerticalAngle])
              (seq 0 NumberOfLasers) LaserAngles in
  mret (set_LaserAngles s LaserAngles).

(** [ARayCastSemanticLidar::Set(const FLidarDescription &)] *)
Definition Set_ (s : ARayCastSemanticLidar) (LidarDescription : FLidarDescription)
  : outcome ARayCastSemanticLidar :=
  let s := set_Description s LidarDescription in
  let s := set_SemanticLidarData s (FSemanticLidarData_new (Channels (Description s))) in
  s ← CreateLasers s;
  mret (set_PointsPerChannel s
          (resize (Channels (Description s)) 0%Z (PointsPerChannel s))).

(** [ARayCastSemanticLidar::ResetRecordedHits] *)
Definition ResetRecordedHits (s : ARayCastSemanticLidar)
           (Channels MaxPointsPerChannel : nat) : ARayCastSemanticLidar :=
  let RecordedHits := resize Channels [] (RecordedHits s) in
  set_RecordedHits s ((fun hits => []) <$> RecordedHits).

(** [ARayCastSemanticLidar::PreprocessRays] *)
Definition PreprocessRays (s : ARayCastSemanticLidar)
           (Channels MaxPointsPerChannel : nat) : ARayCastSemanticLidar :=
  let RayPreprocessCondition := resize Channels [] (RayPreprocessCondition s) in
  set_RayPreprocessCondition s
    ((fun conds => replicate MaxPointsPerChannel true) <$> RayPreprocessCondition).

(** [ARayCastSemanticLidar::WritePointAsync] *)
Definition WritePointAsync (s : ARayCastSemanticLidar) (channel : nat)
           (detection : FHitResult) : outcome ARayCastSemanticLidar :=
  hits ← vector_at (RecordedHits s) channel;
  mret (set_RecordedHits s (<[channel := hits ++ [detection]]> (RecordedHits s))).

(** [ARayCastSemanticLidar::ShootLaser]: always reports [true]; the end of
    the trace is overwritten with the two angles and the distance. *)
Definition ShootLaser (W : World) (s : ARayCastSemanticLidar)
           (VerticalAngle HorizontalAngle : float) : bool * FHitResult :=
  let ActorTransf := GetTransform s in
  let Range := Range (Description s) in
  let HitInfo := W ActorTransf Range VerticalAngle HorizontalAngle in
  let HitResult := HitInfo in
  if bBlockingHit HitResult
  then (true, set_TraceEnd HitResult
                (mkFVector VerticalAngle HorizontalAngle (Distance HitResult)))
  else (true, set_TraceEnd HitResult (mkFVector VerticalAngle HorizontalAngle 0)).

Section Host.

(** [FVector::GetSafeNormal] of the host engine: the vector scaled to
    unit length (a square root; left abstract). *)
Variable GetSafeNormal : FVector -> FVector.

(** The constant pi as the sensor's unit conversions use it. *)
Variable Pi : float.

(** Modelled from the spec: [carla::geom::Math] is not among the sources.
    Section 4.4: the advanced angle is "converted to the angle's working
    unit"; the sweep keeps radians, the scan is planned in degrees. *)
Definition ToDegrees (rad : float) : float := rad * (180 / Pi).
Definition ToRadians (deg : float) : float := deg * (Pi / 180).

(** [ARayCastSemanticLidar::ComputeRawDetection] *)
Definition ComputeRawDetection (HitInfo : FHitResult) (SensorTransf : FTransform)
           (Detection : FSemanticDetection) : outcome FSemanticDetection :=
  (* always keep angles *)
  let Detection :=
    set_point Detection (mkFVector (X (TraceEnd HitInfo)) (Y (TraceEnd HitInfo))
                                   (Z_ (TraceEnd HitInfo))) in
  UE_LOG LogWarning;;
  if bBlockingHit HitInfo then
    let HitPoint := ImpactPoint HitInfo in
    let VecInc :=
      FVector_neg (GetSafeNormal (FVector_sub HitPoint (GetLocation SensorTransf))) in
    let Detection :=
      set_cos_inc_angle Detection (DotProduct VecInc (ImpactNormal HitInfo)) in
    let Detection := set_object_idx Detection 0 in
    c ← deref (Component HitInfo);
    let Detection := set_object_tag Detection (CustomDepthStencilValue c) in
    let comp := c ← Component HitInfo; if IsStaticMesh c then Some c else None in
    match comp with
    | Some comp => ComputeRawDetectionFromComponent HitInfo Detection comp
    | None =>
        (* error code 1  component is nullptr *)
        UE_LOG LogWarning;;
        let Detection := set_base_color Detection (Vector4DuInt.make 1 0 0 0) in
        let Detection := set_ORME Detection (Vector4DuInt.make 0 0 0 0) in
        let Detection := set_object_idx Detection 1 in
        mret Detection
    end
  else
    (* nothing was hit within range *)
    let Detection := set_cos_inc_angle Detection 2 in
    let Detection := set_object_idx Detection 0 in
    let Detection := set_object_tag Detection 0 in
    let Detection := set_base_color Detection (Vector4DuInt.make 0 0 0 0) in
    let Detection := set_ORME Detection (Vector4DuInt.make 0 0 0 0) in
    mret Detection.

(** [ARayCastSemanticLidar::ComputeAndSaveDetections] *)
Definition ComputeAndSaveDetections (s : ARayCastSemanticLidar)
           (SensorTransform : FTransform) : outcome ARayCastSemanticLidar :=
  s ← for_loop (Channels (Description s))
        (fun s idxChannel =>
           hits ← vector_at (RecordedHits s) idxChannel;
           vector_at (PointsPerChannel s) idxChannel;;
           mret (set_PointsPerChannel s
                   (<[idxChannel := to_uint32 (Z.of_nat (length hits))]>
                      (PointsPerChannel s)))) s;
  let s := set_SemanticLidarData s
             (ResetMemory (SemanticLidarData s) (PointsPerChannel s)) in
  s ← for_loop (Channels (Description s))
        (fun s idxChannel =>
           hits ← vector_at (RecordedHits s) idxChannel;
           foldlM (fun s hit =>
                     let detection := FSemanticDetection_default in
                     detection ← ComputeRawDetection hit SensorTransform detection;
                     mret (set_SemanticLidarData s
                             (WritePointSync (SemanticLidarData s) detection)))
                  s hits) s;
  d ← WriteChannelCount (SemanticLidarData s) (PointsPerChannel s);
  mret (set_SemanticLidarData s d).

(** The horizontal angle of sample [idxPtsOneLaser], as the loop of
    [SimulateLidar] computes it. *)
Definition HorizAngle (s : ARayCastSemanticLidar)
           (CurrentHorizontalAngle AngleDistanceOfLaserMeasure : float)
           (idxPtsOneLaser : nat) : float :=
  fmod (CurrentHorizontalAngle
        + AngleDistanceOfLaserMeasure * float_of_nat idxPtsOneLaser)
       (HorizontalFov (Description s))
  - HorizontalFov (Description s) / 2.

(** The parallel region of [SimulateLidar].  Each task appends to the
    buffer of its own channel only, so the tasks are run one after the
    other, in the order of the channels. *)
Definition ParallelFor_Channels (W : World) (s : ARayCastSemanticLidar)
           (ChannelCount PointsToScanWithOneLaser : nat)
           (CurrentHorizontalAngle AngleDistanceOfLaserMeasure : float)
  : outcome ARayCastSemanticLidar :=
  for_loop ChannelCount
    (fun s idxChannel =>
       for_loop PointsToScanWithOneLaser
         (fun s idxPtsOneLaser =>
            VertAngle ← TArray_at (LaserAngles s) idxChannel;
            let HorizAngle :=
              HorizAngle s CurrentHorizontalAngle AngleDistanceOfLaserMeasure
                         idxPtsOneLaser in
            (* always write pt *)
            let '(_, HitResult) := ShootLaser W s VertAngle HorizAngle in
            (WritePointAsync s idxChannel HitResult)) s) s.

(** [ARayCastSemanticLidar::SimulateLidar] *)
Definition SimulateLidar (W : World) (s : ARayCastSemanticLidar) (DeltaTime : float)
  : outcome ARayCastSemanticLidar :=
  let ChannelCount := Channels (Description s) in
  PointsToScanWithOneLaser ←
    float_to_uint32
      (RoundHalfFromZero
         (float_of_nat (PointsPerSecond (Description s)) * DeltaTime
          / float_of_nat ChannelCount));
  if (PointsToScanWithOneLaser <=? 0)%Z then
    UE_LOG LogWarning;;
    mret s
  else
    check (ChannelCount =? length (LaserAngles s))%nat;;
    let CurrentHorizontalAngle :=
      ToDegrees (GetHorizontalAngle (SemanticLidarData s)) in
    let AngleDistanceOfTick :=
      RotationFrequency (Description s) * HorizontalFov (Description s) * DeltaTime in
    let AngleDistanceOfLaserMeasure :=
      AngleDistanceOfTick / inject_Z PointsToScanWithOneLaser in
    let s := ResetRecordedHits s ChannelCount (Z.to_nat PointsToScanWithOneLaser) in
    let s := PreprocessRays s ChannelCount (Z.to_nat PointsToScanWithOneLaser) in
    s ← ParallelFor_Channels W s ChannelCount (Z.to_nat PointsToScanWithOneLaser)
          CurrentHorizontalAngle AngleDistanceOfLaserMeasure;
    let ActorTransf := GetTransform s in
    s ← ComputeAndSaveDetections s ActorTransf;
    let HorizontalAngle :=
      ToRadians (fmod (CurrentHorizontalAngle + AngleDistanceOfTick)
                      (HorizontalFov (Description s))) in
    mret (set_SemanticLidarData s
            (SetHorizontalAngle (SemanticLidarData s) HorizontalAngle)).

(** [ARayCastSemanticLidar::PostPhysTick]: the tick, then the sweep is
    handed to the stream, which leaves the sensor as it is. *)
Definition PostPhysTick (W : World) (s : ARayCastSemanticLidar) (DeltaTime : float)
  : outcome ARayCastSemanticLidar :=
  SimulateLidar W s DeltaTime.

(** [N] ticks of the same elapsed time. *)
Fixpoint Ticks (W : World) (s : ARayCastSemanticLidar) (DeltaTime : float) (N : nat)
  : outcome ARayCastSemanticLidar :=
  match N with
  | O => mret s
  | S N' => s' ← PostPhysTick W s DeltaTime; Ticks W s' DeltaTime N'
  end.

End Host.

(* ===================================================================== *)
(** ** The branches of the decision ladder, as the specification names them *)
(* ===================================================================== *)

Definition zero_quad : Vector4DuInt.t := Vector4DuInt.Build 0 0 0 0.

(** The material instance on which the ladder ends, if it gets that far:
    a valid face index, a UV lookup that succeeds, a bound material that is
    an instance (branches 2 to 5 are the four ways to stop before). *)
Definition reached_material (HitInfo : FHitResult) (comp : UPrimitiveComponent)
  : option UMaterialInstance :=
  if (FaceIndex HitInfo =? -1)%Z then None
  else _ ← FindCollisionUV HitInfo 0;
       m ← GetMaterialFromCollisionFaceIndex comp (FaceIndex HitInfo);
       Cast_UMaterialInstance m.

(** Branch 7 (vector parameters only) and branch 12 (a texture count
    outside 0, 1, 2, 3, 4, 13). *)
Definition vector_only (mi : UMaterialInstance) : bool :=
  (length (TextureParameterValues mi) =? 0)%nat
  && (length (ScalarParameterValues mi) =? 0)%nat
  && negb (length (VectorParameterValues mi) =? 0)%nat.

Definition unsupported_texture_count (mi : UMaterialInstance) : bool :=
  let n := length (TextureParameterValues mi) in
  negb ((n <=? 4)%nat || (n =? 13)%nat).

(** Branch 9 with a transparency whose 256-fold does not truncate into a
    byte. *)
Definition transparency_out_of_range (mi : UMaterialInstance) : bool :=
  (length (TextureParameterValues mi) =? 0)%nat
  && match ScalarParameterValues mi with
     | p :: _ =>
         FName_eqb (ScalarParameterName p) "Transparency"
         && negb ((0 <=? Qtrunc (ScalarParameterValue p * 256))
                  && (Qtrunc (ScalarParameterValue p * 256) <=? 255))%Z
     | [] => false
     end.

(** A material instance on which the ladder returns. *)
Definition material_classifiable (mi : UMaterialInstance) : bool :=
  negb (vector_only mi || unsupported_texture_count mi || transparency_out_of_range mi).

(** The material instance on which the whole ladder ends: the component
    must be a static mesh first (branch 1 otherwise). *)
Definition ladder_material (HitInfo : FHitResult) (c : UPrimitiveComponent)
  : option UMaterialInstance :=
  if IsStaticMesh c then reached_material HitInfo c else None.

(** The fields that the ladder below the component never writes. *)
Definition same_frame (d D : FSemanticDetection) : Prop :=
  point d = point D /\ cos_inc_angle d = cos_inc_angle D /\ object_tag d = object_tag D.

(** The alpha that the specification states for branch 9:
    [255 - round(v * 256)], clamped to a byte. *)
Definition clamp_byte (n : Z) : Z := Z.max 0 (Z.min 255 n).

Definition spec_transparency_alpha (v : float) : Z :=
  clamp_byte (255 - Qfloor (roundf (v * 256))).

(** [wrap v m = v mod m], with the result in [[0, m)]. *)
Definition wrap (v m : float) : float := v - inject_Z (Qfloor (v / m)) * m.

(* ===================================================================== *)
(** ** Concrete scenes for the examples *)
(* ===================================================================== *)

(** A rational normalisation for the examples: exact on vectors of length
    one, zero below the engine's tolerance, and a scaling by a rational
    approximation of the length otherwise. *)
Definition Qsqrt_approx (q : Q) : Q :=
  Z.sqrt (Qnum q * Zpos (Qden q) * 2 ^ 48) # (Qden q * 2 ^ 24).

Definition GetSafeNormal_rat (v : FVector) : FVector :=
  let SquareSum := X v * X v + Y v * Y v + Z_ v * Z_ v in
  if Qeq_bool SquareSum 1 then v
  else if Qle_bool SquareSum (1 # 100000000) then ZeroVector
  else let Scale := / Qsqrt_approx SquareSum in
       mkFVector (X v * Scale) (Y v * Scale) (Z_ v * Scale).

Definition Pi_rat : float := 3141592653589793 # 1000000000000000.

Definition origin : FTransform := mkFTransform ZeroVector ZeroVector.

Definition red : FColor := mkFColor 255 0 0 255.
Definition green : FColor := mkFColor 0 255 0 255.

Definition one_pixel (c : FColor) : UTexture :=
  mkUTexture "T" (Some (mkUTexture2D 1 1 (Some [c]))).

Definition texture_param (c : FColor) : FTextureParameterValue :=
  mkFTextureParameterValue "P" (Some (one_pixel c)).

(** Three textures: red at index 0, green at index 2. *)
Definition layered_material : UMaterialInstance :=
  mkUMaterialInstance "M_Layered"
    [texture_param red; texture_param (mkFColor 9 9 9 9); texture_param green] [] [].

(** No texture, one scalar named Transparency. *)
Definition glass_material (v : float) : UMaterialInstance :=
  mkUMaterialInstance "M_Glass" [] [mkFScalarParameterValue "Transparency" v] [].

(** No texture, no scalar, one vector parameter. *)
Definition tinted_material : UMaterialInstance :=
  mkUMaterialInstance "M_Tint" [] []
    [mkFVectorParameterValue "Tint" (1, 0, 0, 1)].

Definition mesh_with (m : option UMaterialInterface) (stencil : Z) : UPrimitiveComponent :=
  mkUPrimitiveComponent "SM_Wall" true stencil
    (fun _ _ _ => Some (mkFVector2D 0 0)) (fun _ => m).

(** A component that is not a static mesh. *)
Definition landscape (stencil : Z) : UPrimitiveComponent :=
  mkUPrimitiveComponent "Landscape" false stencil (fun _ _ _ => None) (fun _ => None).

(** A blocking hit one unit ahead of the sensor, the normal facing it. *)
Definition hit_on (c : UPrimitiveComponent) : FHitResult :=
  mkFHitResult true 1 (mkFVector 1 0 0) (mkFVector 1 0 0) (mkFVector (-1) 0 0)
               (mkFVector 0 0 1) 0 (Some c).

Definition miss : FHitResult :=
  mkFHitResult false 0 ZeroVector ZeroVector ZeroVector ZeroVector (-1) None.

Definition empty_world : World := fun _ _ _ _ => miss.

Definition blank_sensor : ARayCastSemanticLidar :=
  mkARayCastSemanticLidar (mkFLidarDescription 0 0 0 0 0 0 0)
                          (FSemanticLidarData_new 0) [] [] [] [] origin.

(** The vertical angle of laser [i], in closed form. *)
Definition DeltaAngle_of (d : FLidarDescription) : float :=
  if (Channels d =? 1)%nat then 0
  else (UpperFovLimit d - LowerFovLimit d) / float_of_nat (Channels d - 1).

Definition laser_angle (d : FLidarDescription) (i : nat) : float :=
  UpperFovLimit d - float_of_nat i * DeltaAngle_of d.




(** The hit recorded for the laser of vertical angle [a] at sample [j], and
    the row of a channel after [n] samples. *)
Definition recorded_hit (W : World) (s : ARayCastSemanticLidar)
           (cur step : float) (a : float) (j : nat) : FHitResult :=
  snd (ShootLaser W s a (HorizAngle s cur step j)).

Definition recorded_row (W : World) (s : ARayCastSemanticLidar)
           (cur step : float) (n : nat) (a : float) : list FHitResult :=
  recorded_hit W s cur step a <$> seq 0 n.

(** Two states of the sensor with the same configuration. *)
Definition same_config (s s' : ARayCastSemanticLidar) : Prop :=
  Description s' = Description s
  /\ GetTransform s' = GetTransform s
  /\ LaserAngles s' = LaserAngles s.

(** The sensor as [Set_] leaves it: at least one channel, and the buffers
    sized for the channels of the description. *)
Definition sensor_sized (s : ARayCastSemanticLidar) : Prop :=
  (1 <= Channels (Description s))%nat
  /\ length (LaserAngles s) = Channels (Description s)
  /\ length (PointsPerChannel s) = Channels (Description s)
  /\ ChannelCount (SemanticLidarData s) = Channels (Description s).

(** The points to scan with one laser, as [SimulateLidar] computes them. *)
Definition PointsToScan (d : FLidarDescription) (DeltaTime : float) : outcome Z :=
  float_to_uint32
    (RoundHalfFromZero
       (float_of_nat (PointsPerSecond d) * DeltaTime / float_of_nat (Channels d))).

Definition write_all (d : FSemanticLidarData) (ds : list FSemanticDetection)
  : FSemanticLidarData :=
  fold_left WritePointSync ds d.

Definition hit_count (hits : list FHitResult) : Z := to_uint32 (Z.of_nat (length hits)).

(** Classifying one recorded hit, from a fresh detection. *)
Definition classify (GetSafeNormal : FVector -> FVector) (T : FTransform)
           (hit : FHitResult) : outcome FSemanticDetection :=
  ComputeRawDetection GetSafeNormal hit T FSemanticDetection_default.

(** The state in which a tick that scans [ppl] points per laser returns,
    given the detections [ds] of the recorded hits. *)
Definition after_tick (Pi : float) (W : World) (s : ARayCastSemanticLidar)
           (DeltaTime : float) (ppl : Z) (ds : list FSemanticDetection)
  : ARayCastSemanticLidar :=
  let d := Description s in
  let cur := ToDegrees Pi (GetHorizontalAngle (SemanticLidarData s)) in
  let adv := RotationFrequency d * HorizontalFov d * DeltaTime in
  let rows := recorded_row W s cur (adv / inject_Z ppl) (Z.to_nat ppl) <$> LaserAngles s in
  mkARayCastSemanticLidar
    d
    (mkFSemanticLidarData (ToRadians Pi (fmod (cur + adv) (HorizontalFov d)))
                          (Channels d) (hit_count <$> rows) ds)
    (LaserAngles s)
    (hit_count <$> rows)
    rows
    (replicate (Channels d) (replicate (Z.to_nat ppl) true))
    (GetTransform s).

(** The angle that a tick which scans stores, from the angle stored
    before it: the expressions of [SimulateLidar] for
    [CurrentHorizontalAngle], [AngleDistanceOfTick] and [HorizontalAngle]. *)
Definition advance_angle (Pi : float) (d : FLidarDescription) (DeltaTime : float)
           (stored : float) : float :=
  let CurrentHorizontalAngle := ToDegrees Pi stored in
  let AngleDistanceOfTick := RotationFrequency d * HorizontalFov d * DeltaTime in
  ToRadians Pi (fmod (CurrentHorizontalAngle + AngleDistanceOfTick) (HorizontalFov d)).

(** The sensor after [Set_] on a blank one (the blank one itself if [Set_]
    halts). *)
Definition configured (d : FLidarDescription) : ARayCastSemanticLidar :=
  match Set_ blank_sensor d with
  | Returned s => s
  | _ => blank_sensor
  end.

(** Four channels from 10 down to -30 degrees, a full turn per second. *)
Definition four_lasers : FLidarDescription :=
  mkFLidarDescription 4 100 8 1 10 (-30) 360.


(** One point per second on one channel: a quarter of a second asks for a
    quarter of a point, which rounds to none. *)
Definition sparse_lidar : FLidarDescription :=
  mkFLidarDescription 1 100 1 1 10 (-30) 360.

(** A sensor that turns backwards, eight points per second. *)
Definition reversed_lidar : FLidarDescription :=
  mkFLidarDescription 1 100 8 (-1) 10 (-30) 360.

Definition wall (m : UMaterialInstance) : UPrimitiveComponent :=
  mesh_with (Some (MaterialInstance m)) 7.

(* ===================================================================== *)
(** ** The angles in binary32 *)
(* ===================================================================== *)

(** The expressions of [CreateLasers] for the angle of laser [i] and of
    [SimulateLidar] for the points to scan and the stored angle, with
    every operation rounded to IEEE binary32 (24 bits of precision, round
    to nearest, ties to even).  They are evaluated where a statement of
    the specification holds in exact arithmetic and not in the code. *)

Module Binary32.

Definition prec : Z := 24.
Definition emax : Z := 128.

Definition of_Z (n : Z) : spec_float := binary_normalize prec emax n 0 false.

(** The value of a finite number. *)
Definition to_Q (x : spec_float) : Q :=
  match x with
  | S754_finite s m e =>
      inject_Z (if s then Z.neg m else Z.pos m)
      * (if (0 <=? e)%Z then inject_Z (2 ^ e) else / inject_Z (2 ^ (- e)))
  | _ => 0
  end.

Definition VerticalAngle (UpperFovLimit LowerFovLimit : spec_float)
           (NumberOfLasers i : nat) : spec_float :=
  let DeltaAngle :=
    if (NumberOfLasers =? 1)%nat then S754_zero false
    else SFdiv prec emax (SFsub prec emax UpperFovLimit LowerFovLimit)
                         (of_Z (Z.of_nat (NumberOfLasers - 1))) in
  SFsub prec emax UpperFovLimit (SFmul prec emax (of_Z (Z.of_nat i)) DeltaAngle).

Definition LaserAngles (UpperFovLimit LowerFovLimit : spec_float) (NumberOfLasers : nat)
  : list spec_float :=
  map (VerticalAngle UpperFovLimit LowerFovLimit NumberOfLasers) (seq 0 NumberOfLasers).

(** No angle of the list is above the one before it. *)
Fixpoint never_increasing_b (l : list spec_float) : bool :=
  match l with
  | a :: (b :: _) as t => SFleb b a && never_increasing_b t
  | _ => true
  end.

(** The binary32 number nearest to pi, 13176795 * 2^-22. *)
Definition Pi : spec_float := S754_finite false 13176795 (-22).

(** The unit conversions, as modelled above, with the quotient of the two
    constants and the product rounded. *)
Definition ToDegrees (rad : spec_float) : spec_float :=
  SFmul prec emax rad (SFdiv prec emax (of_Z 180) Pi).
Definition ToRadians (deg : spec_float) : spec_float :=
  SFmul prec emax deg (SFdiv prec emax Pi (of_Z 180)).

(** [std::fmod]: the remainder of the truncated quotient, which is a
    binary32 number again, so that nothing is rounded; it has the sign of
    the dividend. *)
Definition fmod (x y : spec_float) : spec_float :=
  match x, y with
  | S754_finite sx mx ex, S754_finite sy my ey =>
      let e := Z.min ex ey in
      let r := Z.rem (Z.pos mx * 2 ^ (ex - e)) (Z.pos my * 2 ^ (ey - e)) in
      binary_normalize prec emax (if sx then (- r)%Z else r) e sx
  | S754_zero _, S754_finite _ _ _ => x
  | S754_finite _ _ _, S754_infinity _ => x
  | S754_zero _, S754_infinity _ => x
  | _, _ => S754_nan
  end.

(** The points to scan with one laser: the quotient in binary32, then
    rounded and converted as in the tick. *)
Definition PointsToScan (PointsPerSecond : Z) (DeltaTime : spec_float) (ChannelCount : Z)
  : outcome Z :=
  float_to_uint32
    (RoundHalfFromZero
       (to_Q (SFdiv prec emax (SFmul prec emax (of_Z PointsPerSecond) DeltaTime)
                    (of_Z ChannelCount)))).

(** The stored angle after a tick that scans: [advance_angle] with every
    operation rounded. *)
Definition advance_angle (RotationFrequency HorizontalFov DeltaTime : spec_float)
           (stored : spec_float) : spec_float :=
  let CurrentHorizontalAngle := ToDegrees stored in
  let AngleDistanceOfTick :=
    SFmul prec emax (SFmul prec emax RotationFrequency HorizontalFov) DeltaTime in
  ToRadians (fmod (SFadd prec emax CurrentHorizontalAngle AngleDistanceOfTick)
                  HorizontalFov).

(** 0.7f, the binary32 number nearest to 0.7: 11744051 * 2^-24. *)
Definition seven_tenths : spec_float := S754_finite false 11744051 (-24).

(** The largest binary32 number below 1. *)
Definition below_one : spec_float := S754_finite false 16777215 (-24).

End Binary32.

(* ===================================================================== *)
(** ** Further notions used by the properties below *)
(* ===================================================================== *)

(** A quad whose four components are bytes, as every [uint8_t] member is. *)
Definition is_quad (v : Vector4DuInt.t) : Prop :=
  (0 <= Vector4DuInt.x v < 256)%Z /\ (0 <= Vector4DuInt.y v < 256)%Z
  /\ (0 <= Vector4DuInt.z v < 256)%Z /\ (0 <= Vector4DuInt.w v < 256)%Z.

(** Shapes of a material instance that end the ladder on an error code:
    no parameter at all (code 6); no texture and a first scalar that is
    not named Transparency (code 8). *)
Definition no_parameters (mi : UMaterialInstance) : bool :=
  (length (TextureParameterValues mi) =? 0)%nat
  && (length (ScalarParameterValues mi) =? 0)%nat
  && (length (VectorParameterValues mi) =? 0)%nat.

Definition opaque_scalar (mi : UMaterialInstance) : bool :=
  (length (TextureParameterValues mi) =? 0)%nat
  && match ScalarParameterValues mi with
     | p :: _ => negb (FName_eqb (ScalarParameterName p) "Transparency")
     | [] => false
     end.


(** The index that the ladder gives a blocking hit on component [c], read
    off the tests of the three classifier functions in their order. *)
Definition ladder_code (HitInfo : FHitResult) (c : UPrimitiveComponent) : Z :=
  if negb (IsStaticMesh c) then 1
  else if (FaceIndex HitInfo =? -1)%Z then 2
  else match FindCollisionUV HitInfo 0 with
       | None => 3
       | Some _ =>
           match GetMaterialFromCollisionFaceIndex c (FaceIndex HitInfo) with
           | None => 4
           | Some m =>
               match Cast_UMaterialInstance m with
               | None => 5
               | Some mi => if no_parameters mi then 6
                            else if opaque_scalar mi then 8 else 0
               end
           end
       end.

(** A hit whose component pointer has gone stale. *)
Definition set_Component_none (h : FHitResult) : FHitResult :=
  mkFHitResult (bBlockingHit h) (Distance h) (Location h) (ImpactPoint h)
               (ImpactNormal h) (TraceEnd h) (FaceIndex h) None.

(** The pixel column (or row) that the sampler computes for the texture
    coordinate [u] and the texture width (or height) [size]. *)
Definition pixel_coordinate (u : float) (size : Z) : Z :=
  Qtrunc (roundf (u * inject_Z size)).

(** A texture of two by two pixels. *)
Definition checker : UTexture2D :=
  mkUTexture2D 2 2 (Some [red; green; green; red]).

(** A sensor of two channels whose buffers hold one and two misses. *)
Definition buffered : ARayCastSemanticLidar :=
  mkARayCastSemanticLidar (mkFLidarDescription 2 100 8 1 10 (-30) 360)
                          (FSemanticLidarData_new 2) [10; -30] [0%Z; 0%Z]
                          [[miss]; [miss; miss]] [] origin.

(** The same sensor with the buffer of the second channel missing. *)
Definition short_buffered : ARayCastSemanticLidar :=
  set_RecordedHits buffered [[miss]].

(** A scene in which every ray strikes a wall whose material has vector
    parameters only, and one in which every ray strikes the ground, three
    units away. *)
Definition tinted_world : World := fun _ _ _ _ => hit_on (wall tinted_material).

Definition ground_world : World := fun _ _ _ _ =>
  mkFHitResult true 3 (mkFVector 3 0 0) (mkFVector 3 0 0) (mkFVector (-1) 0 0)
               (mkFVector 0 0 1) 0 (Some (landscape 7)).

(** The configured sensor with leftovers of an earlier sweep in its
    buffers. *)
Definition stale_sensor : ARayCastSemanticLidar :=
  mkARayCastSemanticLidar
    (Description (configured four_lasers))
    (WritePointSync (SemanticLidarData (configured four_lasers))
                    FSemanticDetection_default)
    (LaserAngles (configured four_lasers))
    [7%Z; 7%Z; 7%Z; 7%Z]
    [[miss]; [miss; miss]]
    [[false]]
    (GetTransform (configured four_lasers)).

(** The quotient that [SimulateLidar] rounds to the points per laser. *)
Definition points_quotient (d : FLidarDescription) (DeltaTime : float) : float :=
  float_of_nat (PointsPerSecond d) * DeltaTime / float_of_nat (Channels d).

(** A static mesh hit that carries no face index. *)
Definition faceless (h : FHitResult) : FHitResult :=
  mkFHitResult (bBlockingHit h) (Distance h) (Location h) (ImpactPoint h)
               (ImpactNormal h) (TraceEnd h) (-1) (Component h).

(** The configured sensor with its stored angle at 350 degrees. *)
Definition turned_sensor : ARayCastSemanticLidar :=
  set_SemanticLidarData (configured four_lasers)
    (SetHorizontalAngle (SemanticLidarData (configured four_lasers))
                        (ToRadians Pi_rat 350)).

(* ===================================================================== *)
(** ** Properties of the classifier *)
(* ===================================================================== *)

Lemma to_uint32_small (n : Z) : (0 <= n < 2 ^ 32)%Z -> to_uint32 n = n.
Proof. intros H. unfold to_uint32. apply Z.mod_small. exact H. Qed.

Lemma to_uint8_small (n : Z) : (0 <= n <= 255)%Z -> to_uint8 n = n.
Proof. intros H. unfold to_uint8. apply Z.mod_small. lia. Qed.

Lemma TArray_at_lt {A : Type} (l : list A) (i : nat) :
  (i < length l)%nat -> exists a, l !! i = Some a /\ TArray_at l i = Returned a.
Proof.
  intros H. destruct (lookup_lt_is_Some_2 l i H) as [a Ha].
  exists a. split; [exact Ha|]. unfold TArray_at. rewrite Ha. reflexivity.
Qed.

(** The listing loops of the two fatal branches only log. *)
Lemma listing_scalars_returns (mi : UMaterialInstance) (n : nat) :
  (n <= length (ScalarParameterValues mi))%nat ->
  for_loop n (fun (_ : unit) iparam =>
                TArray_at (ScalarParameterValues mi) iparam;; UE_LOG LogWarning) tt
  = Returned tt.
Proof.
  unfold for_loop. intros Hn.
  assert (G : forall l, Forall (fun i => (i < length (ScalarParameterValues mi))%nat) l ->
          foldlM (fun (_ : unit) iparam =>
                    TArray_at (ScalarParameterValues mi) iparam;; UE_LOG LogWarning) tt l
          = Returned tt).
  { induction l as [|i l IH]; intros HF; [reflexivity|].
    inversion HF as [|? ? Hi HF']; subst. simpl.
    destruct (TArray_at_lt _ _ Hi) as [a [_ Ha]]. rewrite Ha. simpl. apply IH, HF'. }
  apply G. apply Forall_forall. intros i Hi. apply elem_of_seq in Hi. lia.
Qed.

Lemma Qtrunc_byte (q : Q) :
  -1 < q -> q < 256 -> (0 <= Qtrunc q <= 255)%Z.
Proof.
  destruct q as [n d]. unfold Qlt, Qtrunc. simpl. intros Hlo Hhi.
  destruct (Z_lt_le_dec n 0) as [Hneg|Hpos].
  - assert (E : Z.quot n (Z.pos d) = 0%Z).
    { replace n with (- (- n))%Z by lia. rewrite Z.quot_opp_l by lia.
      rewrite Z.quot_small by lia. reflexivity. }
    rewrite E. lia.
  - rewrite Z.quot_div_nonneg by lia. split.
    + apply Z.div_pos; lia.
    + assert (n / Z.pos d < 256)%Z; [|lia].
      apply Z.div_lt_upper_bound; lia.
Qed.

Lemma Qtrunc_byte_b (q : Q) :
  -1 < q -> q < 256 -> ((0 <=? Qtrunc q) && (Qtrunc q <=? 255))%Z = true.
Proof.
  intros Hlo Hhi. destruct (Qtrunc_byte q Hlo Hhi) as [H0 H1].
  apply andb_true_intro. split; apply Z.leb_le; assumption.
Qed.

(** Branch 7 halts: the fatal log comes before the assignments. *)
Lemma vector_only_halts (D : FSemanticDetection) (mi : UMaterialInstance)
      (comp : UPrimitiveComponent) :
  vector_only mi = true -> ComputeRawDetectionFromMaterialInstance D mi comp = Fatal.
Proof.
  unfold vector_only, ComputeRawDetectionFromMaterialInstance. intros H.
  apply andb_prop in H as [H Hv]. apply andb_prop in H as [Ht Hs].
  apply Nat.eqb_eq in Ht. apply Nat.eqb_eq in Hs. rewrite Ht.
  pose proof (listing_scalars_returns mi (length (ScalarParameterValues mi)) (le_n _)) as L.
  rewrite Hs in *. destruct (length (VectorParameterValues mi)); [discriminate|].
  simpl. reflexivity.
Qed.

(** Textures at 3, 4 or 13: both quads are built from [textureColor], which
    is still [FColor(0, 0, 0, 0)]. *)
Lemma layered_returns_zero (D : FSemanticDetection) (mi : UMaterialInstance)
      (comp : UPrimitiveComponent) :
  let n := length (TextureParameterValues mi) in
  n = 3%nat \/ n = 4%nat \/ n = 13%nat ->
  ComputeRawDetectionFromMaterialInstance D mi comp
  = Returned (set_ORME (set_base_color D zero_quad) zero_quad).
Proof.
  intros n Hn. unfold ComputeRawDetectionFromMaterialInstance. fold n.
  destruct (TArray_at_lt (TextureParameterValues mi) 0) as [a0 [_ E0]]; [fold n; lia|].
  destruct (TArray_at_lt (TextureParameterValues mi) 2) as [a2 [_ E2]]; [fold n; lia|].
  rewrite E0, E2.
  destruct Hn as [Hn|[Hn|Hn]]; rewrite Hn; reflexivity.
Qed.

(** One or two textures: the same. *)
Lemma base_only_returns_zero (D : FSemanticDetection) (mi : UMaterialInstance)
      (comp : UPrimitiveComponent) :
  let n := length (TextureParameterValues mi) in
  n = 1%nat \/ n = 2%nat ->
  ComputeRawDetectionFromMaterialInstance D mi comp
  = Returned (set_base_color (set_ORME D zero_quad) zero_quad).
Proof.
  intros n Hn. unfold ComputeRawDetectionFromMaterialInstance. fold n.
  destruct (TArray_at_lt (TextureParameterValues mi) 0) as [a0 [_ E0]]; [fold n; lia|].
  rewrite E0.
  destruct Hn as [Hn|Hn]; rewrite Hn; reflexivity.
Qed.

(** More than four textures and not thirteen: the listing loop, then the
    fatal log. *)
Lemma unsupported_count_never_returns (D : FSemanticDetection) (mi : UMaterialInstance)
      (comp : UPrimitiveComponent) (d : FSemanticDetection) :
  unsupported_texture_count mi = true ->
  ComputeRawDetectionFromMaterialInstance D mi comp <> Returned d.
Proof.
  unfold unsupported_texture_count, ComputeRawDetectionFromMaterialInstance.
  intros H. apply negb_true_iff, orb_false_elim in H as [H4 H13].
  apply Nat.leb_gt in H4. apply Nat.eqb_neq in H13.
  remember (length (TextureParameterValues mi)) as n eqn:En.
  do 14 (destruct n as [|n];
         [try lia; lazy iota beta; set (L := for_loop _ _ _);
          simpl; destruct L; discriminate|]).
  lazy iota beta. set (L := for_loop _ _ _). simpl. destruct L; discriminate.
Qed.

(** What a return of the material stage tells. *)
Lemma material_stage_returns (D : FSemanticDetection) (mi : UMaterialInstance)
      (comp : UPrimitiveComponent) :
  match ComputeRawDetectionFromMaterialInstance D mi comp with
  | Returned d => same_frame d D /\ material_classifiable mi = true
  | _ => material_classifiable mi = false
  end.
Proof.
  unfold material_classifiable.
  destruct (unsupported_texture_count mi) eqn:Eu.
  { rewrite orb_true_r. simpl.
    pose proof (fun d => unsupported_count_never_returns D mi comp d Eu) as N.
    destruct (ComputeRawDetectionFromMaterialInstance D mi comp) as [d| |];
      [exfalso; apply (N d); reflexivity | reflexivity | reflexivity]. }
  destruct (vector_only mi) eqn:Ev.
  { rewrite (vector_only_halts D mi comp Ev). reflexivity. }
  simpl.
  unfold unsupported_texture_count in Eu.
  apply negb_false_iff, orb_prop in Eu.
  assert (Hn : (length (TextureParameterValues mi) <= 4)%nat
               \/ length (TextureParameterValues mi) = 13%nat).
  { destruct Eu as [Eu|Eu]; [left; apply Nat.leb_le, Eu | right; apply Nat.eqb_eq, Eu]. }
  clear Eu.
  assert (Hc : length (TextureParameterValues mi) = 0%nat
               \/ (length (TextureParameterValues mi) = 1%nat
                   \/ length (TextureParameterValues mi) = 2%nat)
               \/ (length (TextureParameterValues mi) = 3%nat
                   \/ length (TextureParameterValues mi) = 4%nat
                   \/ length (TextureParameterValues mi) = 13%nat)) by lia.
  clear Hn. unfold transparency_out_of_range.
  destruct Hc as [H0|[H12|H34]].
  - unfold ComputeRawDetectionFromMaterialInstance, vector_only in *.
    rewrite H0 in *. simpl in Ev. simpl.
    destruct (ScalarParameterValues mi) as [|p rest] eqn:Es; simpl in *.
    + destruct (length (VectorParameterValues mi)); [|discriminate].
      simpl. repeat split.
    + destruct (FName_eqb (ScalarParameterName p) "Transparency"); simpl.
      * unfold static_cast_uint8.
        destruct ((0 <=? Qtrunc (ScalarParameterValue p * 256))
                  && (Qtrunc (ScalarParameterValue p * 256) <=? 255))%Z;
          simpl; repeat split.
      * repeat split.
  - rewrite (base_only_returns_zero D mi comp H12).
    replace (length (TextureParameterValues mi) =? 0)%nat with false
      by (symmetry; apply Nat.eqb_neq; lia).
    repeat split.
  - rewrite (layered_returns_zero D mi comp H34).
    replace (length (TextureParameterValues mi) =? 0)%nat with false
      by (symmetry; apply Nat.eqb_neq; lia).
    repeat split.
Qed.

Lemma component_stage_returns (HitInfo : FHitResult) (D : FSemanticDetection)
      (comp : UPrimitiveComponent) :
  match ComputeRawDetectionFromComponent HitInfo D comp with
  | Returned d =>
      same_frame d D
      /\ forall mi, reached_material HitInfo comp = Some mi ->
                    material_classifiable mi = true
  | _ => exists mi, reached_material HitInfo comp = Some mi
                    /\ material_classifiable mi = false
  end.
Proof.
  unfold ComputeRawDetectionFromComponent, reached_material.
  destruct (FaceIndex HitInfo =? -1)%Z.
  { simpl. split; [repeat split | intros mi E; cbn in E; discriminate]. }
  destruct (FindCollisionUV HitInfo 0) as [uv|].
  2:{ simpl. split; [repeat split | intros mi E; cbn in E; discriminate]. }
  destruct (GetMaterialFromCollisionFaceIndex comp (FaceIndex HitInfo)) as [m|].
  2:{ simpl. split; [repeat split | intros mi E; cbn in E; discriminate]. }
  destruct (Cast_UMaterialInstance m) as [mi|] eqn:EC.
  2:{ simpl. split; [repeat split | intros mi E; cbn in E; congruence]. }
  simpl.
  pose proof (material_stage_returns D mi comp) as M.
  destruct (ComputeRawDetectionFromMaterialInstance D mi comp) as [d| |].
  - destruct M as [F C]. split; [exact F|]. intros mi' E. cbn in E. congruence.
  - exists mi. split; [exact EC | exact M].
  - exists mi. split; [exact EC | exact M].
Qed.

Section Classifier.

Variable GetSafeNormal : FVector -> FVector.

(** C6.  A ray that missed: the detection carries the sentinel cosine 2,
    index 0, tag 0 and two zero quads; its point is the angle pair kept
    in the trace end. *)
Theorem miss_detection (HitInfo : FHitResult) (SensorTransf : FTransform)
        (Detection : FSemanticDetection) :
  bBlockingHit HitInfo = false ->
  exists d,
    ComputeRawDetection GetSafeNormal HitInfo SensorTransf Detection = Returned d
    /\ cos_inc_angle d = 2
    /\ object_idx d = 0%Z
    /\ object_tag d = 0%Z
    /\ base_color d = Vector4DuInt.Build 0 0 0 0
    /\ ORME d = Vector4DuInt.Build 0 0 0 0
    /\ point d = TraceEnd HitInfo.
Proof.
  intros Hmiss. unfold ComputeRawDetection. rewrite Hmiss.
  eexists. split; [reflexivity|]. simpl.
  repeat split. destruct (TraceEnd HitInfo); reflexivity.
Qed.

(** The branch of error code 1, as it is written.  A blocking hit on a
    component that is not a static mesh: index 1, tag from the
    component's stencil value, the second quad zero, and the base colour
    (1, 0, 0, 0). *)
Lemma unresolved_component_detection (HitInfo : FHitResult) (SensorTransf : FTransform)
        (Detection : FSemanticDetection) (c : UPrimitiveComponent) :
  bBlockingHit HitInfo = true ->
  Component HitInfo = Some c ->
  IsStaticMesh c = false ->
  exists d,
    ComputeRawDetection GetSafeNormal HitInfo SensorTransf Detection = Returned d
    /\ object_idx d = 1%Z
    /\ object_tag d = to_uint32 (CustomDepthStencilValue c)
    /\ base_color d = Vector4DuInt.Build 1 0 0 0
    /\ ORME d = Vector4DuInt.Build 0 0 0 0.
Proof.
  intros Hhit Hc Hs. unfold ComputeRawDetection. rewrite Hhit, Hc. simpl.
  rewrite Hs. eexists. split; [reflexivity|]. simpl. repeat split.
Qed.

(** C10.  On a blocking hit the tag written at the head of the ladder,
    the component's stencil value as an unsigned 32-bit number, is the
    tag of the detection returned, whatever branch is taken below; and
    the classifier does return, unless the ladder ends on a material
    instance of a halting shape (vector parameters only, an unsupported
    texture count, a transparency out of range). *)
Theorem object_tag_is_stencil (HitInfo : FHitResult) (SensorTransf : FTransform)
        (Detection : FSemanticDetection) (c : UPrimitiveComponent) :
  bBlockingHit HitInfo = true ->
  Component HitInfo = Some c ->
  match ComputeRawDetection GetSafeNormal HitInfo SensorTransf Detection with
  | Returned d =>
      object_tag d = to_uint32 (CustomDepthStencilValue c)
      /\ ((0 <= CustomDepthStencilValue c < 2 ^ 32)%Z ->
          object_tag d = CustomDepthStencilValue c)
      /\ forall mi, ladder_material HitInfo c = Some mi ->
                    material_classifiable mi = true
  | _ => exists mi, ladder_material HitInfo c = Some mi
                    /\ material_classifiable mi = false
  end.
Proof.
  intros Hhit Hc. unfold ComputeRawDetection, ladder_material.
  rewrite Hhit, Hc. simpl.
  destruct (IsStaticMesh c).
  - match goal with
    | |- context [ComputeRawDetectionFromComponent HitInfo ?D c] =>
        pose proof (component_stage_returns HitInfo D c) as M;
        destruct (ComputeRawDetectionFromComponent HitInfo D c) as [d| |]
    end.
    + destruct M as [[_ [_ Ht]] Hm]. simpl in Ht.
      split; [exact Ht|]. split; [|exact Hm].
      intros Hr. rewrite Ht. apply to_uint32_small, Hr.
    + exact M.
    + exact M.
  - simpl. split; [reflexivity|]. split; [|intros mi E; cbn in E; discriminate].
    intros Hr. apply to_uint32_small, Hr.
Qed.

End Classifier.

(** The transparency branch, as it is written: both quads are built from
    [textureColor], which no sampler has touched. *)
Lemma transparency_branch (Detection : FSemanticDetection) (mi : UMaterialInstance)
      (comp : UPrimitiveComponent) (p : FScalarParameterValue)
      (rest : list FScalarParameterValue) :
  TextureParameterValues mi = [] ->
  ScalarParameterValues mi = p :: rest ->
  ScalarParameterName p = "Transparency"%string ->
  -1 < ScalarParameterValue p * 256 ->
  ScalarParameterValue p * 256 < 256 ->
  ComputeRawDetectionFromMaterialInstance Detection mi comp
  = Returned (set_base_color (set_ORME Detection (Vector4DuInt.Build 0 0 0 0))
                (Vector4DuInt.Build 0 0 0 (255 - Qtrunc (ScalarParameterValue p * 256)))).
Proof.
  intros Ht Hs Hn Hlo Hhi. unfold ComputeRawDetectionFromMaterialInstance.
  rewrite Ht, Hs. simpl. rewrite Hn.
  change (FName_eqb "Transparency" "Transparency") with true. lazy iota.
  unfold static_cast_uint8. rewrite (Qtrunc_byte_b _ Hlo Hhi). simpl.
  pose proof (Qtrunc_byte _ Hlo Hhi) as Hb.
  unfold Vector4DuInt.make. rewrite (to_uint8_small (255 - _)) by lia.
  reflexivity.
Qed.

(** C1, amended.  No texture, a first scalar named Transparency with value
    [v] and [-1 < v * 256 < 256]: the classifier returns; the base colour
    is the colour quad stored, unmodified, in the second quad, with its
    alpha replaced by [255 - trunc (v * 256)], a byte; nothing else of the
    detection is written.  Which colour the quad holds is not stated. *)
Theorem transparency_detection (Detection : FSemanticDetection) (mi : UMaterialInstance)
        (comp : UPrimitiveComponent) (p : FScalarParameterValue)
        (rest : list FScalarParameterValue) :
  TextureParameterValues mi = [] ->
  ScalarParameterValues mi = p :: rest ->
  ScalarParameterName p = "Transparency"%string ->
  -1 < ScalarParameterValue p * 256 ->
  ScalarParameterValue p * 256 < 256 ->
  exists d,
    ComputeRawDetectionFromMaterialInstance Detection mi comp = Returned d
    /\ Vector4DuInt.x (base_color d) = Vector4DuInt.x (ORME d)
    /\ Vector4DuInt.y (base_color d) = Vector4DuInt.y (ORME d)
    /\ Vector4DuInt.z (base_color d) = Vector4DuInt.z (ORME d)
    /\ Vector4DuInt.w (base_color d) = (255 - Qtrunc (ScalarParameterValue p * 256))%Z
    /\ (0 <= Vector4DuInt.w (base_color d) <= 255)%Z
    /\ object_idx d = object_idx Detection
    /\ same_frame d Detection.
Proof.
  intros Ht Hs Hn Hlo Hhi.
  rewrite (transparency_branch Detection mi comp p rest Ht Hs Hn Hlo Hhi).
  pose proof (Qtrunc_byte _ Hlo Hhi) as Hb.
  eexists. split; [reflexivity|]. simpl.
  repeat split; try reflexivity; lia.
Qed.

(** The branch of three, four or thirteen texture parameters, as it is
    written: the two textures are fetched and none is sampled; both quads
    are built from [textureColor], which is (0, 0, 0, 0), and nothing else
    is written. *)
Lemma layered_detection (Detection : FSemanticDetection) (mi : UMaterialInstance)
        (comp : UPrimitiveComponent) :
  length (TextureParameterValues mi) = 3%nat
  \/ length (TextureParameterValues mi) = 4%nat
  \/ length (TextureParameterValues mi) = 13%nat ->
  ComputeRawDetectionFromMaterialInstance Detection mi comp
  = Returned (set_ORME (set_base_color Detection (Vector4DuInt.Build 0 0 0 0))
                       (Vector4DuInt.Build 0 0 0 0)).
Proof. intros H. exact (layered_returns_zero Detection mi comp H). Qed.

(** C3.  A material instance with one vector parameter and nothing else:
    the classifier halts at the fatal log that precedes the assignments of
    error code 7, at the material stage and through the whole ladder. *)
Theorem vector_only_material_is_fatal :
  ComputeRawDetectionFromMaterialInstance
    FSemanticDetection_default tinted_material
    (mesh_with (Some (MaterialInstance tinted_material)) 7) = Fatal
  /\ ComputeRawDetection GetSafeNormal_rat
       (hit_on (mesh_with (Some (MaterialInstance tinted_material)) 7))
       origin FSemanticDetection_default = Fatal.
Proof. split; reflexivity. Qed.

(* ===================================================================== *)
(** ** The laser angles *)
(* ===================================================================== *)

Lemma fold_left_emplace {A B : Type} (f : B -> A) (l : list B) (acc : list A) :
  fold_left (fun L i => L ++ [f i]) l acc = acc ++ (f <$> l).
Proof.
  revert acc. induction l as [|i l IH]; intros acc; simpl.
  - rewrite app_nil_r. reflexivity.
  - rewrite IH, <- app_assoc. reflexivity.
Qed.

Lemma CreateLasers_returns (s : ARayCastSemanticLidar) :
  (0 < Channels (Description s))%nat ->
  CreateLasers s
  = Returned (set_LaserAngles s
                (laser_angle (Description s) <$> seq 0 (Channels (Description s)))).
Proof.
  intros H. unfold CreateLasers.
  replace (0 <? Channels (Description s))%nat with true
    by (symmetry; apply Nat.ltb_lt, H).
  simpl. rewrite fold_left_emplace. reflexivity.
Qed.









(* ===================================================================== *)
(** ** Wrapping an angle *)
(* ===================================================================== *)

Lemma Qfloor_unique (q : Q) (z : Z) :
  inject_Z z <= q -> q < inject_Z (z + 1) -> Qfloor q = z.
Proof.
  intros Hlo Hhi.
  pose proof (Qfloor_le q) as H1. pose proof (Qlt_floor q) as H2.
  assert (A : (z < Qfloor q + 1)%Z).
  { rewrite Zlt_Qlt. eapply Qle_lt_trans; [exact Hlo | exact H2]. }
  assert (B : (Qfloor q < z + 1)%Z).
  { rewrite Zlt_Qlt. eapply Qle_lt_trans; [exact H1 | exact Hhi]. }
  lia.
Qed.

Lemma Qfloor_add_Z (q : Q) (k : Z) : Qfloor (q + inject_Z k) = (Qfloor q + k)%Z.
Proof.
  apply Qfloor_unique.
  - rewrite inject_Z_plus. pose proof (Qfloor_le q). lra.
  - replace (Qfloor q + k + 1)%Z with ((Qfloor q + 1) + k)%Z by lia.
    rewrite inject_Z_plus. pose proof (Qlt_floor q). lra.
Qed.

#[export] Instance wrap_Proper : Proper (Qeq ==> Qeq ==> Qeq) wrap.
Proof.
  intros v v' Hv m m' Hm. unfold wrap.
  assert (E : Qfloor (v / m) = Qfloor (v' / m')) by (rewrite Hv, Hm; reflexivity).
  rewrite E, Hv, Hm. reflexivity.
Qed.

Lemma wrap_range (v m : Q) : 0 < m -> 0 <= wrap v m /\ wrap v m < m.
Proof.
  intros Hm. unfold wrap.
  pose proof (Qfloor_le (v / m)) as H1. pose proof (Qlt_floor (v / m)) as H2.
  rewrite inject_Z_plus in H2.
  assert (E : v == (v / m) * m) by (field; lra).
  split.
  - assert (inject_Z (Qfloor (v / m)) * m <= (v / m) * m)
      by (apply Qmult_le_compat_r; lra).
    lra.
  - assert ((v / m) * m < (inject_Z (Qfloor (v / m)) + inject_Z 1) * m)
      by (apply Qmult_lt_compat_r; lra).
    change (inject_Z 1) with 1 in *. lra.
Qed.

Lemma wrap_add (x d m : Q) : 0 < m -> wrap (wrap x m + d) m == wrap (x + d) m.
Proof.
  intros Hm. unfold wrap at 1 3.
  assert (E : (wrap x m + d) / m == (x + d) / m + inject_Z (- Qfloor (x / m))).
  { unfold wrap. rewrite inject_Z_opp. field. lra. }
  rewrite E, Qfloor_add_Z, inject_Z_plus, inject_Z_opp. unfold wrap. ring.
Qed.

Lemma wrap_zero (m : Q) : wrap 0 m == 0.
Proof.
  unfold wrap. assert (E : 0 / m == 0) by (unfold Qdiv; ring).
  rewrite E. change (inject_Z (Qfloor 0)) with 0. ring.
Qed.

Lemma Qtrunc_nonneg (q : Q) : 0 <= q -> Qtrunc q = Qfloor q.
Proof.
  destruct q as [n d]. unfold Qle, Qtrunc, Qfloor. simpl. intros H.
  apply Z.quot_div_nonneg; lia.
Qed.

Lemma fmod_wrap (x m : Q) : 0 <= x -> 0 < m -> fmod x m == wrap x m.
Proof.
  intros Hx Hm. unfold fmod, wrap. rewrite Qtrunc_nonneg; [reflexivity|].
  apply Qle_shift_div_l; [exact Hm | lra].
Qed.

(* ===================================================================== *)
(** ** The loops of a tick *)
(* ===================================================================== *)

Lemma mapM_app {A B : Type} (f : A -> outcome B) (l1 l2 : list A) :
  mapM f (l1 ++ l2) = (ds1 ← mapM f l1; ds2 ← mapM f l2; mret (ds1 ++ ds2)).
Proof.
  induction l1 as [|a l1 IH]; simpl.
  - destruct (mapM f l2); reflexivity.
  - destruct (f a) as [b| |]; simpl; [|reflexivity|reflexivity].
    rewrite IH. destruct (mapM f l1) as [bs| |]; simpl; [|reflexivity|reflexivity].
    destruct (mapM f l2); reflexivity.
Qed.

Lemma mapM_Returned_length {A B : Type} (f : A -> outcome B) (l : list A) (bs : list B) :
  mapM f l = Returned bs -> length bs = length l.
Proof.
  revert bs. induction l as [|a l IH]; simpl; intros bs H.
  - injection H as <-. reflexivity.
  - destruct (f a) as [b| |]; simpl in H; try discriminate.
    destruct (mapM f l) as [bs'| |]; simpl in H; try discriminate.
    injection H as <-. simpl. f_equal. apply IH. reflexivity.
Qed.

Lemma mapM_Returned_Forall {A B : Type} (f : A -> outcome B) (P : B -> Prop)
      (l : list A) (bs : list B) :
  (forall a b, a ∈ l -> f a = Returned b -> P b) ->
  mapM f l = Returned bs -> Forall P bs.
Proof.
  revert bs. induction l as [|a l IH]; simpl; intros bs HP H.
  - injection H as <-. constructor.
  - destruct (f a) as [b| |] eqn:E; simpl in H; try discriminate.
    destruct (mapM f l) as [bs'| |]; simpl in H; try discriminate.
    injection H as <-. constructor.
    + apply (HP a b); [left | exact E].
    + apply IH; [|reflexivity]. intros a' b' Ha'. apply HP. right. exact Ha'.
Qed.

Lemma mapM_all_return {A B : Type} (f : A -> outcome B) (l : list A) :
  (forall a, a ∈ l -> exists b, f a = Returned b) ->
  exists bs, mapM f l = Returned bs.
Proof.
  induction l as [|a l IH]; simpl; intros H.
  - eexists. reflexivity.
  - destruct (H a) as [b Hb]; [left|]. rewrite Hb. simpl.
    destruct IH as [bs Hbs]; [intros a' Ha'; apply H; right; exact Ha'|].
    rewrite Hbs. simpl. eexists. reflexivity.
Qed.

Lemma mapM_vector_at {A : Type} (l : list A) (k m : nat) :
  (k + m <= length l)%nat ->
  mapM (vector_at l) (seq k m) = Returned (take m (drop k l)).
Proof.
  revert k. induction m as [|m IH]; intros k H.
  - rewrite take_0. reflexivity.
  - destruct (lookup_lt_is_Some_2 l k) as [a Ha]; [lia|].
    change (mapM (vector_at l) (seq k (S m)))
      with (y ← vector_at l k; ys ← mapM (vector_at l) (seq (S k) m); mret (y :: ys)).
    assert (E : vector_at l k = Returned a) by (unfold vector_at; rewrite Ha; reflexivity).
    rewrite E, IH by lia. simpl.
    rewrite (drop_S l a k Ha). reflexivity.
Qed.

Lemma const_nil_fmap {A B : Type} (l : list A) :
  (fun _ : A => @nil B) <$> l = replicate (length l) [].
Proof. apply const_fmap. reflexivity. Qed.

Lemma length_resize {A : Type} (n : nat) (d : A) (l : list A) : length (resize n d l) = n.
Proof.
  unfold resize. rewrite length_app, length_take, length_replicate. lia.
Qed.

Lemma write_all_SerPoints (d : FSemanticLidarData) (ds : list FSemanticDetection) :
  write_all d ds
  = mkFSemanticLidarData (HorizontalAngle d) (ChannelCount d) (Header d)
                         (SerPoints d ++ ds).
Proof.
  unfold write_all. revert d. induction ds as [|x ds IH]; intros d; simpl.
  - rewrite app_nil_r. destruct d; reflexivity.
  - rewrite IH. simpl. rewrite <- app_assoc. reflexivity.
Qed.

Lemma foldlM_cons {S I : Type} (body : S -> I -> outcome S) (s : S) (i : I) (l : list I) :
  foldlM body s (i :: l) = (s' ← body s i; foldlM body s' l).
Proof. reflexivity. Qed.

Section Tick.

Variable GetSafeNormal : FVector -> FVector.
Variable Pi : float.
Variable W : World.

(** *** The parallel region *)

Lemma recorded_hit_config (s s' : ARayCastSemanticLidar) cur step a j :
  same_config s s' -> recorded_hit W s' cur step a j = recorded_hit W s cur step a j.
Proof.
  intros [Hd [Ht _]]. unfold recorded_hit, ShootLaser, HorizAngle.
  rewrite Hd, Ht. reflexivity.
Qed.

Lemma samples_loop (s0 : ARayCastSemanticLidar) (c : nat) (cur step a : float)
      (l : list nat) :
  LaserAngles s0 !! c = Some a ->
  forall (s : ARayCastSemanticLidar) (hs : list FHitResult),
    same_config s0 s ->
    RecordedHits s !! c = Some hs ->
    foldlM (fun s idxPtsOneLaser =>
              VertAngle ← TArray_at (LaserAngles s) c;
              let HorizAngle := HorizAngle s cur step idxPtsOneLaser in
              let '(_, HitResult) := ShootLaser W s VertAngle HorizAngle in
              WritePointAsync s c HitResult) s l
    = Returned (set_RecordedHits s
                  (<[c := hs ++ (recorded_hit W s0 cur step a <$> l)]>
                     (RecordedHits s))).
Proof.
  intros Ha. induction l as [|j l IH]; intros s hs Hcfg Hhs; simpl.
  - rewrite app_nil_r, list_insert_id by exact Hhs. destruct s; reflexivity.
  - destruct Hcfg as [Hd [Ht HL]].
    unfold TArray_at. rewrite HL, Ha. simpl.
    pose proof (recorded_hit_config s0 s cur step a j (conj Hd (conj Ht HL))) as Hr.
    unfold recorded_hit in Hr.
    destruct (ShootLaser W s a (HorizAngle s cur step j)) as [b h] eqn:ES.
    simpl in Hr. subst h.
    unfold WritePointAsync, vector_at. rewrite Hhs. simpl.
    rewrite (IH _ (hs ++ [recorded_hit W s0 cur step a j])).
    + simpl. rewrite list_insert_insert_eq, <- app_assoc. reflexivity.
    + repeat split; assumption.
    + simpl. apply list_lookup_insert_eq. apply lookup_lt_Some in Hhs. exact Hhs.
Qed.

Lemma samples_for_loop (s : ARayCastSemanticLidar) (c n : nat) (cur step a : float) :
  LaserAngles s !! c = Some a ->
  RecordedHits s !! c = Some [] ->
  for_loop n
    (fun s idxPtsOneLaser =>
       VertAngle ← TArray_at (LaserAngles s) c;
       let HorizAngle := HorizAngle s cur step idxPtsOneLaser in
       let '(_, HitResult) := ShootLaser W s VertAngle HorizAngle in
       WritePointAsync s c HitResult) s
  = Returned (set_RecordedHits s
                (<[c := recorded_row W s cur step n a]> (RecordedHits s))).
Proof.
  intros Ha H0.
  assert (Hcfg : same_config s s) by (repeat split).
  exact (samples_loop s c cur step a (seq 0 n) Ha s [] Hcfg H0).
Qed.

Lemma channels_loop (s0 : ARayCastSemanticLidar) (n : nat) (cur step : float)
      (m : nat) :
  forall (k : nat) (s : ARayCastSemanticLidar) (done : list (list FHitResult))
         (rest : list float),
    same_config s0 s ->
    length done = k ->
    length rest = m ->
    drop k (LaserAngles s0) = rest ->
    RecordedHits s = done ++ replicate m [] ->
    foldlM (fun s idxChannel =>
              for_loop n
                (fun s idxPtsOneLaser =>
                   VertAngle ← TArray_at (LaserAngles s) idxChannel;
                   let HorizAngle := HorizAngle s cur step idxPtsOneLaser in
                   let '(_, HitResult) := ShootLaser W s VertAngle HorizAngle in
                   WritePointAsync s idxChannel HitResult) s) s (seq k m)
    = Returned (set_RecordedHits s
                  (done ++ (recorded_row W s0 cur step n <$> rest))).
Proof.
  induction m as [|m IH]; intros k s done rest Hcfg Hk Hm Hdrop HRH.
  - destruct rest; [|discriminate]. simpl. simpl in HRH. rewrite <- HRH.
    destruct s; reflexivity.
  - destruct rest as [|a rest]; [discriminate|].
    assert (Ha : LaserAngles s !! k = Some a).
    { destruct Hcfg as [_ [_ ->]].
      rewrite <- (Nat.add_0_r k), <- lookup_drop, Hdrop. reflexivity. }
    assert (Hk0 : RecordedHits s !! k = Some []).
    { rewrite HRH, lookup_app_r by lia. rewrite Hk, Nat.sub_diag. reflexivity. }
    change (seq k (S m)) with (k :: seq (S k) m).
    rewrite foldlM_cons. lazy beta.
    rewrite (samples_for_loop s k n cur step a Ha Hk0).
    change (Returned ?x ≫= ?f) with (f x). lazy beta.
    rewrite (IH (S k) _ (done ++ [recorded_row W s0 cur step n a]) rest).
    + f_equal. simpl. rewrite <- app_assoc. reflexivity.
    + destruct Hcfg as [Hd [Ht HL]]. repeat split; assumption.
    + rewrite length_app. simpl. lia.
    + simpl in Hm. lia.
    + replace (S k) with (k + 1)%nat by lia.
      rewrite <- drop_drop, Hdrop. reflexivity.
    + simpl. rewrite HRH. rewrite <- Hk at 1.
      rewrite <- (Nat.add_0_r (length done)), insert_app_r. simpl.
      rewrite <- app_assoc. simpl. f_equal. f_equal.
      unfold recorded_row. apply list_fmap_ext. intros _ j _.
      apply recorded_hit_config. exact Hcfg.
Qed.

Lemma ParallelFor_returns (s : ARayCastSemanticLidar) (n : nat) (cur step : float) :
  length (LaserAngles s) = Channels (Description s) ->
  let C := Channels (Description s) in
  let s1 := PreprocessRays (ResetRecordedHits s C n) C n in
  ParallelFor_Channels W s1 C n cur step
  = Returned (set_RecordedHits s1 (recorded_row W s cur step n <$> LaserAngles s)).
Proof.
  intros HL C s1.
  refine (channels_loop s n cur step C 0 s1 [] (LaserAngles s) _ _ _ _ _).
  - repeat split.
  - reflexivity.
  - exact HL.
  - apply drop_0.
  - simpl. rewrite const_nil_fmap, length_resize. reflexivity.
Qed.

End Tick.

Section Assemble.

Variable GetSafeNormal : FVector -> FVector.

(** *** Counting and classifying the recorded hits *)

Lemma counts_loop (m : nat) :
  forall (k : nat) (s : ARayCastSemanticLidar) (done rest : list Z)
         (pre post : list (list FHitResult)),
    length done = k -> length rest = m ->
    length pre = k -> length post = m ->
    PointsPerChannel s = done ++ rest ->
    RecordedHits s = pre ++ post ->
    foldlM (fun s idxChannel =>
              hits ← vector_at (RecordedHits s) idxChannel;
              vector_at (PointsPerChannel s) idxChannel;;
              mret (set_PointsPerChannel s
                      (<[idxChannel := to_uint32 (Z.of_nat (length hits))]>
                         (PointsPerChannel s)))) s (seq k m)
    = Returned (set_PointsPerChannel s (done ++ (hit_count <$> post))).
Proof.
  induction m as [|m IH]; intros k s done rest pre post Hd Hr Hp Hq HP HR.
  - destruct rest; [|discriminate]. destruct post; [|discriminate].
    simpl. rewrite app_nil_r in *. rewrite <- HP. destruct s; reflexivity.
  - destruct rest as [|p rest]; [discriminate|].
    destruct post as [|h post]; [discriminate|].
    change (seq k (S m)) with (k :: seq (S k) m).
    rewrite foldlM_cons. lazy beta.
    assert (E1 : vector_at (RecordedHits s) k = Returned h).
    { unfold vector_at. rewrite HR, lookup_app_r by lia.
      rewrite Hp, Nat.sub_diag. reflexivity. }
    assert (E2 : vector_at (PointsPerChannel s) k = Returned p).
    { unfold vector_at. rewrite HP, lookup_app_r by lia.
      rewrite Hd, Nat.sub_diag. reflexivity. }
    rewrite E1. change (Returned ?x ≫= ?f) with (f x). lazy beta.
    rewrite E2. change (Returned ?x ≫= ?f) with (f x). lazy beta.
    change (mret ?x ≫= ?f) with (f x). lazy beta.
    rewrite (IH (S k) _ (done ++ [hit_count h]) rest (pre ++ [h]) post).
    + f_equal. simpl. rewrite <- app_assoc. reflexivity.
    + rewrite length_app. simpl. lia.
    + simpl in Hr. lia.
    + rewrite length_app. simpl. lia.
    + simpl in Hq. lia.
    + simpl. rewrite HP. rewrite <- Hd at 1.
      rewrite <- (Nat.add_0_r (length done)), insert_app_r. simpl.
      rewrite <- app_assoc. reflexivity.
    + simpl. rewrite HR, <- app_assoc. reflexivity.
Qed.

Lemma classify_hits (T : FTransform) (hits : list FHitResult) :
  forall s : ARayCastSemanticLidar,
    foldlM (fun s hit =>
              let detection := FSemanticDetection_default in
              detection ← ComputeRawDetection GetSafeNormal hit T detection;
              mret (set_SemanticLidarData s
                      (WritePointSync (SemanticLidarData s) detection)))
           s hits
    = (ds ← mapM (classify GetSafeNormal T) hits;
       mret (set_SemanticLidarData s (write_all (SemanticLidarData s) ds))).
Proof.
  induction hits as [|hit hits IH]; intros s.
  - simpl. destruct s; reflexivity.
  - rewrite foldlM_cons. lazy beta zeta.
    change (mapM (classify GetSafeNormal T) (hit :: hits))
      with (y ← classify GetSafeNormal T hit; ys ← mapM (classify GetSafeNormal T) hits; mret (y :: ys)).
    change (classify GetSafeNormal T hit)
      with (ComputeRawDetection GetSafeNormal hit T FSemanticDetection_default).
    destruct (ComputeRawDetection GetSafeNormal hit T FSemanticDetection_default)
      as [d| |]; [|reflexivity|reflexivity].
    change (Returned d ≫= ?f) with (f d). lazy beta.
    change (mret ?x ≫= ?f) with (f x). lazy beta.
    rewrite IH.
    destruct (mapM (classify GetSafeNormal T) hits) as [ds| |]; reflexivity.
Qed.

Lemma classify_loop (T : FTransform) (m : nat) :
  forall (k : nat) (s : ARayCastSemanticLidar) (pre post : list (list FHitResult)),
    length pre = k -> length post = m ->
    RecordedHits s = pre ++ post ->
    foldlM (fun s idxChannel =>
              hits ← vector_at (RecordedHits s) idxChannel;
              foldlM (fun s hit =>
                        let detection := FSemanticDetection_default in
                        detection ← ComputeRawDetection GetSafeNormal hit T detection;
                        mret (set_SemanticLidarData s
                                (WritePointSync (SemanticLidarData s) detection)))
                     s hits) s (seq k m)
    = (ds ← mapM (classify GetSafeNormal T) (concat post);
       mret (set_SemanticLidarData s (write_all (SemanticLidarData s) ds))).
Proof.
  induction m as [|m IH]; intros k s pre post Hp Hq HR.
  - destruct post; [|discriminate]. simpl. destruct s; reflexivity.
  - destruct post as [|h post]; [discriminate|].
    change (seq k (S m)) with (k :: seq (S k) m).
    rewrite foldlM_cons. lazy beta.
    assert (E1 : vector_at (RecordedHits s) k = Returned h).
    { unfold vector_at. rewrite HR, lookup_app_r by lia.
      rewrite Hp, Nat.sub_diag. reflexivity. }
    rewrite E1. change (Returned ?x ≫= ?f) with (f x). lazy beta.
    rewrite classify_hits.
    change (concat (h :: post)) with (h ++ concat post). rewrite mapM_app.
    destruct (mapM (classify GetSafeNormal T) h) as [ds1| |]; [|reflexivity|reflexivity].
    change (Returned ?x ≫= ?f) with (f x). lazy beta.
    change (mret ?x ≫= ?f) with (f x). lazy beta.
    rewrite (IH (S k) _ (pre ++ [h]) post).
    + destruct (mapM (classify GetSafeNormal T) (concat post)) as [ds2| |]; [|reflexivity|reflexivity].
      simpl. unfold write_all. rewrite fold_left_app. reflexivity.
    + rewrite length_app. simpl. lia.
    + simpl in Hq. lia.
    + simpl. rewrite HR, <- app_assoc. reflexivity.
Qed.

Lemma ComputeAndSaveDetections_returns (s : ARayCastSemanticLidar) (T : FTransform) :
  let C := Channels (Description s) in
  length (RecordedHits s) = C ->
  length (PointsPerChannel s) = C ->
  ChannelCount (SemanticLidarData s) = C ->
  ComputeAndSaveDetections GetSafeNormal s T
  = (ds ← mapM (classify GetSafeNormal T) (concat (RecordedHits s));
     mret (set_SemanticLidarData
             (set_PointsPerChannel s (hit_count <$> RecordedHits s))
             (mkFSemanticLidarData (HorizontalAngle (SemanticLidarData s)) C
                                   (hit_count <$> RecordedHits s) ds))).
Proof.
  intros C HR HP HC. unfold ComputeAndSaveDetections, for_loop. fold C.
  rewrite (counts_loop C 0 s [] (PointsPerChannel s) [] (RecordedHits s))
    by (reflexivity || assumption).
  change (Returned ?x ≫= ?f) with (f x). lazy beta zeta.
  change (Description (set_PointsPerChannel s ?x)) with (Description s). fold C.
  rewrite (classify_loop T C 0 _ [] (RecordedHits s)) by (reflexivity || assumption).
  destruct (mapM (classify GetSafeNormal T) (concat (RecordedHits s))) as [ds| |];
    [|reflexivity|reflexivity].
  change (Returned ?x ≫= ?f) with (f x). lazy beta.
  change (mret ?x ≫= ?f) with (f x). lazy beta.
  unfold WriteChannelCount. simpl SemanticLidarData. simpl PointsPerChannel.
  rewrite write_all_SerPoints. simpl ChannelCount. rewrite HC. fold C.
  rewrite mapM_vector_at by (rewrite length_fmap, HR; simpl; lia).
  rewrite drop_0, take_ge by (rewrite length_fmap, HR; lia).
  reflexivity.
Qed.

End Assemble.

Section Simulate.

Variable GetSafeNormal : FVector -> FVector.
Variable Pi : float.
Variable W : World.

Lemma float_to_uint32_range (f : float) (z : Z) :
  float_to_uint32 f = Returned z -> (0 <= z < 2 ^ 32)%Z.
Proof.
  unfold float_to_uint32.
  destruct ((0 <=? Qtrunc f) && (Qtrunc f <? 2 ^ 32))%Z eqn:E; [|discriminate].
  intros H. injection H as <-. apply andb_prop in E as [E1 E2].
  apply Z.leb_le in E1. apply Z.ltb_lt in E2. lia.
Qed.

(** A tick that finds no point to scan returns the sensor as it is. *)
Lemma SimulateLidar_idle (s : ARayCastSemanticLidar) (DeltaTime : float) :
  PointsToScan (Description s) DeltaTime = Returned 0%Z ->
  SimulateLidar GetSafeNormal Pi W s DeltaTime = Returned s.
Proof.
  unfold PointsToScan, SimulateLidar. intros H. rewrite H. reflexivity.
Qed.

(** A tick that scans: the rows of hits are cast, then classified in the
    order of the channels, and the angle advances. *)
Lemma SimulateLidar_scans (s : ARayCastSemanticLidar) (DeltaTime : float) (ppl : Z) :
  sensor_sized s ->
  PointsToScan (Description s) DeltaTime = Returned ppl ->
  (0 < ppl)%Z ->
  SimulateLidar GetSafeNormal Pi W s DeltaTime
  = (ds ← mapM (classify GetSafeNormal (GetTransform s))
               (concat (RecordedHits (after_tick Pi W s DeltaTime ppl [])));
     mret (after_tick Pi W s DeltaTime ppl ds)).
Proof.
  intros [_ [HL [HP HC]]] Hppl Hpos. unfold PointsToScan in Hppl.
  unfold SimulateLidar. rewrite Hppl.
  change (Returned ?x ≫= ?f) with (f x). lazy beta.
  replace (ppl <=? 0)%Z with false by (symmetry; apply Z.leb_gt, Hpos).
  replace (Channels (Description s) =? length (LaserAngles s))%nat with true
    by (symmetry; apply Nat.eqb_eq; symmetry; exact HL).
  change (check true) with (Returned tt).
  change (Returned ?x ≫= ?f) with (f x). lazy beta zeta.
  rewrite (ParallelFor_returns W s (Z.to_nat ppl) _ _ HL).
  change (Returned ?x ≫= ?f) with (f x). lazy beta.
  rewrite ComputeAndSaveDetections_returns.
  - simpl RecordedHits. simpl GetTransform.
    destruct (mapM _ _) as [ds| |]; [|reflexivity|reflexivity].
    change (Returned ds ≫= ?f) with (f ds). lazy beta.
    unfold mret, outcome_ret. f_equal.
    unfold after_tick, PreprocessRays, ResetRecordedHits. simpl.
    rewrite (const_fmap (fun _ : list bool => replicate (Z.to_nat ppl) true)
                        (resize (Channels (Description s)) [] (RayPreprocessCondition s))
                        (replicate (Z.to_nat ppl) true)) by reflexivity.
    rewrite length_resize. reflexivity.
  - simpl. rewrite length_fmap. exact HL.
  - simpl. exact HP.
  - simpl. exact HC.
Qed.

End Simulate.

(* ===================================================================== *)
(** ** A tick *)
(* ===================================================================== *)

Lemma recorded_hit_TraceEnd (W : World) (s : ARayCastSemanticLidar)
      (cur step a : float) (j : nat) :
  X (TraceEnd (recorded_hit W s cur step a j)) = a
  /\ Y (TraceEnd (recorded_hit W s cur step a j)) = HorizAngle s cur step j.
Proof.
  unfold recorded_hit, ShootLaser. cbv zeta.
  set (h := W _ _ _ _). destruct (bBlockingHit h); split; reflexivity.
Qed.

Lemma recorded_hit_blocking (W : World) (s : ARayCastSemanticLidar)
      (cur step a : float) (j : nat) :
  bBlockingHit (recorded_hit W s cur step a j)
  = bBlockingHit (W (GetTransform s) (Range (Description s)) a (HorizAngle s cur step j)).
Proof.
  unfold recorded_hit, ShootLaser. cbv zeta.
  set (h := W _ _ _ _). destruct (bBlockingHit h) eqn:E; simpl; exact E.
Qed.

Lemma recorded_row_length (W : World) (s : ARayCastSemanticLidar)
      (cur step : float) (n : nat) (a : float) :
  length (recorded_row W s cur step n a) = n.
Proof. unfold recorded_row. rewrite length_fmap, length_seq. reflexivity. Qed.

Lemma recorded_row_lookup (W : World) (s : ARayCastSemanticLidar)
      (cur step : float) (n : nat) (a : float) (j : nat) :
  (j < n)%nat ->
  recorded_row W s cur step n a !! j = Some (recorded_hit W s cur step a j).
Proof.
  intros H. unfold recorded_row.
  rewrite list_lookup_fmap, lookup_seq_lt by exact H. reflexivity.
Qed.

Lemma hit_count_rows (W : World) (s : ARayCastSemanticLidar) (cur step : float)
      (ppl : Z) (angles : list float) :
  (0 <= ppl < 2 ^ 32)%Z ->
  hit_count <$> (recorded_row W s cur step (Z.to_nat ppl) <$> angles)
  = replicate (length angles) ppl.
Proof.
  intros H. rewrite <- list_fmap_compose. apply const_fmap. intros i a _.
  unfold compose, hit_count. rewrite recorded_row_length, Z2Nat.id by lia.
  apply to_uint32_small, H.
Qed.

Lemma concat_rows_length (W : World) (s : ARayCastSemanticLidar) (cur step : float)
      (n : nat) (angles : list float) :
  length (concat (recorded_row W s cur step n <$> angles)) = (length angles * n)%nat.
Proof.
  induction angles as [|a angles IH]; [reflexivity|].
  rewrite fmap_cons. simpl concat. rewrite length_app, IH, recorded_row_length.
  simpl. reflexivity.
Qed.

Lemma in_concat_rows (W : World) (s : ARayCastSemanticLidar) (cur step : float)
      (n : nat) (angles : list float) (h : FHitResult) :
  h ∈ concat (recorded_row W s cur step n <$> angles) ->
  exists a j, h = recorded_hit W s cur step a j.
Proof.
  induction angles as [|a angles IH]; intros H.
  - inversion H.
  - rewrite fmap_cons in H. simpl concat in H. apply elem_of_app in H as [H|H].
    + unfold recorded_row in H. apply list_elem_of_fmap in H as [j [-> _]].
      exists a, j. reflexivity.
    + apply IH, H.
Qed.

Lemma after_tick_sized (Pi : float) (W : World) (s : ARayCastSemanticLidar)
      (DeltaTime : float) (ppl : Z) (ds : list FSemanticDetection) :
  sensor_sized s -> sensor_sized (after_tick Pi W s DeltaTime ppl ds).
Proof.
  intros [H1 [HL [HP HC]]]. unfold sensor_sized, after_tick. simpl.
  rewrite !length_fmap. repeat split; assumption.
Qed.

Lemma after_tick_config (Pi : float) (W : World) (s : ARayCastSemanticLidar)
      (DeltaTime : float) (ppl : Z) (ds : list FSemanticDetection) :
  same_config s (after_tick Pi W s DeltaTime ppl ds).
Proof. repeat split. Qed.

Section TickProperties.

Variable GetSafeNormal : FVector -> FVector.
Variable Pi : float.
Variable W : World.

Lemma classify_miss (T : FTransform) (h : FHitResult) :
  bBlockingHit h = false ->
  exists d, classify GetSafeNormal T h = Returned d
            /\ object_idx d = 0%Z /\ cos_inc_angle d = 2.
Proof.
  intros H. unfold classify, ComputeRawDetection. rewrite H.
  eexists. split; [reflexivity|]. split; reflexivity.
Qed.

(** A tick that returns leaves the sensor sized. *)
Lemma SimulateLidar_sized (s s' : ARayCastSemanticLidar) (DeltaTime : float) :
  sensor_sized s ->
  SimulateLidar GetSafeNormal Pi W s DeltaTime = Returned s' ->
  sensor_sized s'.
Proof.
  intros Hs H.
  destruct (PointsToScan (Description s) DeltaTime) as [ppl| |] eqn:Hppl.
  - pose proof (float_to_uint32_range _ _ Hppl) as Hrange.
    destruct (Z.eq_dec ppl 0%Z) as [->|Hne].
    + rewrite (SimulateLidar_idle GetSafeNormal Pi W s DeltaTime Hppl) in H.
      injection H as <-. exact Hs.
    + rewrite (SimulateLidar_scans GetSafeNormal Pi W s DeltaTime ppl Hs Hppl) in H
        by lia.
      destruct (mapM _ _) as [ds| |]; try discriminate.
      injection H as <-. apply after_tick_sized, Hs.
  - unfold PointsToScan in Hppl. unfold SimulateLidar in H. rewrite Hppl in H.
    discriminate.
  - unfold PointsToScan in Hppl. unfold SimulateLidar in H. rewrite Hppl in H.
    discriminate.
Qed.

(** C7.  A tick that scans [ppl > 0] points per laser.  The parallel
    region returns with one row per channel and, in the row of a
    channel, one hit per sample: the hit of the ray cast at that sample,
    blocking or not.  Whenever the tick returns, the header of the sweep
    and the per-channel counts are [ppl] for every channel, and the sweep
    holds [Channels * ppl] detections.  When every ray misses, the tick
    does return, and every detection of the sweep has index 0. *)
Theorem every_ray_is_recorded (s : ARayCastSemanticLidar) (DeltaTime : float) (ppl : Z) :
  sensor_sized s ->
  PointsToScan (Description s) DeltaTime = Returned ppl ->
  (0 < ppl)%Z ->
  let C := Channels (Description s) in
  let n := Z.to_nat ppl in
  let cur := ToDegrees Pi (GetHorizontalAngle (SemanticLidarData s)) in
  let step :=
    RotationFrequency (Description s) * HorizontalFov (Description s) * DeltaTime
    / inject_Z ppl in
  (exists s1,
      ParallelFor_Channels W (PreprocessRays (ResetRecordedHits s C n) C n) C n cur step
      = Returned s1
      /\ length (RecordedHits s1) = C
      /\ forall c a,
          LaserAngles s !! c = Some a ->
          exists row,
            RecordedHits s1 !! c = Some row
            /\ length row = n
            /\ forall j, (j < n)%nat ->
                         row !! j = Some (recorded_hit W s cur step a j))
  /\ (forall s',
         SimulateLidar GetSafeNormal Pi W s DeltaTime = Returned s' ->
         Header (SemanticLidarData s') = replicate C ppl
         /\ PointsPerChannel s' = replicate C ppl
         /\ length (SerPoints (SemanticLidarData s')) = (C * n)%nat)
  /\ ((forall T r v h, bBlockingHit (W T r v h) = false) ->
      exists s',
        SimulateLidar GetSafeNormal Pi W s DeltaTime = Returned s'
        /\ Header (SemanticLidarData s') = replicate C ppl
        /\ length (SerPoints (SemanticLidarData s')) = (C * n)%nat
        /\ Forall (fun d => object_idx d = 0%Z) (SerPoints (SemanticLidarData s'))).
Proof.
  intros Hs Hppl Hpos C n cur step.
  pose proof (float_to_uint32_range _ _ Hppl) as Hrange.
  pose proof Hs as [_ [HL [HP HC]]].
  pose proof (SimulateLidar_scans GetSafeNormal Pi W s DeltaTime ppl Hs Hppl Hpos) as E.
  assert (Hsweep : forall ds,
             mapM (classify GetSafeNormal (GetTransform s))
                  (concat (RecordedHits (after_tick Pi W s DeltaTime ppl []))) = Returned ds ->
             Header (SemanticLidarData (after_tick Pi W s DeltaTime ppl ds)) = replicate C ppl
             /\ PointsPerChannel (after_tick Pi W s DeltaTime ppl ds) = replicate C ppl
             /\ length (SerPoints (SemanticLidarData (after_tick Pi W s DeltaTime ppl ds)))
                = (C * n)%nat).
  { intros ds Hds. unfold after_tick. simpl.
    rewrite hit_count_rows by exact Hrange. rewrite HL.
    split; [reflexivity|]. split; [reflexivity|].
    apply mapM_Returned_length in Hds. rewrite Hds.
    unfold after_tick. simpl. rewrite concat_rows_length, HL. reflexivity. }
  split; [|split].
  - eexists. split; [apply (ParallelFor_returns W s n cur step HL)|].
    split.
    + simpl. rewrite length_fmap. exact HL.
    + intros c a Ha. exists (recorded_row W s cur step n a). simpl.
      split; [rewrite list_lookup_fmap, Ha; reflexivity|].
      split; [apply recorded_row_length|].
      intros j Hj. apply recorded_row_lookup, Hj.
  - intros s' Hs'. rewrite E in Hs'.
    destruct (mapM _ _) as [ds| |] eqn:Hds; try discriminate.
    simpl in Hs'. injection Hs' as <-. apply Hsweep. reflexivity.
  - intros Hmiss.
    destruct (mapM_all_return (classify GetSafeNormal (GetTransform s))
                (concat (RecordedHits (after_tick Pi W s DeltaTime ppl []))))
      as [ds Hds].
    { intros h Hh. unfold after_tick in Hh. simpl in Hh.
      apply in_concat_rows in Hh as [a [j ->]].
      destruct (classify_miss (GetTransform s) (recorded_hit W s cur step a j))
        as [d [Hd _]]; [|exists d; exact Hd].
      rewrite recorded_hit_blocking. apply Hmiss. }
    exists (after_tick Pi W s DeltaTime ppl ds).
    rewrite E, Hds. split; [reflexivity|].
    destruct (Hsweep ds Hds) as [H1 [_ H3]].
    split; [exact H1|]. split; [exact H3|].
    simpl. refine (mapM_Returned_Forall _ _ _ _ _ Hds). intros h d Hh Hd.
    unfold after_tick in Hh. simpl in Hh.
    apply in_concat_rows in Hh as [a [j ->]].
    destruct (classify_miss (GetTransform s) (recorded_hit W s cur step a j))
      as [d' [Hd' [Hi _]]].
    { rewrite recorded_hit_blocking. apply Hmiss. }
    fold cur step n in Hd. congruence.
Qed.

End TickProperties.

Lemma ToDegrees_ToRadians (Pi x : Q) : 0 < Pi -> ToDegrees Pi (ToRadians Pi x) == x.
Proof. intros H. unfold ToDegrees, ToRadians. field. lra. Qed.

Lemma ToDegrees_nonneg (Pi x : Q) : 0 < Pi -> 0 <= x -> 0 <= ToDegrees Pi x.
Proof.
  intros HP Hx. unfold ToDegrees. apply Qmult_le_0_compat; [exact Hx|].
  apply Qle_shift_div_l; lra.
Qed.

Lemma advance_nonneg (rf fov dt : Q) : 0 <= rf -> 0 < fov -> 0 <= dt -> 0 <= rf * fov * dt.
Proof.
  intros H1 H2 H3. apply Qmult_le_0_compat; [|exact H3].
  apply Qmult_le_0_compat; lra.
Qed.

Lemma float_of_nat_nonneg (j : nat) : 0 <= float_of_nat j.
Proof. unfold float_of_nat. change 0 with (inject_Z 0). rewrite <- Zle_Qle. lia. Qed.

Lemma float_of_nat_S (k : nat) : float_of_nat (S k) == float_of_nat k + 1.
Proof.
  unfold float_of_nat. rewrite Nat2Z.inj_succ, <- Z.add_1_r, inject_Z_plus. reflexivity.
Qed.

Lemma HorizAngle_wrap (s : ARayCastSemanticLidar) (cur step : Q) (j : nat) :
  0 < HorizontalFov (Description s) -> 0 <= cur -> 0 <= step ->
  let fov := HorizontalFov (Description s) in
  HorizAngle s cur step j == wrap (cur + float_of_nat j * step) fov - fov / 2
  /\ - (fov / 2) <= HorizAngle s cur step j
  /\ HorizAngle s cur step j < fov / 2.
Proof.
  intros Hfov Hcur Hstep fov. subst fov. unfold HorizAngle.
  generalize dependent (HorizontalFov (Description s)). intros fov Hfov.
  assert (Hx : 0 <= cur + step * float_of_nat j).
  { pose proof (float_of_nat_nonneg j) as Hj.
    assert (0 <= step * float_of_nat j) by (apply Qmult_le_0_compat; assumption).
    lra. }
  pose proof (fmod_wrap _ _ Hx Hfov) as E.
  pose proof (wrap_range (cur + step * float_of_nat j) fov Hfov) as [R1 R2].
  assert (Ec : cur + float_of_nat j * step == cur + step * float_of_nat j) by ring.
  rewrite E, Ec.
  generalize dependent (wrap (cur + step * float_of_nat j) fov). intros w _ R1 R2.
  clear Hx Ec Hcur Hstep. change float with Q in *.
  assert (Eh : fov / 2 + fov / 2 == fov) by field.
  split; [reflexivity|]. split; lra.
Qed.

Section TickAngles.

Variable GetSafeNormal : FVector -> FVector.
Variable Pi : float.
Variable W : World.

(** C9, amended.  A tick that scans [ppl > 0] points per laser, with a
    positive field of view, and with a rotation frequency, an elapsed
    time and a stored angle that are not negative.  For every channel and
    every sample [j] below [ppl], the hit recorded by the parallel region
    carries the channel's vertical angle and the horizontal angle of the
    ray, which is [wrap (cur + j * step) fov - fov / 2] and lies in
    [[- fov / 2, fov / 2)]. *)
Theorem horizontal_angle_of_sample
        (s : ARayCastSemanticLidar) (DeltaTime : float) (ppl : Z) :
  sensor_sized s ->
  PointsToScan (Description s) DeltaTime = Returned ppl ->
  (0 < ppl)%Z ->
  0 < Pi ->
  0 < HorizontalFov (Description s) ->
  0 <= RotationFrequency (Description s) ->
  0 <= DeltaTime ->
  0 <= GetHorizontalAngle (SemanticLidarData s) ->
  let C := Channels (Description s) in
  let n := Z.to_nat ppl in
  let fov := HorizontalFov (Description s) in
  let cur := ToDegrees Pi (GetHorizontalAngle (SemanticLidarData s)) in
  let step := RotationFrequency (Description s) * fov * DeltaTime / inject_Z ppl in
  exists s1,
    ParallelFor_Channels W (PreprocessRays (ResetRecordedHits s C n) C n) C n cur step
    = Returned s1
    /\ forall c a j,
        LaserAngles s !! c = Some a -> (j < n)%nat ->
        exists h,
          RecordedHits s1 !! c ≫= (.!! j) = Some h
          /\ X (TraceEnd h) = a
          /\ Y (TraceEnd h) = HorizAngle s cur step j
          /\ Y (TraceEnd h) == wrap (cur + float_of_nat j * step) fov - fov / 2
          /\ - (fov / 2) <= Y (TraceEnd h)
          /\ Y (TraceEnd h) < fov / 2.
Proof.
  intros [_ [HL _]] Hppl Hpos HPi Hfov Hrf Hdt Hang C n fov cur step.
  eexists. split; [apply (ParallelFor_returns W s n cur step HL)|].
  intros c a j Ha Hj. exists (recorded_hit W s cur step a j). simpl.
  rewrite list_lookup_fmap, Ha. simpl.
  split; [apply recorded_row_lookup, Hj|].
  destruct (recorded_hit_TraceEnd W s cur step a j) as [HX HY].
  split; [exact HX|]. split; [exact HY|]. rewrite HY.
  apply HorizAngle_wrap.
  - exact Hfov.
  - apply ToDegrees_nonneg; assumption.
  - apply Qle_shift_div_l.
    + change 0 with (inject_Z 0). rewrite <- Zlt_Qlt. exact Hpos.
    + rewrite Qmult_0_l. apply advance_nonneg; assumption.
Qed.

(** Ticks that scan, one after the other: each returns, keeps the
    configuration and the sizes, and advances the stored angle once. *)
Lemma ticks_iterate (s0 : ARayCastSemanticLidar) (DeltaTime : float) (ppl : Z) :
  PointsToScan (Description s0) DeltaTime = Returned ppl ->
  (0 < ppl)%Z ->
  (forall v h, exists d,
      classify GetSafeNormal (GetTransform s0) (snd (ShootLaser W s0 v h)) = Returned d) ->
  forall (N : nat) (s : ARayCastSemanticLidar),
    same_config s0 s ->
    sensor_sized s ->
    exists sN,
      Ticks GetSafeNormal Pi W s DeltaTime N = Returned sN
      /\ same_config s0 sN
      /\ sensor_sized sN
      /\ HorizontalAngle (SemanticLidarData sN)
         = Nat.iter N (advance_angle Pi (Description s0) DeltaTime)
                    (HorizontalAngle (SemanticLidarData s)).
Proof.
  intros Hppl Hpos Hcl.
  induction N as [|N IH]; intros s Hcfg Hsz.
  - exists s. simpl. repeat split; try apply Hcfg; try apply Hsz.
  - pose proof Hcfg as [Hd [Ht HLa]].
    assert (Hppl' : PointsToScan (Description s) DeltaTime = Returned ppl)
      by (rewrite Hd; exact Hppl).
    pose proof (SimulateLidar_scans GetSafeNormal Pi W s DeltaTime ppl Hsz Hppl' Hpos) as E.
    destruct (mapM_all_return (classify GetSafeNormal (GetTransform s))
                (concat (RecordedHits (after_tick Pi W s DeltaTime ppl []))))
      as [ds Hds].
    { intros h Hh. unfold after_tick in Hh. simpl in Hh.
      apply in_concat_rows in Hh as [a [j ->]].
      unfold recorded_hit, ShootLaser. rewrite Hd, Ht. apply Hcl. }
    simpl Ticks. unfold PostPhysTick. rewrite E, Hds.
    change (Returned ds ≫= ?f) with (f ds). lazy beta.
    change (mret ?x ≫= ?f) with (f x). lazy beta.
    destruct (IH (after_tick Pi W s DeltaTime ppl ds)) as [sN [HT [HcN [HsN HaN]]]].
    + destruct (after_tick_config Pi W s DeltaTime ppl ds) as [A [B C]].
      repeat split; congruence.
    + apply after_tick_sized, Hsz.
    + exists sN. split; [exact HT|]. split; [exact HcN|]. split; [exact HsN|].
      rewrite HaN, Nat.iter_succ_r.
      unfold after_tick, advance_angle. simpl. rewrite Hd. reflexivity.
Qed.

(** C5, amended.  A sensor whose buffers are sized, ticked [N] times
    with the same elapsed time, in a scene whose hits all classify.  The
    [N] ticks return.  When the points per laser are positive, the
    stored angle after them is the stored angle before them advanced
    [N] times by the update of the tick, whatever the points per second
    and the scene; when they are zero, every tick returns before the
    angle is advanced and the sensor is unchanged. *)
Theorem angle_after_ticks (s0 : ARayCastSemanticLidar) (DeltaTime : float) (ppl : Z)
        (N : nat) :
  sensor_sized s0 ->
  PointsToScan (Description s0) DeltaTime = Returned ppl ->
  (forall v h, exists d,
      classify GetSafeNormal (GetTransform s0) (snd (ShootLaser W s0 v h)) = Returned d) ->
  exists sN,
    Ticks GetSafeNormal Pi W s0 DeltaTime N = Returned sN
    /\ ((0 < ppl)%Z ->
        HorizontalAngle (SemanticLidarData sN)
        = Nat.iter N (advance_angle Pi (Description s0) DeltaTime)
                   (HorizontalAngle (SemanticLidarData s0)))
    /\ (ppl = 0%Z -> sN = s0).
Proof.
  intros Hsz Hppl Hcl.
  pose proof (float_to_uint32_range _ _ Hppl) as Hrange.
  destruct (Z.eq_dec ppl 0%Z) as [H0|H0].
  - exists s0. subst ppl. split; [|split; [lia | reflexivity]].
    induction N as [|N IH]; [reflexivity|].
    simpl. unfold PostPhysTick.
    rewrite (SimulateLidar_idle GetSafeNormal Pi W s0 DeltaTime Hppl).
    exact IH.
  - assert (Hpos : (0 < ppl)%Z) by lia.
    destruct (ticks_iterate s0 DeltaTime ppl Hppl Hpos Hcl N s0)
      as [sN [HT [_ [_ Ha]]]].
    + repeat split.
    + exact Hsz.
    + exists sN. split; [exact HT|]. split; [|lia]. intros _. exact Ha.
Qed.

End TickAngles.

(** [Set_] leaves the buffers sized for the channels, and the angle at 0. *)
Lemma Set_returns (s : ARayCastSemanticLidar) (d : FLidarDescription) :
  (1 <= Channels d)%nat ->
  exists s',
    Set_ s d = Returned s'
    /\ sensor_sized s'
    /\ Description s' = d
    /\ HorizontalAngle (SemanticLidarData s') = 0.
Proof.
  intros H. unfold Set_. cbv zeta.
  rewrite CreateLasers_returns by (simpl; lia).
  eexists. split; [reflexivity|]. unfold sensor_sized. simpl.
  rewrite length_fmap, length_seq, length_resize. repeat split. exact H.
Qed.

(* ===================================================================== *)
(** ** Concrete runs *)
(* ===================================================================== *)

(** C1.  A transparency of 3/1024: 256 times it is 3/4, which the cast
    truncates to 0 where rounding gives 1; the alpha written is 255, not
    254.  And a transparency of 1: 256 does not fit a byte, the cast is
    undefined, nothing is clamped. *)
Lemma transparency_is_truncated :
  (exists d,
      ComputeRawDetectionFromMaterialInstance
        FSemanticDetection_default (glass_material (3 # 1024))
        (wall (glass_material (3 # 1024))) = Returned d
      /\ Vector4DuInt.w (base_color d) = 255%Z
      /\ spec_transparency_alpha (3 # 1024) = 254%Z
      /\ Vector4DuInt.w (base_color d) <> spec_transparency_alpha (3 # 1024))
  /\ ComputeRawDetectionFromMaterialInstance
       FSemanticDetection_default (glass_material 1) (wall (glass_material 1))
     = Undefined
  /\ spec_transparency_alpha 1 = 0%Z.
Proof.
  split; [|split; reflexivity].
  eexists. split; [reflexivity|]. split; [reflexivity|]. split; [reflexivity|].
  vm_compute. discriminate.
Qed.

(** C2.  A blocking hit on a component that is not a static mesh: the
    detection has index 1, the tag of the component and a zero second
    quad, and its base colour is (1, 0, 0, 0), not the zero quad.  The
    next branch of the ladder (a static mesh hit without a face index,
    index 2) writes the zero quad to both. *)
Lemma unresolved_component_base_color :
  (exists d,
      ComputeRawDetection GetSafeNormal_rat (hit_on (landscape 7)) origin
                          FSemanticDetection_default = Returned d
      /\ object_idx d = 1%Z
      /\ object_tag d = 7%Z
      /\ ORME d = zero_quad
      /\ base_color d = Vector4DuInt.Build 1 0 0 0
      /\ base_color d <> zero_quad)
  /\ (exists d,
        ComputeRawDetection GetSafeNormal_rat (faceless (hit_on (wall layered_material)))
                            origin FSemanticDetection_default = Returned d
        /\ object_idx d = 2%Z
        /\ ORME d = zero_quad
        /\ base_color d = zero_quad).
Proof.
  split.
  - eexists. split; [reflexivity|]. repeat (split; [reflexivity|]).
    vm_compute. discriminate.
  - eexists. split; [reflexivity|]. repeat split.
Qed.

(** C4.  Three textures, red at index 0 and green at index 2, hit at the
    UV coordinates (0, 0): the sampler would read red and green there, and
    the detection returned has both quads zero. *)
Lemma layered_textures_are_not_sampled :
  FindCollisionUV (hit_on (wall layered_material)) 0 = Some (mkFVector2D 0 0)
  /\ GetColorFromTexture (mkUTexture2D 1 1 (Some [red])) (mkFVector2D 0 0)
                         (mkFColor 0 0 0 0) = Returned red
  /\ GetColorFromTexture (mkUTexture2D 1 1 (Some [green])) (mkFVector2D 0 0)
                         (mkFColor 0 0 0 0) = Returned green
  /\ exists d,
      ComputeRawDetection GetSafeNormal_rat (hit_on (wall layered_material)) origin
                          FSemanticDetection_default = Returned d
      /\ base_color d = zero_quad
      /\ ORME d = zero_quad
      /\ base_color d <> Vector4DuInt_of_FColor red
      /\ ORME d <> Vector4DuInt_of_FColor green.
Proof.
  repeat (split; [reflexivity|]).
  eexists. split; [reflexivity|]. repeat (split; [reflexivity|]).
  split; vm_compute; discriminate.
Qed.

(** C5.  One point per second on one channel and ticks of a quarter of a
    second: no point is requested, the tick returns at once, and the angle
    is still 0 after it, where the stated formula gives 90 degrees.  And
    in binary32, a hundred points per second on one channel, one turn of
    360 degrees per second and ticks of 0.7f seconds: every tick scans 70
    points, the advance of a tick rounds to 252 degrees, and after ten
    ticks the stored angle is 0, where the stated formula gives
    3600 * 0.7f mod 360, which is above 359. *)
Lemma stated_angle_is_not_reached :
  (PointsToScan sparse_lidar (1 # 4) = Returned 0%Z
   /\ exists s1,
       Ticks GetSafeNormal_rat Pi_rat empty_world (configured sparse_lidar) (1 # 4) 1
       = Returned s1
       /\ ToDegrees Pi_rat (HorizontalAngle (SemanticLidarData s1)) == 0
       /\ wrap (float_of_nat 1 * (1 * 360 * (1 # 4))) 360 == 90
       /\ ~ ToDegrees Pi_rat (HorizontalAngle (SemanticLidarData s1))
            == wrap (float_of_nat 1 * (1 * 360 * (1 # 4))) 360)
  /\ (Binary32.PointsToScan 100 Binary32.seven_tenths 1 = Returned 70%Z
      /\ SFmul Binary32.prec Binary32.emax
               (SFmul Binary32.prec Binary32.emax (Binary32.of_Z 1) (Binary32.of_Z 360))
               Binary32.seven_tenths
         = Binary32.of_Z 252
      /\ Nat.iter 10
           (Binary32.advance_angle (Binary32.of_Z 1) (Binary32.of_Z 360)
                                   Binary32.seven_tenths)
           (S754_zero false)
         = S754_zero false
      /\ Binary32.to_Q Binary32.seven_tenths == 11744051 # 16777216
      /\ 359 < wrap (float_of_nat 10 * (1 * 360 * (11744051 # 16777216))) 360).
Proof.
  split.
  - split; [reflexivity|].
    eexists. split; [reflexivity|]. split; [reflexivity|]. split; [reflexivity|].
    vm_compute. discriminate.
  - repeat split; vm_compute; reflexivity.
Qed.


(** C9.  A rotation frequency of -1, eight points per second, a tick of a
    quarter of a second: two samples, a step of -45 degrees.  The second
    ray is cast at fmod (-45, 360) - 180 = -225 degrees, below -180, where
    the stated formula gives wrap (-45, 360) - 180 = 135. *)
Lemma reversed_rotation_leaves_the_window :
  PointsToScan reversed_lidar (1 # 4) = Returned 2%Z
  /\ exists s1 h,
      SimulateLidar GetSafeNormal_rat Pi_rat empty_world (configured reversed_lidar) (1 # 4)
      = Returned s1
      /\ RecordedHits s1 !! 0%nat ≫= (.!! 1%nat) = Some h
      /\ Y (TraceEnd h) == -225
      /\ wrap (ToDegrees Pi_rat
                 (GetHorizontalAngle (SemanticLidarData (configured reversed_lidar)))
               + float_of_nat 1
                 * (RotationFrequency reversed_lidar * HorizontalFov reversed_lidar
                    * (1 # 4) / inject_Z 2))
              (HorizontalFov reversed_lidar)
         - HorizontalFov reversed_lidar / 2 == 135
      /\ ~ Y (TraceEnd h)
           == wrap (ToDegrees Pi_rat
                      (GetHorizontalAngle (SemanticLidarData (configured reversed_lidar)))
                    + float_of_nat 1
                      * (RotationFrequency reversed_lidar * HorizontalFov reversed_lidar
                         * (1 # 4) / inject_Z 2))
                   (HorizontalFov reversed_lidar)
              - HorizontalFov reversed_lidar / 2
      /\ ~ - (HorizontalFov reversed_lidar / 2) <= Y (TraceEnd h).
Proof.
  split; [reflexivity|].
  eexists. eexists. split; [reflexivity|]. split; [reflexivity|].
  split; [reflexivity|]. split; [reflexivity|]. split.
  - vm_compute. discriminate.
  - vm_compute. intros H. apply H. reflexivity.
Qed.

(** Rounding.  Forty lasers from 10 down to -30 degrees, in binary32: the
    step 40/39 is rounded up, and the last angle is -30 - 2^-18, two units
    in the last place below the lower limit.  With thirty-two lasers the
    last angle is -30. *)
Lemma forty_lasers_in_binary32 :
  Binary32.VerticalAngle (Binary32.of_Z 10) (Binary32.of_Z (-30)) 40 39
  = S754_finite true 15728642 (-19)
  /\ Binary32.of_Z (-30) = S754_finite true 15728640 (-19)
  /\ Binary32.VerticalAngle (Binary32.of_Z 10) (Binary32.of_Z (-30)) 40 0
     = Binary32.of_Z 10
  /\ Binary32.VerticalAngle (Binary32.of_Z 10) (Binary32.of_Z (-30)) 32 31
     = Binary32.of_Z (-30).
Proof. repeat split; vm_compute; reflexivity. Qed.

(** The two binary32 runs above keep what the amended statement of the
    laser angles says: the first angle is the upper limit, no angle is
    above it, and the sequence never increases. *)
Lemma binary32_lasers_keep_the_order :
  (hd S754_nan (Binary32.LaserAngles (Binary32.of_Z 10) (Binary32.of_Z (-30)) 40)
   = Binary32.of_Z 10
   /\ forallb (fun a => SFleb a (Binary32.of_Z 10))
              (Binary32.LaserAngles (Binary32.of_Z 10) (Binary32.of_Z (-30)) 40) = true
   /\ Binary32.never_increasing_b
        (Binary32.LaserAngles (Binary32.of_Z 10) (Binary32.of_Z (-30)) 40) = true)
  /\ (hd S754_nan (Binary32.LaserAngles (Binary32.of_Z 1) Binary32.below_one 3)
      = Binary32.of_Z 1
      /\ forallb (fun a => SFleb a (Binary32.of_Z 1))
                 (Binary32.LaserAngles (Binary32.of_Z 1) Binary32.below_one 3) = true
      /\ Binary32.never_increasing_b
           (Binary32.LaserAngles (Binary32.of_Z 1) Binary32.below_one 3) = true).
Proof. repeat split; vm_compute; reflexivity. Qed.

(* ===================================================================== *)
(** ** The theorems at concrete inputs *)
(* ===================================================================== *)

(** The miss of the examples. *)
Lemma miss_detection_witness :
  bBlockingHit miss = false
  /\ exists d,
      ComputeRawDetection GetSafeNormal_rat miss origin FSemanticDetection_default
      = Returned d
      /\ cos_inc_angle d = 2
      /\ object_idx d = 0%Z
      /\ object_tag d = 0%Z
      /\ base_color d = Vector4DuInt.Build 0 0 0 0
      /\ ORME d = Vector4DuInt.Build 0 0 0 0
      /\ point d = TraceEnd miss.
Proof.
  split; [reflexivity|].
  apply (miss_detection GetSafeNormal_rat miss origin FSemanticDetection_default).
  reflexivity.
Defined.

(** A hit on a wall of half-transparent glass, stencil value 7. *)
Lemma object_tag_is_stencil_witness :
  bBlockingHit (hit_on (wall (glass_material (1 # 2)))) = true
  /\ Component (hit_on (wall (glass_material (1 # 2))))
     = Some (wall (glass_material (1 # 2)))
  /\ exists d,
      ComputeRawDetection GetSafeNormal_rat (hit_on (wall (glass_material (1 # 2))))
                          origin FSemanticDetection_default = Returned d
      /\ object_tag d = 7%Z.
Proof.
  split; [reflexivity|]. split; [reflexivity|].
  pose proof (object_tag_is_stencil GetSafeNormal_rat
                (hit_on (wall (glass_material (1 # 2)))) origin
                FSemanticDetection_default (wall (glass_material (1 # 2)))
                eq_refl eq_refl) as H.
  destruct (ComputeRawDetection GetSafeNormal_rat
              (hit_on (wall (glass_material (1 # 2)))) origin
              FSemanticDetection_default) as [d| |] eqn:E.
  - exists d. split; [reflexivity|]. destruct H as [_ [H _]]. apply H.
    simpl. lia.
  - vm_compute in E. discriminate.
  - vm_compute in E. discriminate.
Defined.

(** Glass of transparency one half: the alpha is 255 - 128. *)
Lemma transparency_detection_witness :
  TextureParameterValues (glass_material (1 # 2)) = []
  /\ ScalarParameterValues (glass_material (1 # 2))
     = [mkFScalarParameterValue "Transparency" (1 # 2)]
  /\ -1 < (1 # 2) * 256
  /\ (1 # 2) * 256 < 256
  /\ exists d,
      ComputeRawDetectionFromMaterialInstance
        FSemanticDetection_default (glass_material (1 # 2))
        (wall (glass_material (1 # 2))) = Returned d
      /\ Vector4DuInt.w (base_color d) = 127%Z
      /\ Vector4DuInt.x (base_color d) = Vector4DuInt.x (ORME d).
Proof.
  split; [reflexivity|]. split; [reflexivity|]. split; [reflexivity|].
  split; [reflexivity|].
  destruct (transparency_detection FSemanticDetection_default (glass_material (1 # 2))
              (wall (glass_material (1 # 2)))
              (mkFScalarParameterValue "Transparency" (1 # 2)) []
              eq_refl eq_refl eq_refl eq_refl eq_refl)
    as [d [E [Hx [_ [_ [Hw _]]]]]].
  exists d. split; [exact E|]. split; [exact Hw | exact Hx].
Defined.


(** Four lasers, eight points per second, half a second, an empty scene:
    one point per laser. *)
Lemma every_ray_is_recorded_witness :
  sensor_sized (configured four_lasers)
  /\ PointsToScan (Description (configured four_lasers)) (1 # 2) = Returned 1%Z
  /\ exists s',
      SimulateLidar GetSafeNormal_rat Pi_rat empty_world (configured four_lasers) (1 # 2)
      = Returned s'
      /\ Header (SemanticLidarData s') = [1; 1; 1; 1]%Z
      /\ length (SerPoints (SemanticLidarData s')) = 4%nat
      /\ Forall (fun d => object_idx d = 0%Z) (SerPoints (SemanticLidarData s')).
Proof.
  assert (Hs : sensor_sized (configured four_lasers)) by (repeat split; simpl; lia).
  assert (Hp : PointsToScan (Description (configured four_lasers)) (1 # 2) = Returned 1%Z)
    by reflexivity.
  split; [exact Hs|]. split; [exact Hp|].
  destruct (every_ray_is_recorded GetSafeNormal_rat Pi_rat empty_world
              (configured four_lasers) (1 # 2) 1 Hs Hp eq_refl) as [_ [_ H]].
  apply H. reflexivity.
Defined.

(** The sensor stored at 350 degrees, a tick of one second: two samples
    per laser, half a turn apart.  The second ray of the lowest laser is
    cast at 350 + 180 = 530 degrees, which wraps to 170 and is centred to
    -10. *)
Lemma horizontal_angle_of_sample_witness :
  sensor_sized turned_sensor
  /\ PointsToScan (Description turned_sensor) 1 = Returned 2%Z
  /\ (0 < 2)%Z
  /\ 0 < Pi_rat
  /\ 0 < HorizontalFov (Description turned_sensor)
  /\ 0 <= RotationFrequency (Description turned_sensor)
  /\ 0 <= 1
  /\ 0 <= GetHorizontalAngle (SemanticLidarData turned_sensor)
  /\ ToDegrees Pi_rat (GetHorizontalAngle (SemanticLidarData turned_sensor)) == 350
  /\ exists s1 h,
      ParallelFor_Channels empty_world
        (PreprocessRays (ResetRecordedHits turned_sensor 4 2) 4 2) 4 2
        (ToDegrees Pi_rat (GetHorizontalAngle (SemanticLidarData turned_sensor)))
        (1 * 360 * 1 / inject_Z 2)
      = Returned s1
      /\ RecordedHits s1 !! 3%nat ≫= (.!! 1%nat) = Some h
      /\ Y (TraceEnd h) == -10
      /\ - (360 / 2) <= Y (TraceEnd h)
      /\ Y (TraceEnd h) < 360 / 2.
Proof.
  assert (Hs : sensor_sized turned_sensor) by (repeat split; simpl; lia).
  assert (Hp : PointsToScan (Description turned_sensor) 1 = Returned 2%Z)
    by reflexivity.
  assert (H0 : (0 < 2)%Z) by lia.
  assert (H1 : 0 < Pi_rat) by reflexivity.
  assert (H2 : 0 < HorizontalFov (Description turned_sensor)) by reflexivity.
  assert (H3 : 0 <= RotationFrequency (Description turned_sensor))
    by (vm_compute; discriminate).
  assert (H4 : 0 <= 1) by (vm_compute; discriminate).
  assert (H5 : 0 <= GetHorizontalAngle (SemanticLidarData turned_sensor))
    by (vm_compute; discriminate).
  assert (H6 : ToDegrees Pi_rat (GetHorizontalAngle (SemanticLidarData turned_sensor))
               == 350) by (vm_compute; reflexivity).
  repeat (split; [assumption|]).
  destruct (horizontal_angle_of_sample Pi_rat empty_world turned_sensor
              1 2 Hs Hp H0 H1 H2 H3 H4 H5) as [s1 [E H]].
  destruct (H 3%nat (laser_angle four_lasers 3) 1%nat) as [h [Hh [_ [_ [Hw [Hlo Hhi]]]]]];
    [reflexivity | simpl; lia |].
  exists s1, h. split; [exact E|]. split; [exact Hh|].
  split; [|split; [exact Hlo | exact Hhi]].
  rewrite Hw. vm_compute. reflexivity.
Defined.

(** Three ticks of half a second from the sensor stored at 350 degrees,
    every ray striking the ground: the stored angle is advanced three
    times. *)
Lemma angle_after_ticks_witness :
  sensor_sized turned_sensor
  /\ PointsToScan (Description turned_sensor) (1 # 2) = Returned 1%Z
  /\ (0 < 1)%Z
  /\ exists sN,
      Ticks GetSafeNormal_rat Pi_rat ground_world turned_sensor (1 # 2) 3 = Returned sN
      /\ HorizontalAngle (SemanticLidarData sN)
         = Nat.iter 3 (advance_angle Pi_rat four_lasers (1 # 2))
                    (HorizontalAngle (SemanticLidarData turned_sensor))
      /\ ToDegrees Pi_rat (HorizontalAngle (SemanticLidarData sN)) == 170.
Proof.
  assert (Hs : sensor_sized turned_sensor) by (repeat split; simpl; lia).
  assert (Hp : PointsToScan (Description turned_sensor) (1 # 2) = Returned 1%Z)
    by reflexivity.
  assert (H1 : (0 < 1)%Z) by lia.
  split; [exact Hs|]. split; [exact Hp|]. split; [exact H1|].
  destruct (angle_after_ticks GetSafeNormal_rat Pi_rat ground_world
              turned_sensor (1 # 2) 1 3 Hs Hp)
    as [sN [E [Ha _]]].
  - intros v h. eexists. reflexivity.
  - exists sN. split; [exact E|]. split; [exact (Ha H1)|].
    rewrite (Ha H1). vm_compute. reflexivity.
Defined.

(* ===================================================================== *)
(** ** The packed quad *)
(* ===================================================================== *)

Lemma to_uint8_range (n : Z) : (0 <= to_uint8 n < 256)%Z.
Proof. unfold to_uint8. apply Z.mod_pos_bound. lia. Qed.

Lemma quad_eq (a b : Vector4DuInt.t) :
  Vector4DuInt.x a = Vector4DuInt.x b -> Vector4DuInt.y a = Vector4DuInt.y b ->
  Vector4DuInt.z a = Vector4DuInt.z b -> Vector4DuInt.w a = Vector4DuInt.w b ->
  a = b.
Proof. destruct a, b. simpl. intros -> -> -> ->. reflexivity. Qed.

Lemma to_uint8_add_sub (n m : Z) : (0 <= n < 256)%Z -> to_uint8 (to_uint8 (n + m) - m) = n.
Proof.
  intros H. unfold to_uint8. rewrite Zminus_mod_idemp_l.
  replace (n + m - m)%Z with n by lia. apply Z.mod_small. exact H.
Qed.

Lemma to_uint8_sub_add (n m : Z) : (0 <= n < 256)%Z -> to_uint8 (to_uint8 (n - m) + m) = n.
Proof.
  intros H. unfold to_uint8. rewrite Zplus_mod_idemp_l.
  replace (n - m + m)%Z with n by lia. apply Z.mod_small. exact H.
Qed.

(** X2.  On a quad of bytes, adding a quad and subtracting it again, or
    subtracting and adding again, gives the quad back, although each step
    wraps around modulo 256. *)
Theorem quad_add_sub_round_trip (a b : Vector4DuInt.t) :
  is_quad a ->
  Vector4DuInt.sub_assign (Vector4DuInt.add_assign a b) b = a
  /\ Vector4DuInt.add_assign (Vector4DuInt.sub_assign a b) b = a.
Proof.
  intros [Hx [Hy [Hz Hw]]]. split; apply quad_eq; simpl;
    first [apply to_uint8_add_sub | apply to_uint8_sub_add]; assumption.
Qed.

Lemma quad_add_sub_round_trip_witness :
  is_quad (Vector4DuInt.Build 250 0 7 255)
  /\ Vector4DuInt.sub_assign
       (Vector4DuInt.add_assign (Vector4DuInt.Build 250 0 7 255)
                                (Vector4DuInt.Build 10 1 2 3))
       (Vector4DuInt.Build 10 1 2 3)
     = Vector4DuInt.Build 250 0 7 255.
Proof.
  assert (H : is_quad (Vector4DuInt.Build 250 0 7 255))
    by (unfold is_quad; simpl; lia).
  split; [exact H|].
  apply (quad_add_sub_round_trip (Vector4DuInt.Build 250 0 7 255)
           (Vector4DuInt.Build 10 1 2 3) H).
Defined.

(** X3.  [+=] is commutative and associative, and the default quad is
    neutral for it on quads of bytes. *)
Theorem quad_add_monoid (a b c : Vector4DuInt.t) :
  Vector4DuInt.add_assign a b = Vector4DuInt.add_assign b a
  /\ Vector4DuInt.add_assign (Vector4DuInt.add_assign a b) c
     = Vector4DuInt.add_assign a (Vector4DuInt.add_assign b c)
  /\ (is_quad a -> Vector4DuInt.add_assign a Vector4DuInt.default = a).
Proof.
  split; [|split].
  - apply quad_eq; simpl; f_equal; lia.
  - apply quad_eq; simpl; unfold to_uint8;
      rewrite Zplus_mod_idemp_l, Zplus_mod_idemp_r; f_equal; lia.
  - intros [Hx [Hy [Hz Hw]]]. apply quad_eq; simpl; unfold to_uint8;
      rewrite Z.add_0_r; apply Z.mod_small; assumption.
Qed.

Lemma quad_add_monoid_witness :
  is_quad (Vector4DuInt.Build 1 2 3 4)
  /\ Vector4DuInt.add_assign (Vector4DuInt.Build 1 2 3 4) Vector4DuInt.default
     = Vector4DuInt.Build 1 2 3 4.
Proof.
  assert (H : is_quad (Vector4DuInt.Build 1 2 3 4)) by (unfold is_quad; simpl; lia).
  split; [exact H|].
  destruct (quad_add_monoid (Vector4DuInt.Build 1 2 3 4) Vector4DuInt.default
              Vector4DuInt.default) as [_ [_ N]].
  apply N, H.
Defined.

(** X4.  Scaling: [*=] distributes over [+=], scaling twice is scaling by
    the product, the two orders of the friend operator agree, scaling by 0
    gives the default quad, and scaling a quad of bytes by 1 leaves it. *)
Theorem quad_scaling (a b : Vector4DuInt.t) (j k : Z) :
  Vector4DuInt.mul_assign (Vector4DuInt.add_assign a b) k
  = Vector4DuInt.add_assign (Vector4DuInt.mul_assign a k) (Vector4DuInt.mul_assign b k)
  /\ Vector4DuInt.mul_assign (Vector4DuInt.mul_assign a j) k
     = Vector4DuInt.mul_assign a (j * k)
  /\ Vector4DuInt.mul_l k a = Vector4DuInt.mul a k
  /\ Vector4DuInt.mul_assign a 0 = Vector4DuInt.default
  /\ (is_quad a -> Vector4DuInt.mul_assign a 1 = a).
Proof.
  repeat split.
  - apply quad_eq; simpl; unfold to_uint8;
      rewrite Zmult_mod_idemp_l, <- Zplus_mod; f_equal; lia.
  - apply quad_eq; simpl; unfold to_uint8;
      rewrite Zmult_mod_idemp_l; f_equal; lia.
  - apply quad_eq; simpl; rewrite Z.mul_0_r; reflexivity.
  - intros [Hx [Hy [Hz Hw]]]. apply quad_eq; simpl; unfold to_uint8;
      rewrite Z.mul_1_r; apply Z.mod_small; assumption.
Qed.

Lemma quad_scaling_witness :
  is_quad (Vector4DuInt.Build 1 2 3 4)
  /\ Vector4DuInt.mul_assign (Vector4DuInt.Build 1 2 3 4) 1 = Vector4DuInt.Build 1 2 3 4.
Proof.
  assert (H : is_quad (Vector4DuInt.Build 1 2 3 4)) by (unfold is_quad; simpl; lia).
  split; [exact H|].
  destruct (quad_scaling (Vector4DuInt.Build 1 2 3 4) Vector4DuInt.default 1 1)
    as [_ [_ [_ [_ N]]]].
  apply N, H.
Defined.

(** X5.  Division.  The divisor reaches [/=] as a byte: two divisors that
    agree modulo 256 give the same outcome, and a divisor that is 0 modulo
    256 (0 itself, 256, ...) is undefined.  With a divisor between 1 and
    255 [/=] returns and no component grows; dividing by 1 leaves a quad
    of bytes; scaling by such a [k] and dividing by [k] gives the quad
    back as long as no product exceeds 255; and the friend operator that
    takes the scalar first divides the vector by the scalar as well. *)
Theorem quad_division (a : Vector4DuInt.t) (k : Z) :
  Vector4DuInt.div_assign a (k + 256) = Vector4DuInt.div_assign a k
  /\ (to_uint8 k = 0%Z -> Vector4DuInt.div_assign a k = Undefined)
  /\ Vector4DuInt.div_l k a = Vector4DuInt.div a k
  /\ (is_quad a -> (0 < k < 256)%Z ->
      exists q,
        Vector4DuInt.div_assign a k = Returned q
        /\ (Vector4DuInt.x q <= Vector4DuInt.x a)%Z
        /\ (Vector4DuInt.y q <= Vector4DuInt.y a)%Z
        /\ (Vector4DuInt.z q <= Vector4DuInt.z a)%Z
        /\ (Vector4DuInt.w q <= Vector4DuInt.w a)%Z)
  /\ (is_quad a -> Vector4DuInt.div_assign a 1 = Returned a)
  /\ (is_quad a -> (0 < k < 256)%Z ->
      (Vector4DuInt.x a * k <= 255)%Z -> (Vector4DuInt.y a * k <= 255)%Z ->
      (Vector4DuInt.z a * k <= 255)%Z -> (Vector4DuInt.w a * k <= 255)%Z ->
      Vector4DuInt.div_assign (Vector4DuInt.mul_assign a k) k = Returned a).
Proof.
  assert (D : forall n, (0 <= n < 256)%Z -> (0 < k)%Z ->
                        (0 <= n / k <= n)%Z).
  { intros n Hn Hk. split; [apply Z.div_pos; lia|].
    apply Z.div_le_upper_bound; [lia|]. nia. }
  assert (R : (0 < k < 256)%Z -> to_uint8 k = k)
    by (intros Hk; apply to_uint8_small; lia).
  split; [|split; [|split; [reflexivity|split; [|split]]]].
  - unfold Vector4DuInt.div_assign.
    replace (to_uint8 (k + 256)) with (to_uint8 k); [reflexivity|].
    unfold to_uint8. rewrite <- (Z.mul_1_l 256) at 2.
    symmetry. apply Z.mod_add. lia.
  - intros H0. unfold Vector4DuInt.div_assign. rewrite H0. reflexivity.
  - intros [Hx [Hy [Hz Hw]]] Hk. unfold Vector4DuInt.div_assign. rewrite (R Hk).
    cbv zeta.
    replace (k =? 0)%Z with false by (symmetry; apply Z.eqb_neq; lia).
    eexists. split; [reflexivity|]. simpl.
    assert (Hk0 : (0 < k)%Z) by lia.
    pose proof (D _ Hx Hk0). pose proof (D _ Hy Hk0).
    pose proof (D _ Hz Hk0). pose proof (D _ Hw Hk0).
    rewrite !to_uint8_small by lia. lia.
  - intros [Hx [Hy [Hz Hw]]]. unfold Vector4DuInt.div_assign. simpl. f_equal.
    apply quad_eq; simpl; rewrite Z.div_1_r; apply to_uint8_small; lia.
  - intros [Hx [Hy [Hz Hw]]] Hk Bx By Bz Bw. unfold Vector4DuInt.div_assign.
    rewrite (R Hk). cbv zeta.
    replace (k =? 0)%Z with false by (symmetry; apply Z.eqb_neq; lia).
    f_equal. apply quad_eq; simpl.
    all: rewrite (to_uint8_small (_ * k)) by nia;
      rewrite Z.div_mul by lia; apply to_uint8_small; lia.
Qed.

(** Scaling by 6 and dividing by 6; and the divisor 256, which arrives
    as 0. *)
Lemma quad_division_witness :
  is_quad (Vector4DuInt.Build 10 20 30 40)
  /\ (0 < 6 < 256)%Z
  /\ Vector4DuInt.div_assign
       (Vector4DuInt.mul_assign (Vector4DuInt.Build 10 20 30 40) 6) 6
     = Returned (Vector4DuInt.Build 10 20 30 40)
  /\ to_uint8 256 = 0%Z
  /\ Vector4DuInt.div_assign (Vector4DuInt.Build 10 20 30 40) 256 = Undefined.
Proof.
  assert (H : is_quad (Vector4DuInt.Build 10 20 30 40))
    by (unfold is_quad; simpl; lia).
  assert (Hk : (0 < 6 < 256)%Z) by lia.
  assert (H0 : to_uint8 256 = 0%Z) by reflexivity.
  split; [exact H|]. split; [exact Hk|].
  destruct (quad_division (Vector4DuInt.Build 10 20 30 40) 6) as [_ [_ [_ [_ [_ N]]]]].
  destruct (quad_division (Vector4DuInt.Build 10 20 30 40) 256) as [_ [U _]].
  split; [|split; [exact H0 | exact (U H0)]].
  apply N; [exact H | exact Hk | simpl; lia | simpl; lia | simpl; lia | simpl; lia].
Defined.

(** X6.  [operator==] holds exactly of equal quads, and [operator!=]
    exactly of different ones. *)
Theorem quad_equality_decides (a b : Vector4DuInt.t) :
  (Vector4DuInt.eqb a b = true <-> a = b)
  /\ (Vector4DuInt.neqb a b = true <-> a <> b).
Proof.
  assert (E : Vector4DuInt.eqb a b = true <-> a = b).
  { unfold Vector4DuInt.eqb. rewrite !andb_true_iff, !Z.eqb_eq. split.
    - intros [[[Hx Hy] Hz] Hw]. apply quad_eq; assumption.
    - intros ->. repeat split. }
  split; [exact E|]. unfold Vector4DuInt.neqb. rewrite negb_true_iff.
  destruct (Vector4DuInt.eqb a b) eqn:Eb; split; intros H.
  - discriminate.
  - exfalso. apply H, E. reflexivity.
  - intros Hab. apply E in Hab. discriminate.
  - reflexivity.
Qed.

(** X7.  The squared length of a quad of bytes lies between 0 and
    4 * 255 * 255 = 260100, so the [int] arithmetic that computes it never
    overflows, and it is 0 for the default quad only. *)
Theorem quad_squared_length (v : Vector4DuInt.t) :
  is_quad v ->
  (0 <= Vector4DuInt.SquaredLength v <= 260100)%Z
  /\ (Vector4DuInt.SquaredLength v < 2 ^ 31)%Z
  /\ (Vector4DuInt.SquaredLength v = 0%Z <-> v = Vector4DuInt.default).
Proof.
  intros [Hx [Hy [Hz Hw]]]. unfold Vector4DuInt.SquaredLength.
  assert (B : (0 <= Vector4DuInt.x v * Vector4DuInt.x v
                    + Vector4DuInt.y v * Vector4DuInt.y v
                    + Vector4DuInt.z v * Vector4DuInt.z v
                    + Vector4DuInt.w v * Vector4DuInt.w v <= 260100)%Z) by nia.
  split; [exact B|]. split; [lia|]. split.
  - intros H. apply quad_eq; simpl; nia.
  - intros ->. reflexivity.
Qed.

Lemma quad_squared_length_witness :
  is_quad (Vector4DuInt.Build 255 255 255 255)
  /\ Vector4DuInt.SquaredLength (Vector4DuInt.Build 255 255 255 255) = 260100%Z
  /\ (Vector4DuInt.SquaredLength (Vector4DuInt.Build 255 255 255 255) <= 260100)%Z.
Proof.
  assert (H : is_quad (Vector4DuInt.Build 255 255 255 255))
    by (unfold is_quad; simpl; lia).
  split; [exact H|]. split; [reflexivity|].
  apply (quad_squared_length (Vector4DuInt.Build 255 255 255 255) H).
Defined.

(* ===================================================================== *)
(** ** The classifier, branch by branch *)
(* ===================================================================== *)

Lemma material_stage_result (D : FSemanticDetection) (mi : UMaterialInstance)
      (comp : UPrimitiveComponent) (d : FSemanticDetection) :
  ComputeRawDetectionFromMaterialInstance D mi comp = Returned d ->
  object_idx d = (if no_parameters mi then 6%Z
                  else if opaque_scalar mi then 8%Z else object_idx D)
  /\ ORME d = zero_quad
  /\ Vector4DuInt.x (base_color d) = 0%Z
  /\ Vector4DuInt.y (base_color d) = 0%Z
  /\ Vector4DuInt.z (base_color d) = 0%Z.
Proof.
  intros H.
  destruct (unsupported_texture_count mi) eqn:Eu.
  { exfalso. exact (unsupported_count_never_returns D mi comp d Eu H). }
  destruct (vector_only mi) eqn:Ev.
  { rewrite (vector_only_halts D mi comp Ev) in H. discriminate. }
  unfold unsupported_texture_count in Eu.
  apply negb_false_iff, orb_prop in Eu.
  assert (Hc : length (TextureParameterValues mi) = 0%nat
               \/ (length (TextureParameterValues mi) = 1%nat
                   \/ length (TextureParameterValues mi) = 2%nat)
               \/ (length (TextureParameterValues mi) = 3%nat
                   \/ length (TextureParameterValues mi) = 4%nat
                   \/ length (TextureParameterValues mi) = 13%nat)).
  { destruct Eu as [Eu|Eu]; [apply Nat.leb_le in Eu | apply Nat.eqb_eq in Eu]; lia. }
  clear Eu. unfold no_parameters, opaque_scalar.
  destruct Hc as [H0|[H12|H34]].
  - unfold ComputeRawDetectionFromMaterialInstance, vector_only in *.
    rewrite H0 in *. simpl in Ev. simpl in H. simpl.
    destruct (ScalarParameterValues mi) as [|p rest] eqn:Es; simpl in *.
    + destruct (length (VectorParameterValues mi)); [|discriminate].
      simpl in H. injection H as <-. simpl. repeat split.
    + destruct (FName_eqb (ScalarParameterName p) "Transparency"); simpl in *.
      * unfold static_cast_uint8 in H.
        destruct ((0 <=? Qtrunc (ScalarParameterValue p * 256))
                  && (Qtrunc (ScalarParameterValue p * 256) <=? 255))%Z;
          simpl in H; [|discriminate].
        injection H as <-. simpl. repeat split.
      * injection H as <-. simpl. repeat split.
  - rewrite (base_only_returns_zero D mi comp H12) in H. injection H as <-.
    replace (length (TextureParameterValues mi) =? 0)%nat with false
      by (symmetry; apply Nat.eqb_neq; lia).
    simpl. repeat split.
  - rewrite (layered_returns_zero D mi comp H34) in H. injection H as <-.
    replace (length (TextureParameterValues mi) =? 0)%nat with false
      by (symmetry; apply Nat.eqb_neq; lia).
    simpl. repeat split.
Qed.

Lemma component_stage_result (HitInfo : FHitResult) (D : FSemanticDetection)
      (comp : UPrimitiveComponent) (d : FSemanticDetection) :
  ComputeRawDetectionFromComponent HitInfo D comp = Returned d ->
  object_idx d
  = (if (FaceIndex HitInfo =? -1)%Z then 2%Z
     else match FindCollisionUV HitInfo 0 with
          | None => 3%Z
          | Some _ =>
              match GetMaterialFromCollisionFaceIndex comp (FaceIndex HitInfo) with
              | None => 4%Z
              | Some m =>
                  match Cast_UMaterialInstance m with
                  | None => 5%Z
                  | Some mi => if no_parameters mi then 6%Z
                               else if opaque_scalar mi then 8%Z else object_idx D
                  end
              end
          end)
  /\ ORME d = zero_quad
  /\ Vector4DuInt.x (base_color d) = 0%Z
  /\ Vector4DuInt.y (base_color d) = 0%Z
  /\ Vector4DuInt.z (base_color d) = 0%Z.
Proof.
  unfold ComputeRawDetectionFromComponent.
  destruct (FaceIndex HitInfo =? -1)%Z.
  { simpl. intros H. injection H as <-. simpl. repeat split. }
  destruct (FindCollisionUV HitInfo 0) as [uv|].
  2:{ simpl. intros H. injection H as <-. simpl. repeat split. }
  destruct (GetMaterialFromCollisionFaceIndex comp (FaceIndex HitInfo)) as [m|].
  2:{ simpl. intros H. injection H as <-. simpl. repeat split. }
  destruct (Cast_UMaterialInstance m) as [mi|].
  2:{ simpl. intros H. injection H as <-. simpl. repeat split. }
  apply material_stage_result.
Qed.

Section Branches.

Variable GetSafeNormal : FVector -> FVector.

(** The code that the ladder gives a blocking hit on component [c]. *)
Lemma ladder_result (HitInfo : FHitResult) (T : FTransform) (D : FSemanticDetection)
      (c : UPrimitiveComponent) (d : FSemanticDetection) :
  bBlockingHit HitInfo = true ->
  Component HitInfo = Some c ->
  ComputeRawDetection GetSafeNormal HitInfo T D = Returned d ->
  object_idx d = ladder_code HitInfo c
  /\ ORME d = zero_quad
  /\ Vector4DuInt.x (base_color d) = (if IsStaticMesh c then 0%Z else 1%Z)
  /\ Vector4DuInt.y (base_color d) = 0%Z
  /\ Vector4DuInt.z (base_color d) = 0%Z.
Proof.
  intros Hhit Hc. unfold ComputeRawDetection, ladder_code. rewrite Hhit, Hc. simpl.
  destruct (IsStaticMesh c); simpl.
  - intros H. apply component_stage_result in H. exact H.
  - intros H. injection H as <-. simpl. repeat split.
Qed.

End Branches.

Lemma ladder_code_values (HitInfo : FHitResult) (c : UPrimitiveComponent) :
  In (ladder_code HitInfo c) [0; 1; 2; 3; 4; 5; 6; 8]%Z
  /\ (ladder_code HitInfo c = 1%Z <-> IsStaticMesh c = false).
Proof.
  unfold ladder_code.
  destruct (IsStaticMesh c); simpl.
  2:{ split; [tauto|]. split; reflexivity. }
  destruct (FaceIndex HitInfo =? -1)%Z.
  { split; [tauto|]. split; discriminate. }
  destruct (FindCollisionUV HitInfo 0).
  2:{ split; [tauto|]. split; discriminate. }
  destruct (GetMaterialFromCollisionFaceIndex c (FaceIndex HitInfo)) as [m|].
  2:{ split; [tauto|]. split; discriminate. }
  destruct (Cast_UMaterialInstance m) as [mi|].
  2:{ split; [tauto|]. split; discriminate. }
  destruct (no_parameters mi); [|destruct (opaque_scalar mi)];
    (split; [simpl; tauto|]; split; discriminate).
Qed.

Section Ladder.

Variable GetSafeNormal : FVector -> FVector.

(** X8.  The index of the detection returned for a blocking hit names the
    place where the ladder stopped: 1 the component is not a static mesh,
    2 the face index is -1, 3 the UV lookup fails, 4 no material is bound,
    5 the material is not an instance, 6 the instance has no parameter,
    8 it has no texture and a first scalar not named Transparency, 0 any
    other instance on which the ladder returns.  No other index occurs. *)
Theorem object_idx_names_the_branch
        (HitInfo : FHitResult) (T : FTransform) (D : FSemanticDetection)
        (c : UPrimitiveComponent) (d : FSemanticDetection) :
  bBlockingHit HitInfo = true ->
  Component HitInfo = Some c ->
  ComputeRawDetection GetSafeNormal HitInfo T D = Returned d ->
  (object_idx d = 1%Z <-> IsStaticMesh c = false)
  /\ (object_idx d = 2%Z <-> IsStaticMesh c = true /\ FaceIndex HitInfo = (-1)%Z)
  /\ (object_idx d = 3%Z <->
      IsStaticMesh c = true /\ FaceIndex HitInfo <> (-1)%Z
      /\ FindCollisionUV HitInfo 0 = None)
  /\ (object_idx d = 4%Z <->
      IsStaticMesh c = true /\ FaceIndex HitInfo <> (-1)%Z
      /\ FindCollisionUV HitInfo 0 <> None
      /\ GetMaterialFromCollisionFaceIndex c (FaceIndex HitInfo) = None)
  /\ (object_idx d = 5%Z <->
      IsStaticMesh c = true /\ FaceIndex HitInfo <> (-1)%Z
      /\ FindCollisionUV HitInfo 0 <> None
      /\ exists m, GetMaterialFromCollisionFaceIndex c (FaceIndex HitInfo) = Some m
                   /\ Cast_UMaterialInstance m = None)
  /\ (object_idx d = 6%Z <->
      exists mi, ladder_material HitInfo c = Some mi /\ no_parameters mi = true)
  /\ (object_idx d = 8%Z <->
      exists mi, ladder_material HitInfo c = Some mi /\ no_parameters mi = false
                 /\ opaque_scalar mi = true)
  /\ (object_idx d = 0%Z <->
      exists mi, ladder_material HitInfo c = Some mi /\ no_parameters mi = false
                 /\ opaque_scalar mi = false)
  /\ In (object_idx d) [0; 1; 2; 3; 4; 5; 6; 8]%Z.
Proof.
  intros Hhit Hc Hrun.
  destruct (ladder_result GetSafeNormal HitInfo T D c d Hhit Hc Hrun) as [Hi _].
  rewrite Hi. clear Hi Hrun. unfold ladder_code, ladder_material, reached_material.
  destruct (IsStaticMesh c); simpl.
  2:{ repeat split; try discriminate; try tauto;
      try (intros [mi [E _]]; discriminate); try (intros [E _]; discriminate). }
  destruct (FaceIndex HitInfo =? -1)%Z eqn:Ef.
  { apply Z.eqb_eq in Ef.
    repeat split; try discriminate; try tauto; try assumption;
      try (intros [mi [E _]]; discriminate); try (intros [_ [E _]]; congruence). }
  apply Z.eqb_neq in Ef.
  destruct (FindCollisionUV HitInfo 0) as [uv|]; simpl.
  2:{ repeat split; try discriminate; try tauto; try assumption;
      try (intros [mi [E _]]; discriminate); try (intros [_ [_ [E _]]]; congruence);
      try (intros [_ E]; congruence). }
  destruct (GetMaterialFromCollisionFaceIndex c (FaceIndex HitInfo)) as [m|]; simpl.
  2:{ repeat split; try discriminate; try tauto; try assumption;
      try (intros [mi [E _]]; discriminate);
      try (intros [_ [_ [_ [m [E _]]]]]; discriminate);
      try (intros [_ [_ E]]; congruence); try (intros [_ E]; congruence). }
  destruct (Cast_UMaterialInstance m) as [mi|] eqn:Em.
  2:{ repeat split; try discriminate; try tauto; try assumption;
      try (intros [mi [E _]]; discriminate);
      try (intros [_ [_ [_ E]]]; discriminate);
      try (intros [_ [_ E]]; congruence); try (intros [_ E]; congruence).
      exists m. split; [reflexivity | exact Em]. }
  destruct (no_parameters mi) eqn:En; [|destruct (opaque_scalar mi) eqn:Eo].
  all: repeat split; try discriminate; try tauto;
    try (intros [_ [_ [_ E]]]; discriminate);
    try (intros [_ [_ [_ [m' [E1 E2]]]]]; congruence);
    try (intros [_ [_ E]]; congruence); try (intros [_ E]; congruence);
    try (intros [mi' [E1 [E2 E3]]]; congruence);
    try (intros [mi' [E1 E2]]; congruence);
    try (intros _; exists mi; repeat split; assumption).
Qed.

(** X9.  Whatever the hit, a detection that the classifier returns has the
    second quad zero and a base colour whose second and third components
    are zero; the first one is 1 for index 1 and 0 otherwise; and its index
    is one of 0, 1, 2, 3, 4, 5, 6, 8: index 7 is never returned. *)
Theorem returned_detection_quads
        (HitInfo : FHitResult) (T : FTransform) (D d : FSemanticDetection) :
  ComputeRawDetection GetSafeNormal HitInfo T D = Returned d ->
  ORME d = zero_quad
  /\ Vector4DuInt.y (base_color d) = 0%Z
  /\ Vector4DuInt.z (base_color d) = 0%Z
  /\ Vector4DuInt.x (base_color d) = (if (object_idx d =? 1)%Z then 1%Z else 0%Z)
  /\ In (object_idx d) [0; 1; 2; 3; 4; 5; 6; 8]%Z
  /\ object_idx d <> 7%Z.
Proof.
  intros Hrun.
  assert (G : ORME d = zero_quad
              /\ Vector4DuInt.y (base_color d) = 0%Z
              /\ Vector4DuInt.z (base_color d) = 0%Z
              /\ Vector4DuInt.x (base_color d) = (if (object_idx d =? 1)%Z then 1%Z else 0%Z)
              /\ In (object_idx d) [0; 1; 2; 3; 4; 5; 6; 8]%Z).
  { destruct (bBlockingHit HitInfo) eqn:Hhit.
    - destruct (Component HitInfo) as [c|] eqn:Hc.
      + destruct (ladder_result GetSafeNormal HitInfo T D c d Hhit Hc Hrun)
          as [Hi [Ho [Hx [Hy Hz]]]].
        destruct (ladder_code_values HitInfo c) as [Hin Hone].
        split; [exact Ho|]. split; [exact Hy|]. split; [exact Hz|]. split.
        * rewrite Hx, Hi. destruct (IsStaticMesh c) eqn:Es.
          -- destruct (ladder_code HitInfo c =? 1)%Z eqn:E1; [|reflexivity].
             apply Z.eqb_eq in E1. apply Hone in E1. discriminate.
          -- replace (ladder_code HitInfo c) with 1%Z; [reflexivity|].
             symmetry. apply Hone. reflexivity.
        * rewrite Hi. exact Hin.
      + unfold ComputeRawDetection in Hrun. rewrite Hhit, Hc in Hrun. discriminate.
    - unfold ComputeRawDetection in Hrun. rewrite Hhit in Hrun. simpl in Hrun.
      injection Hrun as <-. simpl. repeat split. left. reflexivity. }
  destruct G as [G1 [G2 [G3 [G4 G5]]]]. repeat split; try assumption.
  intros E. rewrite E in G5. simpl in G5.
  repeat (destruct G5 as [G5|G5]; [discriminate|]). exact G5.
Qed.

End Ladder.




Section Geometry.

Variable GetSafeNormal : FVector -> FVector.

Lemma returned_geometry
      (HitInfo : FHitResult) (T : FTransform) (D d : FSemanticDetection) :
  ComputeRawDetection GetSafeNormal HitInfo T D = Returned d ->
  point d = TraceEnd HitInfo
  /\ cos_inc_angle d
     = if bBlockingHit HitInfo
       then DotProduct
              (FVector_neg (GetSafeNormal
                              (FVector_sub (ImpactPoint HitInfo) (GetLocation T))))
              (ImpactNormal HitInfo)
       else 2.
Proof.
  unfold ComputeRawDetection.
  assert (Ep : mkFVector (X (TraceEnd HitInfo)) (Y (TraceEnd HitInfo))
                         (Z_ (TraceEnd HitInfo)) = TraceEnd HitInfo)
    by (destruct (TraceEnd HitInfo); reflexivity).
  rewrite Ep. destruct (bBlockingHit HitInfo); simpl.
  - destruct (Component HitInfo) as [c|]; simpl; [|discriminate].
    destruct (IsStaticMesh c).
    + match goal with
      | |- ComputeRawDetectionFromComponent HitInfo ?D' c = _ -> _ =>
          pose proof (component_stage_returns HitInfo D' c) as M
      end.
      intros H. rewrite H in M. destruct M as [[Hp [Hcos _]] _].
      simpl in Hp, Hcos. split; assumption.
    + intros H. injection H as <-. split; reflexivity.
  - intros H. injection H as <-. split; reflexivity.
Qed.

(** X10.  A detection that the classifier returns keeps, as its point, the
    end of the trace of the hit, where the caster stores the two angles and
    the distance; its cosine is 2 for a miss and, for a blocking hit, the
    dot product of the impact normal with the unit vector from the impact
    point back to the sensor, in every branch of the ladder.  A blocking
    hit without a component is undefined (a null pointer is read). *)
Theorem detection_geometry
        (HitInfo : FHitResult) (T : FTransform) (D : FSemanticDetection) :
  (forall d,
      ComputeRawDetection GetSafeNormal HitInfo T D = Returned d ->
      point d = TraceEnd HitInfo
      /\ cos_inc_angle d
         = if bBlockingHit HitInfo
           then DotProduct
                  (FVector_neg (GetSafeNormal
                                  (FVector_sub (ImpactPoint HitInfo) (GetLocation T))))
                  (ImpactNormal HitInfo)
           else 2)
  /\ (bBlockingHit HitInfo = true -> Component HitInfo = None ->
      ComputeRawDetection GetSafeNormal HitInfo T D = Undefined).
Proof.
  split.
  - intros d. apply returned_geometry.
  - intros Hhit Hc. unfold ComputeRawDetection. rewrite Hhit, Hc. reflexivity.
Qed.

End Geometry.

Lemma detection_geometry_witness :
  (exists d,
      ComputeRawDetection GetSafeNormal_rat (hit_on (landscape 7)) origin
                          FSemanticDetection_default = Returned d
      /\ point d = TraceEnd (hit_on (landscape 7))
      /\ cos_inc_angle d == 1)
  /\ bBlockingHit (set_Component_none (hit_on (landscape 7))) = true
  /\ Component (set_Component_none (hit_on (landscape 7))) = None
  /\ ComputeRawDetection GetSafeNormal_rat (set_Component_none (hit_on (landscape 7)))
                         origin FSemanticDetection_default = Undefined.
Proof.
  split.
  - destruct (detection_geometry GetSafeNormal_rat (hit_on (landscape 7)) origin
                FSemanticDetection_default) as [H _].
    destruct (ComputeRawDetection GetSafeNormal_rat (hit_on (landscape 7)) origin
                FSemanticDetection_default) as [d| |] eqn:E;
      [|vm_compute in E; discriminate E..].
    destruct (H d eq_refl) as [Hp Hc].
    exists d. split; [reflexivity|]. split; [exact Hp|].
    rewrite Hc. vm_compute. reflexivity.
  - split; [reflexivity|]. split; [reflexivity|].
    destruct (detection_geometry GetSafeNormal_rat
                (set_Component_none (hit_on (landscape 7))) origin
                FSemanticDetection_default) as [_ H].
    apply H; reflexivity.
Defined.

Lemma object_idx_names_the_branch_witness :
  bBlockingHit (hit_on (wall (glass_material (1 # 2)))) = true
  /\ Component (hit_on (wall (glass_material (1 # 2))))
     = Some (wall (glass_material (1 # 2)))
  /\ exists d,
      ComputeRawDetection GetSafeNormal_rat (hit_on (wall (glass_material (1 # 2))))
                          origin FSemanticDetection_default = Returned d
      /\ (object_idx d = 0%Z <->
          exists mi,
            ladder_material (hit_on (wall (glass_material (1 # 2))))
                            (wall (glass_material (1 # 2))) = Some mi
            /\ no_parameters mi = false /\ opaque_scalar mi = false).
Proof.
  split; [reflexivity|]. split; [reflexivity|].
  eexists. split; [reflexivity|].
  destruct (object_idx_names_the_branch GetSafeNormal_rat
              (hit_on (wall (glass_material (1 # 2)))) origin
              FSemanticDetection_default (wall (glass_material (1 # 2))) _
              eq_refl eq_refl eq_refl) as [_ [_ [_ [_ [_ [_ [_ [H _]]]]]]]].
  exact H.
Defined.

Lemma returned_detection_quads_witness :
  exists d,
    ComputeRawDetection GetSafeNormal_rat (hit_on (landscape 7)) origin
                        FSemanticDetection_default = Returned d
    /\ ORME d = zero_quad
    /\ object_idx d <> 7%Z.
Proof.
  eexists. split; [reflexivity|].
  destruct (returned_detection_quads GetSafeNormal_rat (hit_on (landscape 7)) origin
              FSemanticDetection_default _ eq_refl) as [H1 [_ [_ [_ [_ H6]]]]].
  split; [exact H1 | exact H6].
Defined.

(* ===================================================================== *)
(** ** The texture sampler *)
(* ===================================================================== *)

Lemma static_cast_uint8_roundf (u : float) (size : Z) :
  static_cast_uint8 (roundf (u * inject_Z size))
  = if ((0 <=? pixel_coordinate u size) && (pixel_coordinate u size <=? 255))%Z
    then Returned (pixel_coordinate u size) else Undefined.
Proof. reflexivity. Qed.

Lemma sampler_unfold (texture : UTexture2D) (uv : FVector2D) (color : FColor)
      (data : list FColor) :
  Lock texture = Some data ->
  let w := to_uint32 (SizeX texture) in
  let h := to_uint32 (SizeY texture) in
  let px := pixel_coordinate (U uv) w in
  let py := pixel_coordinate (V uv) h in
  GetColorFromTexture texture uv color
  = if negb ((0 <=? px) && (px <=? 255))%Z then Undefined
    else if negb ((0 <=? py) && (py <=? 255))%Z then Undefined
    else if ((w <=? px) || (h <=? py))%Z then Fatal
    else deref (data !! Z.to_nat (to_uint32 (py * w + px))).
Proof.
  intros HL w h px py. unfold GetColorFromTexture. rewrite HL.
  change (mret data ≫= ?f) with (f data). lazy beta zeta.
  rewrite !static_cast_uint8_roundf. fold w h. fold px py.
  destruct ((0 <=? px) && (px <=? 255))%Z eqn:Ex; [|reflexivity].
  change (Returned px ≫= ?f) with (f px). lazy beta.
  destruct ((0 <=? py) && (py <=? 255))%Z eqn:Ey; [|reflexivity].
  change (Returned py ≫= ?f) with (f py). lazy beta.
  simpl negb. lazy iota.
  destruct ((w <=? px) || (h <=? py))%Z; [reflexivity|].
  change (mret tt ≫= ?f) with (f tt). lazy beta.
  apply andb_prop in Ex as [Ex _]. apply andb_prop in Ey as [Ey _].
  rewrite Ex, Ey. reflexivity.
Qed.

(** X12.  Sampling a texture whose pixel data is locked and holds
    width * height pixels: when the pixel column round (u * width) and the
    pixel row round (v * height) are below 256 and inside the texture, the
    sampler returns the pixel at that row and column, rows stored one after
    the other; and it returns a colour in no other case.  The colour passed
    in is never the result: its last branch cannot be reached. *)
Theorem sampler_reads_the_pixel
        (texture : UTexture2D) (uv : FVector2D) (color : FColor) (data : list FColor) :
  Lock texture = Some data ->
  let w := to_uint32 (SizeX texture) in
  let h := to_uint32 (SizeY texture) in
  let px := pixel_coordinate (U uv) w in
  let py := pixel_coordinate (V uv) h in
  Z.of_nat (length data) = (w * h)%Z ->
  (w * h < 2 ^ 32)%Z ->
  ((0 <= px < w)%Z -> (0 <= py < h)%Z -> (px <= 255)%Z -> (py <= 255)%Z ->
   exists c, data !! Z.to_nat (py * w + px) = Some c
             /\ GetColorFromTexture texture uv color = Returned c)
  /\ (forall c, GetColorFromTexture texture uv color = Returned c ->
                (0 <= px < w)%Z /\ (0 <= py < h)%Z /\ (px <= 255)%Z /\ (py <= 255)%Z
                /\ data !! Z.to_nat (py * w + px) = Some c)
  /\ (forall color', GetColorFromTexture texture uv color'
                     = GetColorFromTexture texture uv color).
Proof.
  intros HL w h px py Hlen Hsz.
  pose proof (sampler_unfold texture uv color data HL) as E. cbv zeta in E.
  fold w h in E. fold px py in E.
  assert (Hidx : (0 <= px < w)%Z -> (0 <= py < h)%Z ->
                 to_uint32 (py * w + px) = (py * w + px)%Z
                 /\ (Z.to_nat (py * w + px) < length data)%nat).
  { intros Hx Hy. assert (B : (0 <= py * w + px < w * h)%Z) by nia.
    split; [apply to_uint32_small; lia | lia]. }
  split; [|split].
  - intros Hx Hy Bx By. destruct (Hidx Hx Hy) as [Hi Hlt].
    destruct (lookup_lt_is_Some_2 data _ Hlt) as [c Hc].
    exists c. split; [exact Hc|]. rewrite E.
    replace ((0 <=? px) && (px <=? 255))%Z with true
      by (symmetry; apply andb_true_intro; split; apply Z.leb_le; lia).
    replace ((0 <=? py) && (py <=? 255))%Z with true
      by (symmetry; apply andb_true_intro; split; apply Z.leb_le; lia).
    replace ((w <=? px) || (h <=? py))%Z with false
      by (symmetry; apply orb_false_intro; apply Z.leb_gt; lia).
    simpl. rewrite Hi, Hc. reflexivity.
  - intros c Hc. rewrite E in Hc.
    destruct ((0 <=? px) && (px <=? 255))%Z eqn:Ex; simpl in Hc; [|discriminate].
    destruct ((0 <=? py) && (py <=? 255))%Z eqn:Ey; simpl in Hc; [|discriminate].
    destruct ((w <=? px) || (h <=? py))%Z eqn:Eb; [discriminate|].
    apply andb_prop in Ex as [Ex1 Ex2]. apply andb_prop in Ey as [Ey1 Ey2].
    apply orb_false_elim in Eb as [Eb1 Eb2].
    apply Z.leb_le in Ex1, Ex2, Ey1, Ey2. apply Z.leb_gt in Eb1, Eb2.
    destruct (Hidx (conj Ex1 Eb1) (conj Ey1 Eb2)) as [Hi _]. rewrite Hi in Hc.
    repeat split; try assumption.
    destruct (data !! Z.to_nat (py * w + px)); [|discriminate].
    injection Hc as <-. reflexivity.
  - intros color'. rewrite E.
    exact (sampler_unfold texture uv color' data HL).
Qed.

(** X13.  Where the sampler fails: pixel data that cannot be locked halts
    the process; a pixel column or row that does not fit a byte (256 or
    more, or below zero) is an undefined conversion, so that a texture is
    read in its first 256 columns and rows only; and a column equal to the
    width or beyond it (u = 1 gives the width itself), or such a row, halts
    the process on the overflow check. *)
Theorem sampler_failures
        (texture : UTexture2D) (uv : FVector2D) (color : FColor) :
  let w := to_uint32 (SizeX texture) in
  let h := to_uint32 (SizeY texture) in
  let px := pixel_coordinate (U uv) w in
  let py := pixel_coordinate (V uv) h in
  (Lock texture = None -> GetColorFromTexture texture uv color = Fatal)
  /\ (Lock texture <> None -> (px < 0 \/ 255 < px)%Z ->
      GetColorFromTexture texture uv color = Undefined)
  /\ (Lock texture <> None -> (0 <= px <= 255)%Z -> (py < 0 \/ 255 < py)%Z ->
      GetColorFromTexture texture uv color = Undefined)
  /\ (Lock texture <> None -> (0 <= px <= 255)%Z -> (0 <= py <= 255)%Z ->
      (w <= px \/ h <= py)%Z ->
      GetColorFromTexture texture uv color = Fatal)
  /\ (U uv == 1 -> pixel_coordinate (U uv) w = w).
Proof.
  intros w h px py. split; [|split; [|split; [|split]]].
  - intros HL. unfold GetColorFromTexture. rewrite HL. reflexivity.
  - intros HL Hx. destruct (Lock texture) as [data|] eqn:E; [|congruence].
    rewrite (sampler_unfold texture uv color data E). cbv zeta. fold w h. fold px.
    replace ((0 <=? px) && (px <=? 255))%Z with false; [reflexivity|].
    symmetry. apply andb_false_iff. rewrite Z.leb_gt, Z.leb_gt. lia.
  - intros HL Hx Hy. destruct (Lock texture) as [data|] eqn:E; [|congruence].
    rewrite (sampler_unfold texture uv color data E). cbv zeta. fold w h. fold px py.
    replace ((0 <=? px) && (px <=? 255))%Z with true
      by (symmetry; apply andb_true_intro; split; apply Z.leb_le; lia).
    replace ((0 <=? py) && (py <=? 255))%Z with false; [reflexivity|].
    symmetry. apply andb_false_iff. rewrite Z.leb_gt, Z.leb_gt. lia.
  - intros HL Hx Hy Ho. destruct (Lock texture) as [data|] eqn:E; [|congruence].
    rewrite (sampler_unfold texture uv color data E). cbv zeta. fold w h. fold px py.
    replace ((0 <=? px) && (px <=? 255))%Z with true
      by (symmetry; apply andb_true_intro; split; apply Z.leb_le; lia).
    replace ((0 <=? py) && (py <=? 255))%Z with true
      by (symmetry; apply andb_true_intro; split; apply Z.leb_le; lia).
    replace ((w <=? px) || (h <=? py))%Z with true; [reflexivity|].
    symmetry. apply orb_true_iff. rewrite !Z.leb_le. exact Ho.
  - intros Hu. unfold pixel_coordinate, roundf.
    assert (Hw : (0 <= w)%Z) by (apply Z.mod_pos_bound; lia).
    assert (E : U uv * inject_Z w == inject_Z w) by (rewrite Hu; ring).
    assert (P : 0 <= U uv * inject_Z w).
    { rewrite E. change 0 with (inject_Z 0). rewrite <- Zle_Qle. exact Hw. }
    apply Qle_bool_iff in P. rewrite P.
    assert (F : Qfloor (U uv * inject_Z w + (1 # 2)) = w).
    { apply Qfloor_unique; rewrite E;
        [|rewrite inject_Z_plus; change (inject_Z 1) with 1];
        generalize (inject_Z w); intros q; lra. }
    rewrite F. unfold Qtrunc. simpl. apply Z.quot_1_r.
Qed.

Lemma sampler_reads_the_pixel_witness :
  Lock checker = Some [red; green; green; red]
  /\ Z.of_nat (length [red; green; green; red])
     = (to_uint32 (SizeX checker) * to_uint32 (SizeY checker))%Z
  /\ GetColorFromTexture checker (mkFVector2D (1 # 2) 0) (mkFColor 0 0 0 0)
     = Returned green.
Proof.
  split; [reflexivity|]. split; [reflexivity|].
  destruct (sampler_reads_the_pixel checker (mkFVector2D (1 # 2) 0) (mkFColor 0 0 0 0)
              [red; green; green; red] eq_refl eq_refl eq_refl) as [H _].
  assert (Hx : (0 <= 1 < 2)%Z) by lia.
  assert (Hy : (0 <= 0 < 2)%Z) by lia.
  assert (Bx : (1 <= 255)%Z) by lia.
  assert (By : (0 <= 255)%Z) by lia.
  destruct (H Hx Hy Bx By) as [c [Hc Hr]].
  change (Some green = Some c) in Hc. injection Hc as <-. exact Hr.
Defined.

Lemma sampler_failures_witness :
  U (mkFVector2D 1 0) == 1
  /\ pixel_coordinate (U (mkFVector2D 1 0)) (to_uint32 (SizeX checker))
     = to_uint32 (SizeX checker)
  /\ GetColorFromTexture checker (mkFVector2D 1 0) (mkFColor 0 0 0 0) = Fatal.
Proof.
  destruct (sampler_failures checker (mkFVector2D 1 0) (mkFColor 0 0 0 0))
    as [_ [_ [_ [F E]]]].
  split; [reflexivity|]. split; [apply E; reflexivity|].
  apply F.
  - discriminate.
  - change (0 <= 2 <= 255)%Z. lia.
  - change (0 <= 0 <= 255)%Z. lia.
  - left. change (2 <= 2)%Z. lia.
Defined.

(* ===================================================================== *)
(** ** Configuring the sensor *)
(* ===================================================================== *)

Lemma resize_same {A : Type} (d : A) (l : list A) : resize (length l) d l = l.
Proof.
  unfold resize. rewrite take_ge by lia. rewrite Nat.sub_diag. simpl.
  apply app_nil_r.
Qed.

Lemma resize_twice {A : Type} (n : nat) (d : A) (l : list A) :
  resize n d (resize n d l) = resize n d l.
Proof.
  pose proof (length_resize n d l) as H. set (r := resize n d l) in *.
  rewrite <- H. apply resize_same.
Qed.

(** X14.  [Set] with a description of zero channels halts on the check of
    [CreateLasers].  With at least one channel it returns a sensor that
    carries the description, one laser angle per channel, a count buffer of
    one entry per channel, and a fresh sweep: angle 0, no detection, a
    header of zeros; the pose is untouched; and setting the same
    description again changes nothing. *)
Theorem Set_configures (s : ARayCastSemanticLidar) (d : FLidarDescription) :
  (Channels d = 0%nat -> Set_ s d = Fatal)
  /\ ((1 <= Channels d)%nat ->
      exists s',
        Set_ s d = Returned s'
        /\ sensor_sized s'
        /\ Description s' = d
        /\ LaserAngles s' = laser_angle d <$> seq 0 (Channels d)
        /\ HorizontalAngle (SemanticLidarData s') = 0
        /\ SerPoints (SemanticLidarData s') = []
        /\ Header (SemanticLidarData s') = replicate (Channels d) 0%Z
        /\ GetTransform s' = GetTransform s
        /\ Set_ s' d = Returned s').
Proof.
  split.
  - intros H. unfold Set_, CreateLasers. simpl. rewrite H. reflexivity.
  - intros H. unfold Set_. cbv zeta.
    rewrite CreateLasers_returns by (simpl; lia).
    eexists. split; [reflexivity|]. unfold sensor_sized. simpl.
    rewrite length_fmap, length_seq, length_resize.
    repeat split; try assumption.
    rewrite CreateLasers_returns by (simpl; lia).
    cbn -[resize]. rewrite resize_twice. reflexivity.
Qed.

Lemma Set_configures_witness :
  (1 <= Channels four_lasers)%nat
  /\ Set_ blank_sensor four_lasers = Returned (configured four_lasers)
  /\ Set_ (configured four_lasers) four_lasers = Returned (configured four_lasers)
  /\ Channels (mkFLidarDescription 0 100 8 1 10 (-30) 360) = 0%nat
  /\ Set_ blank_sensor (mkFLidarDescription 0 100 8 1 10 (-30) 360) = Fatal.
Proof.
  assert (H : (1 <= Channels four_lasers)%nat) by (simpl; lia).
  destruct (Set_configures blank_sensor four_lasers) as [_ S].
  destruct (S H) as [s' [E [_ [_ [_ [_ [_ [_ [_ I]]]]]]]]].
  assert (Es : configured four_lasers = s') by (unfold configured; rewrite E; reflexivity).
  split; [exact H|]. split; [rewrite Es; exact E|]. split; [rewrite Es; exact I|].
  split; [reflexivity|].
  destruct (Set_configures blank_sensor (mkFLidarDescription 0 100 8 1 10 (-30) 360))
    as [F _].
  apply F. reflexivity.
Defined.

(* ===================================================================== *)
(** ** The buffers of recorded hits *)
(* ===================================================================== *)

Lemma concat_insert_length {A : Type} (l : list (list A)) (i : nat) (x : list A) (a : A) :
  l !! i = Some x ->
  length (concat (<[i := x ++ [a]]> l)) = S (length (concat l)).
Proof.
  intros H. pose proof (lookup_lt_Some _ _ _ H) as Hi.
  rewrite insert_take_drop by exact Hi.
  rewrite <- (take_drop_middle l i x H) at 3.
  rewrite !concat_app, !length_app. simpl. rewrite !length_app. simpl. lia.
Qed.

(** X16.  [WritePointAsync] on a channel that has a buffer returns; the
    hit is appended at the end of that buffer, every other buffer is as
    before, the number of buffers is unchanged, the buffers hold one hit
    more in all, and nothing else of the sensor changes.  On a channel
    without a buffer the unchecked index makes the call undefined. *)
Theorem write_point_appends
        (s : ARayCastSemanticLidar) (channel : nat) (detection : FHitResult) :
  ((channel < length (RecordedHits s))%nat ->
   exists hits s',
     RecordedHits s !! channel = Some hits
     /\ WritePointAsync s channel detection = Returned s'
     /\ RecordedHits s' !! channel = Some (hits ++ [detection])
     /\ (forall c, c <> channel -> RecordedHits s' !! c = RecordedHits s !! c)
     /\ length (RecordedHits s') = length (RecordedHits s)
     /\ length (concat (RecordedHits s')) = S (length (concat (RecordedHits s)))
     /\ same_config s s'
     /\ SemanticLidarData s' = SemanticLidarData s
     /\ PointsPerChannel s' = PointsPerChannel s
     /\ RayPreprocessCondition s' = RayPreprocessCondition s)
  /\ ((length (RecordedHits s) <= channel)%nat ->
      WritePointAsync s channel detection = Undefined).
Proof.
  split.
  - intros H. destruct (lookup_lt_is_Some_2 _ _ H) as [hits Hh].
    exists hits. eexists. split; [exact Hh|].
    unfold WritePointAsync, vector_at. rewrite Hh.
    split; [reflexivity|]. simpl.
    split; [apply list_lookup_insert_eq; exact H|].
    split; [intros c Hc; apply list_lookup_insert_ne; congruence|].
    split; [apply length_insert|].
    split; [apply concat_insert_length; exact Hh|].
    repeat split.
  - intros H. unfold WritePointAsync, vector_at.
    rewrite lookup_ge_None_2 by exact H. reflexivity.
Qed.

Lemma write_point_appends_witness :
  (1 < length (RecordedHits buffered))%nat
  /\ (length (RecordedHits buffered) <= 2)%nat
  /\ (exists s', WritePointAsync buffered 1 miss = Returned s'
                 /\ RecordedHits s' !! 1%nat = Some ([miss; miss] ++ [miss]))
  /\ WritePointAsync buffered 2 miss = Undefined.
Proof.
  assert (H1 : (1 < length (RecordedHits buffered))%nat) by (simpl; lia).
  assert (H2 : (length (RecordedHits buffered) <= 2)%nat) by (simpl; lia).
  split; [exact H1|]. split; [exact H2|].
  destruct (write_point_appends buffered 1 miss) as [A _].
  destruct (write_point_appends buffered 2 miss) as [_ B].
  split; [|exact (B H2)].
  destruct (A H1) as [hits [s' [Hh [E [L _]]]]].
  change (Some [miss; miss] = Some hits) in Hh. injection Hh as <-.
  exists s'. split; [exact E | exact L].
Defined.

(** X17.  Two writes to different channels give the same outcome in
    either order, a returned state as well as an undefined call: the
    tasks of the parallel region, each of which writes to its own channel
    only, can be run one after the other. *)
Theorem writes_to_distinct_channels_commute
        (s : ARayCastSemanticLidar) (c1 c2 : nat) (h1 h2 : FHitResult) :
  c1 <> c2 ->
  (s1 ← WritePointAsync s c1 h1; WritePointAsync s1 c2 h2)
  = (s2 ← WritePointAsync s c2 h2; WritePointAsync s2 c1 h1).
Proof.
  intros Hne. unfold WritePointAsync, vector_at.
  destruct (RecordedHits s !! c1) as [r1|] eqn:E1;
    destruct (RecordedHits s !! c2) as [r2|] eqn:E2;
    cbn -[lookup insert];
    rewrite ?list_lookup_insert_ne by congruence;
    rewrite ?E1, ?E2; cbn -[lookup insert]; try reflexivity.
  unfold mret, outcome_ret, set_RecordedHits. cbn -[lookup insert].
  rewrite list_insert_insert_ne by congruence. reflexivity.
Qed.

Lemma writes_to_distinct_channels_commute_witness :
  0%nat <> 1%nat
  /\ (s1 ← WritePointAsync buffered 0 miss; WritePointAsync s1 1 (hit_on (landscape 3)))
     = (s2 ← WritePointAsync buffered 1 (hit_on (landscape 3));
        WritePointAsync s2 0 miss).
Proof.
  assert (H : 0%nat <> 1%nat) by discriminate.
  split; [exact H|].
  exact (writes_to_distinct_channels_commute buffered 0 1 miss (hit_on (landscape 3)) H).
Defined.

(* ===================================================================== *)
(** ** From the buffers to the sweep *)
(* ===================================================================== *)

Lemma mapM_Returned_lookup {A B : Type} (f : A -> outcome B) (l : list A) :
  forall (bs : list B), mapM f l = Returned bs ->
  forall (k : nat) (a : A), l !! k = Some a ->
  exists b, bs !! k = Some b /\ f a = Returned b.
Proof.
  induction l as [|a0 l IH]; intros bs H k a Hk.
  - rewrite lookup_nil in Hk. discriminate.
  - change (mapM f (a0 :: l)) with (y ← f a0; ys ← mapM f l; mret (y :: ys)) in H.
    destruct (f a0) as [b0| |] eqn:E0; try discriminate.
    change (Returned b0 ≫= ?g) with (g b0) in H. lazy beta in H.
    destruct (mapM f l) as [bs'| |] eqn:El; try discriminate.
    injection H as <-.
    destruct k as [|k].
    + injection Hk as <-. exists b0. split; [reflexivity | exact E0].
    + apply (IH bs' eq_refl k a Hk).
Qed.

Lemma mapM_halts {A B : Type} (f : A -> outcome B) (l : list A) (a : A) :
  a ∈ l -> (forall b, f a <> Returned b) -> forall bs, mapM f l <> Returned bs.
Proof.
  intros Ha Hf bs H.
  apply list_elem_of_lookup in Ha as [k Hk].
  destruct (mapM_Returned_lookup f l bs H k a Hk) as [b [_ Hb]].
  exact (Hf b Hb).
Qed.

Section Buffers.

Variable GetSafeNormal : FVector -> FVector.

Lemma counts_loop_short :
  forall (l : list nat) (s : ARayCastSemanticLidar),
    (exists i, i ∈ l /\ ((length (RecordedHits s) <= i)%nat
                         \/ (length (PointsPerChannel s) <= i)%nat)) ->
    foldlM (fun s idxChannel =>
              hits ← vector_at (RecordedHits s) idxChannel;
              vector_at (PointsPerChannel s) idxChannel;;
              mret (set_PointsPerChannel s
                      (<[idxChannel := to_uint32 (Z.of_nat (length hits))]>
                         (PointsPerChannel s)))) s l
    = Undefined.
Proof.
  induction l as [|i l IH]; intros s [b [Hb Hlen]].
  - inversion Hb.
  - rewrite foldlM_cons. lazy beta.
    destruct (RecordedHits s !! i) as [hits|] eqn:E1.
    2: { assert (V : vector_at (RecordedHits s) i = Undefined)
           by (unfold vector_at; rewrite E1; reflexivity).
         rewrite V. reflexivity. }
    assert (V1 : vector_at (RecordedHits s) i = Returned hits)
      by (unfold vector_at; rewrite E1; reflexivity).
    rewrite V1. change (Returned ?x ≫= ?f) with (f x). lazy beta.
    destruct (PointsPerChannel s !! i) as [p|] eqn:E2.
    2: { assert (V : vector_at (PointsPerChannel s) i = Undefined)
           by (unfold vector_at; rewrite E2; reflexivity).
         rewrite V. reflexivity. }
    assert (V2 : vector_at (PointsPerChannel s) i = Returned p)
      by (unfold vector_at; rewrite E2; reflexivity).
    rewrite V2. change (Returned ?x ≫= ?f) with (f x). lazy beta.
    change (mret ?x ≫= ?f) with (f x). lazy beta.
    apply IH. exists b.
    apply lookup_lt_Some in E1. apply lookup_lt_Some in E2.
    apply elem_of_cons in Hb as [->|Hb]; [lia|].
    split; [exact Hb|]. simpl. rewrite length_insert. exact Hlen.
Qed.

(** X18.  [ComputeAndSaveDetections] on a sensor with one buffer and one
    count per channel.  If it returns, the sweep holds exactly the
    classifications of the recorded hits, channel after channel and, in a
    channel, in the order of recording: the k-th detection is the
    classification of the k-th hit; the detections of the previous sweep
    are gone; the header and the counts give the length of each buffer;
    the buffers, the angle and the configuration are untouched.  It
    returns when every recorded hit classifies, and does not return when
    one does not. *)
Theorem detections_follow_the_buffers (s : ARayCastSemanticLidar) (T : FTransform) :
  let C := Channels (Description s) in
  length (RecordedHits s) = C ->
  length (PointsPerChannel s) = C ->
  ChannelCount (SemanticLidarData s) = C ->
  (forall s', ComputeAndSaveDetections GetSafeNormal s T = Returned s' ->
     mapM (classify GetSafeNormal T) (concat (RecordedHits s))
     = Returned (SerPoints (SemanticLidarData s'))
     /\ length (SerPoints (SemanticLidarData s')) = length (concat (RecordedHits s))
     /\ (forall k h, concat (RecordedHits s) !! k = Some h ->
           exists d, SerPoints (SemanticLidarData s') !! k = Some d
                     /\ classify GetSafeNormal T h = Returned d)
     /\ Header (SemanticLidarData s') = hit_count <$> RecordedHits s
     /\ PointsPerChannel s' = hit_count <$> RecordedHits s
     /\ RecordedHits s' = RecordedHits s
     /\ HorizontalAngle (SemanticLidarData s') = HorizontalAngle (SemanticLidarData s)
     /\ same_config s s')
  /\ ((forall h, h ∈ concat (RecordedHits s) ->
                 exists d, classify GetSafeNormal T h = Returned d) ->
      exists s', ComputeAndSaveDetections GetSafeNormal s T = Returned s')
  /\ (forall h, h ∈ concat (RecordedHits s) ->
                (forall d, classify GetSafeNormal T h <> Returned d) ->
                forall s', ComputeAndSaveDetections GetSafeNormal s T <> Returned s').
Proof.
  intros C HR HP HC.
  pose proof (ComputeAndSaveDetections_returns GetSafeNormal s T HR HP HC) as E.
  cbv zeta in E. fold C in E.
  split; [|split].
  - intros s' H. rewrite E in H.
    destruct (mapM (classify GetSafeNormal T) (concat (RecordedHits s))) as [ds| |] eqn:Em;
      try discriminate.
    injection H as <-. simpl.
    split; [reflexivity|].
    split; [apply (mapM_Returned_length _ _ _ Em)|].
    split; [intros k h Hk; apply (mapM_Returned_lookup _ _ ds Em k h Hk)|].
    repeat split.
  - intros Hall. rewrite E.
    destruct (mapM_all_return (classify GetSafeNormal T) (concat (RecordedHits s)) Hall)
      as [ds Hds].
    rewrite Hds. eexists. reflexivity.
  - intros h Hh Hf s' H. rewrite E in H.
    destruct (mapM (classify GetSafeNormal T) (concat (RecordedHits s))) as [ds| |] eqn:Em;
      try discriminate.
    exact (mapM_halts _ _ h Hh Hf ds Em).
Qed.

(** X19.  When a channel of the description has no buffer of hits, or no
    entry in the per-channel counts, [ComputeAndSaveDetections] reads a
    vector past its end while counting, before any hit is classified: the
    call is undefined, whatever the buffers hold. *)
Theorem short_buffers_are_undefined (s : ARayCastSemanticLidar) (T : FTransform) :
  (length (RecordedHits s) < Channels (Description s))%nat
  \/ (length (PointsPerChannel s) < Channels (Description s))%nat ->
  ComputeAndSaveDetections GetSafeNormal s T = Undefined.
Proof.
  intros H. unfold ComputeAndSaveDetections, for_loop.
  rewrite counts_loop_short; [reflexivity|].
  destruct H as [H|H].
  - exists (length (RecordedHits s)). split; [apply elem_of_seq; lia | left; lia].
  - exists (length (PointsPerChannel s)). split; [apply elem_of_seq; lia | right; lia].
Qed.

End Buffers.

Lemma detections_follow_the_buffers_witness :
  length (RecordedHits buffered) = Channels (Description buffered)
  /\ length (PointsPerChannel buffered) = Channels (Description buffered)
  /\ ChannelCount (SemanticLidarData buffered) = Channels (Description buffered)
  /\ exists s',
      ComputeAndSaveDetections GetSafeNormal_rat buffered origin = Returned s'
      /\ Header (SemanticLidarData s') = [1%Z; 2%Z]
      /\ length (SerPoints (SemanticLidarData s')) = 3%nat.
Proof.
  split; [reflexivity|]. split; [reflexivity|]. split; [reflexivity|].
  destruct (detections_follow_the_buffers GetSafeNormal_rat buffered origin
              eq_refl eq_refl eq_refl) as [A [B _]].
  destruct B as [s' Hs'].
  - intros h Hh. exists (match classify GetSafeNormal_rat origin h with
                         | Returned d => d | _ => FSemanticDetection_default end).
    simpl in Hh. rewrite !elem_of_cons in Hh.
    destruct Hh as [->|[->|[->|Hh]]]; [reflexivity..|inversion Hh].
  - exists s'. split; [exact Hs'|].
    destruct (A s' Hs') as [_ [L [_ [Hd _]]]].
    split; [exact Hd | exact L].
Defined.

Lemma short_buffers_are_undefined_witness :
  ((length (RecordedHits short_buffered) < Channels (Description short_buffered))%nat
   \/ (length (PointsPerChannel short_buffered)
       < Channels (Description short_buffered))%nat)
  /\ ComputeAndSaveDetections GetSafeNormal_rat short_buffered origin = Undefined.
Proof.
  assert (H : (length (RecordedHits short_buffered)
               < Channels (Description short_buffered))%nat
              \/ (length (PointsPerChannel short_buffered)
                  < Channels (Description short_buffered))%nat)
    by (left; simpl; lia).
  split; [exact H|].
  exact (short_buffers_are_undefined GetSafeNormal_rat short_buffered origin H).
Defined.

(* ===================================================================== *)
(** ** The sweep of a tick *)
(* ===================================================================== *)

Lemma concat_rows_lookup (W : World) (s : ARayCastSemanticLidar) (cur step : float)
      (n : nat) (angles : list float) :
  forall (c : nat) (a : float) (j : nat),
    angles !! c = Some a -> (j < n)%nat ->
    concat (recorded_row W s cur step n <$> angles) !! (c * n + j)%nat
    = Some (recorded_hit W s cur step a j).
Proof.
  induction angles as [|a0 angles IH]; intros c a j Hc Hj.
  - rewrite lookup_nil in Hc. discriminate.
  - rewrite fmap_cons. change (concat (?x :: ?l)) with (x ++ concat l).
    destruct c as [|c].
    + injection Hc as <-. change (0 * n + j)%nat with j.
      rewrite lookup_app_l by (rewrite recorded_row_length; exact Hj).
      apply recorded_row_lookup, Hj.
    + rewrite lookup_app_r by (rewrite recorded_row_length; simpl; lia).
      rewrite recorded_row_length.
      replace (S c * n + j - n)%nat with (c * n + j)%nat by (simpl; lia).
      apply IH; assumption.
Qed.

Lemma recorded_hit_distance (W : World) (s : ARayCastSemanticLidar)
      (cur step a : float) (j : nat) :
  Z_ (TraceEnd (recorded_hit W s cur step a j))
  = (let h := W (GetTransform s) (Range (Description s)) a (HorizAngle s cur step j) in
     if bBlockingHit h then Distance h else 0).
Proof.
  unfold recorded_hit, ShootLaser. cbv zeta.
  set (h := W _ _ _ _). destruct (bBlockingHit h); reflexivity.
Qed.

Lemma Qtrunc_inject_Z (z : Z) : Qtrunc (inject_Z z) = z.
Proof. unfold Qtrunc. simpl. apply Z.quot_1_r. Qed.

Lemma Qtrunc_nonpos (q : Q) : q <= 0 -> Qtrunc q = (- Qfloor (- q))%Z.
Proof.
  destruct q as [n d]. unfold Qle, Qtrunc, Qfloor, Qopp. simpl. intros H.
  rewrite <- (Z.opp_involutive n) at 1. rewrite Z.quot_opp_l by lia.
  f_equal. apply Z.quot_div_nonneg; lia.
Qed.

Lemma fmod_range (x m : Q) :
  0 < m ->
  - m < fmod x m /\ fmod x m < m
  /\ (0 <= x -> 0 <= fmod x m) /\ (x <= 0 -> fmod x m <= 0).
Proof.
  intros Hm. destruct (Qlt_le_dec 0 x) as [Hx|Hx].
  - destruct (wrap_range x m Hm) as [H0 H1].
    rewrite (fmod_wrap x m) by lra. repeat split; lra.
  - unfold fmod.
    assert (Hq : x / m <= 0).
    { apply Qle_shift_div_r; [exact Hm | lra]. }
    rewrite (Qtrunc_nonpos _ Hq), inject_Z_opp.
    set (y := - (x / m)) in *.
    pose proof (Qfloor_le y) as F1. pose proof (Qlt_floor y) as F2.
    rewrite inject_Z_plus in F2. change (inject_Z 1) with 1 in F2.
    assert (Hy : 0 <= y) by (unfold y; lra).
    assert (F0 : 0 <= inject_Z (Qfloor y)).
    { change 0 with (inject_Z 0). rewrite <- Zle_Qle.
      change 0%Z with (Qfloor 0). apply Qfloor_resp_le, Hy. }
    assert (E : y * m == - x) by (unfold y; field; lra).
    set (F := inject_Z (Qfloor y)) in *.
    assert (A : F * m <= y * m) by (apply Qmult_le_compat_r; lra).
    assert (B : y * m < (F + 1) * m) by (apply Qmult_lt_compat_r; lra).
    assert (C : 0 <= F * m) by (apply Qmult_le_0_compat; lra).
    assert (D : (F + 1) * m == F * m + m) by ring.
    repeat split; intros; lra.
Qed.

Section Sweep.

Variable GetSafeNormal : FVector -> FVector.
Variable Pi : float.
Variable W : World.

Lemma SimulateLidar_config (s s' : ARayCastSemanticLidar) (DeltaTime : float) :
  sensor_sized s ->
  SimulateLidar GetSafeNormal Pi W s DeltaTime = Returned s' ->
  same_config s s'.
Proof.
  intros Hs H.
  destruct (PointsToScan (Description s) DeltaTime) as [ppl| |] eqn:Hppl.
  - pose proof (float_to_uint32_range _ _ Hppl) as Hrange.
    destruct (Z.eq_dec ppl 0%Z) as [->|Hne].
    + rewrite (SimulateLidar_idle GetSafeNormal Pi W s DeltaTime Hppl) in H.
      injection H as <-. repeat split.
    + rewrite (SimulateLidar_scans GetSafeNormal Pi W s DeltaTime ppl Hs Hppl) in H
        by lia.
      destruct (mapM _ _) as [ds| |]; try discriminate.
      injection H as <-. apply after_tick_config.
  - unfold PointsToScan in Hppl. unfold SimulateLidar in H. rewrite Hppl in H.
    discriminate.
  - unfold PointsToScan in Hppl. unfold SimulateLidar in H. rewrite Hppl in H.
    discriminate.
Qed.

(** X20.  The order of the sweep.  After a tick that scans [n > 0] points
    per laser and returns, the detection at position [c * n + j] of the
    sweep is the classification of the ray cast by the laser of channel
    [c] at sample [j]: its point holds the vertical angle of that laser,
    the horizontal angle of that sample, and the distance of the hit, or
    0 when the ray struck nothing. *)
Theorem sweep_order (s s' : ARayCastSemanticLidar) (DeltaTime : float) (ppl : Z) :
  sensor_sized s ->
  PointsToScan (Description s) DeltaTime = Returned ppl ->
  (0 < ppl)%Z ->
  SimulateLidar GetSafeNormal Pi W s DeltaTime = Returned s' ->
  let cur := ToDegrees Pi (GetHorizontalAngle (SemanticLidarData s)) in
  let step := RotationFrequency (Description s) * HorizontalFov (Description s)
              * DeltaTime / inject_Z ppl in
  forall (c : nat) (a : float) (j : nat),
    LaserAngles s !! c = Some a -> (j < Z.to_nat ppl)%nat ->
    exists d,
      SerPoints (SemanticLidarData s') !! (c * Z.to_nat ppl + j)%nat = Some d
      /\ classify GetSafeNormal (GetTransform s) (recorded_hit W s cur step a j)
         = Returned d
      /\ X (point d) = a
      /\ Y (point d) = HorizAngle s cur step j
      /\ Z_ (point d)
         = (let h := W (GetTransform s) (Range (Description s)) a
                       (HorizAngle s cur step j) in
            if bBlockingHit h then Distance h else 0).
Proof.
  intros Hs Hppl Hpos H cur step c a j Hc Hj.
  rewrite (SimulateLidar_scans GetSafeNormal Pi W s DeltaTime ppl Hs Hppl Hpos) in H.
  destruct (mapM _ _) as [ds| |] eqn:Em; try discriminate.
  injection H as <-.
  change (RecordedHits (after_tick Pi W s DeltaTime ppl []))
    with (recorded_row W s cur step (Z.to_nat ppl) <$> LaserAngles s) in Em.
  change (SerPoints (SemanticLidarData (after_tick Pi W s DeltaTime ppl ds))) with ds.
  pose proof (concat_rows_lookup W s cur step (Z.to_nat ppl) (LaserAngles s) c a j Hc Hj)
    as Hk.
  destruct (mapM_Returned_lookup _ _ ds Em _ _ Hk) as [d [Hd Hcl]].
  exists d. split; [exact Hd|]. split; [exact Hcl|].
  destruct (returned_geometry GetSafeNormal _ _ _ _ Hcl) as [Hp _].
  rewrite Hp.
  destruct (recorded_hit_TraceEnd W s cur step a j) as [Hx Hy].
  split; [exact Hx|]. split; [exact Hy|]. apply recorded_hit_distance.
Qed.

(** X21.  A tick that scans stops at a ray it cannot classify: when the
    classification of the hit of some channel and sample does not return
    (the material has vector parameters only, an unsupported number of
    textures, ...), the tick returns no sweep at all, whatever the other
    rays struck. *)
Theorem unclassifiable_hit_halts_the_tick
        (s : ARayCastSemanticLidar) (DeltaTime : float) (ppl : Z)
        (c : nat) (a : float) (j : nat) :
  sensor_sized s ->
  PointsToScan (Description s) DeltaTime = Returned ppl ->
  (0 < ppl)%Z ->
  LaserAngles s !! c = Some a ->
  (j < Z.to_nat ppl)%nat ->
  (forall d,
      classify GetSafeNormal (GetTransform s)
        (recorded_hit W s (ToDegrees Pi (GetHorizontalAngle (SemanticLidarData s)))
           (RotationFrequency (Description s) * HorizontalFov (Description s)
            * DeltaTime / inject_Z ppl) a j)
      <> Returned d) ->
  forall s', SimulateLidar GetSafeNormal Pi W s DeltaTime <> Returned s'.
Proof.
  intros Hs Hppl Hpos Hc Hj Hf s' H.
  rewrite (SimulateLidar_scans GetSafeNormal Pi W s DeltaTime ppl Hs Hppl Hpos) in H.
  destruct (mapM _ _) as [ds| |] eqn:Em; try discriminate.
  revert Em. apply (mapM_halts _ _ _ (list_elem_of_lookup_2 _ _ _
    (concat_rows_lookup W s _ _ (Z.to_nat ppl) (LaserAngles s) c a j Hc Hj)) Hf).
Qed.

(** X22.  A tick that scans reads nothing of the previous one but the
    stored angle: two sensors with the same description, pose, laser
    angles and stored angle give the same outcome, whatever their buffers
    of hits, their counts, their ray conditions and the detections and
    header of their previous sweeps hold. *)
Theorem tick_ignores_stale_buffers
        (s1 s2 : ARayCastSemanticLidar) (DeltaTime : float) (ppl : Z) :
  sensor_sized s1 -> sensor_sized s2 ->
  same_config s1 s2 ->
  HorizontalAngle (SemanticLidarData s2) = HorizontalAngle (SemanticLidarData s1) ->
  PointsToScan (Description s1) DeltaTime = Returned ppl ->
  (0 < ppl)%Z ->
  SimulateLidar GetSafeNormal Pi W s2 DeltaTime
  = SimulateLidar GetSafeNormal Pi W s1 DeltaTime.
Proof.
  intros Hs1 Hs2 [HD [HT HL]] HA Hppl Hpos.
  assert (Hppl2 : PointsToScan (Description s2) DeltaTime = Returned ppl)
    by (rewrite HD; exact Hppl).
  rewrite (SimulateLidar_scans GetSafeNormal Pi W s1 DeltaTime ppl Hs1 Hppl Hpos).
  rewrite (SimulateLidar_scans GetSafeNormal Pi W s2 DeltaTime ppl Hs2 Hppl2 Hpos).
  assert (E : forall ds, after_tick Pi W s2 DeltaTime ppl ds
                         = after_tick Pi W s1 DeltaTime ppl ds).
  { intros ds. destruct s1 as [d1 [a1 c1 hd1 p1] l1 pc1 r1 q1 t1].
    destruct s2 as [d2 [a2 c2 hd2 p2] l2 pc2 r2 q2 t2].
    simpl in HD, HT, HL, HA. subst d2 t2 l2 a2. reflexivity. }
  rewrite HT, (E []).
  destruct (mapM _ _) as [ds| |]; [|reflexivity|reflexivity].
  change (Returned ds ≫= ?f) with (f ds). lazy beta. rewrite E. reflexivity.
Qed.

(** X23.  Over any number of ticks that return, the sensor keeps its
    description, its pose and its laser angles, and stays sized for its
    channels; so every tick of the sequence scans the same number of
    points per laser. *)
Theorem ticks_keep_the_configuration (DeltaTime : float) (N : nat) :
  forall s s' : ARayCastSemanticLidar,
    sensor_sized s ->
    Ticks GetSafeNormal Pi W s DeltaTime N = Returned s' ->
    same_config s s' /\ sensor_sized s'
    /\ PointsToScan (Description s') DeltaTime = PointsToScan (Description s) DeltaTime.
Proof.
  induction N as [|N IH]; intros s s' Hs H.
  - injection H as <-. repeat split; apply Hs.
  - change (Ticks GetSafeNormal Pi W s DeltaTime (S N))
      with (s1 ← SimulateLidar GetSafeNormal Pi W s DeltaTime;
            Ticks GetSafeNormal Pi W s1 DeltaTime N) in H.
    destruct (SimulateLidar GetSafeNormal Pi W s DeltaTime) as [s1| |] eqn:E1;
      try discriminate.
    change (Returned s1 ≫= ?f) with (f s1) in H. lazy beta in H.
    pose proof (SimulateLidar_config s s1 DeltaTime Hs E1) as [D1 [T1 L1]].
    pose proof (SimulateLidar_sized GetSafeNormal Pi W s s1 DeltaTime Hs E1) as Hs1.
    destruct (IH s1 s' Hs1 H) as [[D2 [T2 L2]] [Hs' P2]].
    split; [|split; [exact Hs'|]].
    + repeat split; congruence.
    + rewrite P2, D1. reflexivity.
Qed.

(** X24.  After a tick that scans, with a positive field of view and a
    positive pi, the stored angle, in degrees, lies strictly between
    minus the field of view and the field of view, in exact arithmetic;
    it has the sign of the angle before wrapping: it is not negative
    when the old angle plus the advance of the tick is not negative, and
    not positive when that sum is not positive. *)
Theorem stored_angle_stays_below_the_fov
        (s s' : ARayCastSemanticLidar) (DeltaTime : float) (ppl : Z) :
  sensor_sized s ->
  PointsToScan (Description s) DeltaTime = Returned ppl ->
  (0 < ppl)%Z ->
  0 < Pi ->
  0 < HorizontalFov (Description s) ->
  SimulateLidar GetSafeNormal Pi W s DeltaTime = Returned s' ->
  let fov := HorizontalFov (Description s) in
  let unwrapped := ToDegrees Pi (GetHorizontalAngle (SemanticLidarData s))
                   + RotationFrequency (Description s) * fov * DeltaTime in
  let stored := ToDegrees Pi (GetHorizontalAngle (SemanticLidarData s')) in
  - fov < stored /\ stored < fov
  /\ (0 <= unwrapped -> 0 <= stored)
  /\ (unwrapped <= 0 -> stored <= 0).
Proof.
  intros Hs Hppl Hpos HPi Hfov H fov unwrapped stored.
  rewrite (SimulateLidar_scans GetSafeNormal Pi W s DeltaTime ppl Hs Hppl Hpos) in H.
  destruct (mapM _ _) as [ds| |]; try discriminate.
  injection H as <-.
  assert (E : stored == fmod unwrapped fov).
  { unfold stored. apply (ToDegrees_ToRadians Pi _ HPi). }
  destruct (fmod_range unwrapped fov Hfov) as [A [B [C D]]].
  rewrite E. repeat split; assumption.
Qed.

(** X25.  What a tick does is decided by the quotient q = points per
    second * elapsed time / channels (at least one channel).  For
    -1/2 < q < 1/2 the rounded count is 0 and the tick returns the sensor
    as it is.  For q <= -1/2 the rounded count is negative and its
    conversion to an unsigned integer is undefined.  For q >= 1/2 the
    count, when it fits 32 bits, is floor (q + 1/2), which is positive,
    and otherwise the conversion is undefined. *)
Theorem tick_regimes (s : ARayCastSemanticLidar) (DeltaTime : float) :
  let q := points_quotient (Description s) DeltaTime in
  (1 <= Channels (Description s))%nat ->
  (- (1 # 2) < q -> q < 1 # 2 ->
   SimulateLidar GetSafeNormal Pi W s DeltaTime = Returned s)
  /\ (q <= - (1 # 2) ->
      SimulateLidar GetSafeNormal Pi W s DeltaTime = Undefined)
  /\ (1 # 2 <= q -> q + (1 # 2) < inject_Z (2 ^ 32) ->
      PointsToScan (Description s) DeltaTime = Returned (Qfloor (q + (1 # 2)))
      /\ (0 < Qfloor (q + (1 # 2)))%Z)
  /\ (inject_Z (2 ^ 32) <= q + (1 # 2) ->
      SimulateLidar GetSafeNormal Pi W s DeltaTime = Undefined).
Proof.
  intros q HC.
  assert (HP : PointsToScan (Description s) DeltaTime = float_to_uint32 (roundf q))
    by reflexivity.
  assert (HU : PointsToScan (Description s) DeltaTime = Undefined ->
               SimulateLidar GetSafeNormal Pi W s DeltaTime = Undefined).
  { intros E. unfold PointsToScan in E. unfold SimulateLidar. rewrite E. reflexivity. }
  split; [|split; [|split]].
  - intros Hlo Hhi. apply SimulateLidar_idle. rewrite HP. unfold roundf.
    destruct (Qle_bool 0 q) eqn:Eq.
    + apply Qle_bool_iff in Eq.
      rewrite (Qfloor_unique (q + (1 # 2)) 0)
        by (change (inject_Z 0) with 0; change (inject_Z (0 + 1)) with 1; lra).
      reflexivity.
    + rewrite (Qfloor_unique (- q + (1 # 2)) 0)
        by (change (inject_Z 0) with 0; change (inject_Z (0 + 1)) with 1; lra).
      reflexivity.
  - intros Hlo. apply HU. rewrite HP. unfold roundf.
    destruct (Qle_bool 0 q) eqn:Eq; [apply Qle_bool_iff in Eq; lra|].
    unfold float_to_uint32. rewrite Qtrunc_inject_Z. cbv zeta.
    assert (F : (1 <= Qfloor (- q + (1 # 2)))%Z).
    { apply (Qfloor_resp_le 1 (- q + (1 # 2))). lra. }
    replace (0 <=? - Qfloor (- q + (1 # 2)))%Z with false
      by (symmetry; apply Z.leb_gt; lia).
    reflexivity.
  - intros Hlo Hhi. rewrite HP. unfold roundf.
    replace (Qle_bool 0 q) with true by (symmetry; apply Qle_bool_iff; lra).
    unfold float_to_uint32. rewrite Qtrunc_inject_Z. cbv zeta.
    assert (F : (1 <= Qfloor (q + (1 # 2)))%Z).
    { apply (Qfloor_resp_le 1 (q + (1 # 2))). lra. }
    assert (G : (Qfloor (q + (1 # 2)) < 2 ^ 32)%Z).
    { rewrite Zlt_Qlt. eapply Qle_lt_trans; [apply Qfloor_le | exact Hhi]. }
    replace (0 <=? Qfloor (q + (1 # 2)))%Z with true by (symmetry; apply Z.leb_le; lia).
    replace (Qfloor (q + (1 # 2)) <? 2 ^ 32)%Z with true
      by (symmetry; apply Z.ltb_lt; exact G).
    split; [reflexivity | lia].
  - intros Hhi. apply HU. rewrite HP. unfold roundf.
    assert (Hq : 0 <= q).
    { assert (H1 : inject_Z 1 <= inject_Z (2 ^ 32)) by (rewrite <- Zle_Qle; lia).
      change (inject_Z 1) with 1 in H1. lra. }
    replace (Qle_bool 0 q) with true by (symmetry; apply Qle_bool_iff; exact Hq).
    unfold float_to_uint32. rewrite Qtrunc_inject_Z. cbv zeta.
    assert (G : (2 ^ 32 <= Qfloor (q + (1 # 2)))%Z).
    { rewrite <- (Qfloor_Z (2 ^ 32)). apply Qfloor_resp_le, Hhi. }
    replace (Qfloor (q + (1 # 2)) <? 2 ^ 32)%Z with false
      by (symmetry; apply Z.ltb_ge; exact G).
    rewrite andb_false_r. reflexivity.
Qed.

End Sweep.

(** Four lasers on the ground scene, half a second: one point per laser;
    the last detection of the sweep belongs to the lowest laser. *)
Lemma sweep_order_witness :
  sensor_sized (configured four_lasers)
  /\ PointsToScan (Description (configured four_lasers)) (1 # 2) = Returned 1%Z
  /\ (0 < 1)%Z
  /\ exists s' a d,
      SimulateLidar GetSafeNormal_rat Pi_rat ground_world (configured four_lasers) (1 # 2)
      = Returned s'
      /\ LaserAngles (configured four_lasers) !! 3%nat = Some a
      /\ a == -30
      /\ SerPoints (SemanticLidarData s') !! 3%nat = Some d
      /\ X (point d) = a
      /\ Z_ (point d) = 3.
Proof.
  assert (Hs : sensor_sized (configured four_lasers)) by (repeat split; simpl; lia).
  assert (Hp : PointsToScan (Description (configured four_lasers)) (1 # 2) = Returned 1%Z)
    by reflexivity.
  assert (H1 : (0 < 1)%Z) by lia.
  split; [exact Hs|]. split; [exact Hp|]. split; [exact H1|].
  destruct (SimulateLidar GetSafeNormal_rat Pi_rat ground_world (configured four_lasers)
              (1 # 2)) as [s'| |] eqn:E; [|vm_compute in E; discriminate E..].
  assert (Ha : LaserAngles (configured four_lasers) !! 3%nat
               = Some (laser_angle four_lasers 3)) by reflexivity.
  assert (Hj : (0 < Z.to_nat 1)%nat) by (simpl; lia).
  destruct (sweep_order GetSafeNormal_rat Pi_rat ground_world (configured four_lasers) s'
              (1 # 2) 1 Hs Hp H1 E 3 _ 0%nat Ha Hj) as [d [Hd [_ [Hx [_ Hz]]]]].
  exists s', (laser_angle four_lasers 3), d.
  split; [reflexivity|]. split; [exact Ha|]. split; [reflexivity|].
  split; [exact Hd|]. split; [exact Hx | exact Hz].
Defined.

(** The same sensor where every ray strikes a wall whose material has
    vector parameters only. *)
Lemma unclassifiable_hit_halts_the_tick_witness :
  sensor_sized (configured four_lasers)
  /\ PointsToScan (Description (configured four_lasers)) (1 # 2) = Returned 1%Z
  /\ (0 < 1)%Z
  /\ LaserAngles (configured four_lasers) !! 0%nat = Some (laser_angle four_lasers 0)
  /\ (0 < Z.to_nat 1)%nat
  /\ forall s',
      SimulateLidar GetSafeNormal_rat Pi_rat tinted_world (configured four_lasers) (1 # 2)
      <> Returned s'.
Proof.
  assert (Hs : sensor_sized (configured four_lasers)) by (repeat split; simpl; lia).
  assert (Hp : PointsToScan (Description (configured four_lasers)) (1 # 2) = Returned 1%Z)
    by reflexivity.
  assert (H1 : (0 < 1)%Z) by lia.
  assert (Ha : LaserAngles (configured four_lasers) !! 0%nat
               = Some (laser_angle four_lasers 0)) by reflexivity.
  assert (Hj : (0 < Z.to_nat 1)%nat) by (simpl; lia).
  split; [exact Hs|]. split; [exact Hp|]. split; [exact H1|]. split; [exact Ha|].
  split; [exact Hj|].
  apply (unclassifiable_hit_halts_the_tick GetSafeNormal_rat Pi_rat tinted_world
           (configured four_lasers) (1 # 2) 1 0 _ 0 Hs Hp H1 Ha Hj).
  intros d H. vm_compute in H. discriminate H.
Defined.

(** The configured sensor and the one with leftovers in its buffers. *)
Lemma tick_ignores_stale_buffers_witness :
  sensor_sized (configured four_lasers)
  /\ sensor_sized stale_sensor
  /\ same_config (configured four_lasers) stale_sensor
  /\ HorizontalAngle (SemanticLidarData stale_sensor)
     = HorizontalAngle (SemanticLidarData (configured four_lasers))
  /\ PointsToScan (Description (configured four_lasers)) (1 # 2) = Returned 1%Z
  /\ (0 < 1)%Z
  /\ SimulateLidar GetSafeNormal_rat Pi_rat ground_world stale_sensor (1 # 2)
     = SimulateLidar GetSafeNormal_rat Pi_rat ground_world (configured four_lasers) (1 # 2).
Proof.
  assert (Hs : sensor_sized (configured four_lasers)) by (repeat split; simpl; lia).
  assert (Ht : sensor_sized stale_sensor) by (repeat split; simpl; lia).
  assert (Hc : same_config (configured four_lasers) stale_sensor) by (repeat split).
  assert (Hp : PointsToScan (Description (configured four_lasers)) (1 # 2) = Returned 1%Z)
    by reflexivity.
  assert (H1 : (0 < 1)%Z) by lia.
  split; [exact Hs|]. split; [exact Ht|]. split; [exact Hc|]. split; [reflexivity|].
  split; [exact Hp|]. split; [exact H1|].
  exact (tick_ignores_stale_buffers GetSafeNormal_rat Pi_rat ground_world
           (configured four_lasers) stale_sensor (1 # 2) 1 Hs Ht Hc eq_refl Hp H1).
Defined.

(** Two ticks of half a second in the empty scene. *)
Lemma ticks_keep_the_configuration_witness :
  sensor_sized (configured four_lasers)
  /\ exists s',
      Ticks GetSafeNormal_rat Pi_rat empty_world (configured four_lasers) (1 # 2) 2
      = Returned s'
      /\ Description s' = four_lasers
      /\ sensor_sized s'.
Proof.
  assert (Hs : sensor_sized (configured four_lasers)) by (repeat split; simpl; lia).
  split; [exact Hs|].
  destruct (Ticks GetSafeNormal_rat Pi_rat empty_world (configured four_lasers) (1 # 2) 2)
    as [s'| |] eqn:E; [|vm_compute in E; discriminate E..].
  destruct (ticks_keep_the_configuration GetSafeNormal_rat Pi_rat empty_world (1 # 2) 2
              (configured four_lasers) s' Hs E) as [[Hd _] [Hs' _]].
  exists s'. split; [reflexivity|]. split; [exact Hd | exact Hs'].
Defined.

(** A sensor that turns backwards: a quarter of a second takes the angle
    from 0 to -90 degrees. *)
Lemma stored_angle_stays_below_the_fov_witness :
  sensor_sized (configured reversed_lidar)
  /\ PointsToScan (Description (configured reversed_lidar)) (1 # 4) = Returned 2%Z
  /\ (0 < 2)%Z
  /\ 0 < Pi_rat
  /\ 0 < HorizontalFov (Description (configured reversed_lidar))
  /\ exists s',
      SimulateLidar GetSafeNormal_rat Pi_rat empty_world (configured reversed_lidar) (1 # 4)
      = Returned s'
      /\ - (360) < ToDegrees Pi_rat (GetHorizontalAngle (SemanticLidarData s'))
      /\ ToDegrees Pi_rat (GetHorizontalAngle (SemanticLidarData s')) <= 0.
Proof.
  assert (Hs : sensor_sized (configured reversed_lidar)) by (repeat split; simpl; lia).
  assert (Hp : PointsToScan (Description (configured reversed_lidar)) (1 # 4)
               = Returned 2%Z) by reflexivity.
  assert (H2 : (0 < 2)%Z) by lia.
  assert (HPi : 0 < Pi_rat) by reflexivity.
  assert (Hf : 0 < HorizontalFov (Description (configured reversed_lidar)))
    by reflexivity.
  split; [exact Hs|]. split; [exact Hp|]. split; [exact H2|]. split; [exact HPi|].
  split; [exact Hf|].
  destruct (SimulateLidar GetSafeNormal_rat Pi_rat empty_world (configured reversed_lidar)
              (1 # 4)) as [s'| |] eqn:E; [|vm_compute in E; discriminate E..].
  destruct (stored_angle_stays_below_the_fov GetSafeNormal_rat Pi_rat empty_world
              (configured reversed_lidar) s' (1 # 4) 2 Hs Hp H2 HPi Hf E)
    as [A [_ [_ B]]].
  exists s'. split; [reflexivity|]. split; [exact A|].
  apply B. vm_compute. discriminate.
Defined.

(** One point per second on one channel: a quarter of a second is an idle
    tick; a negative second is an undefined one. *)
Lemma tick_regimes_witness :
  (1 <= Channels (Description (configured sparse_lidar)))%nat
  /\ - (1 # 2) < points_quotient (Description (configured sparse_lidar)) (1 # 4)
  /\ points_quotient (Description (configured sparse_lidar)) (1 # 4) < 1 # 2
  /\ SimulateLidar GetSafeNormal_rat Pi_rat empty_world (configured sparse_lidar) (1 # 4)
     = Returned (configured sparse_lidar)
  /\ points_quotient (Description (configured sparse_lidar)) (-1) <= - (1 # 2)
  /\ SimulateLidar GetSafeNormal_rat Pi_rat empty_world (configured sparse_lidar) (-1)
     = Undefined.
Proof.
  assert (HC : (1 <= Channels (Description (configured sparse_lidar)))%nat)
    by (simpl; lia).
  assert (A1 : - (1 # 2) < points_quotient (Description (configured sparse_lidar)) (1 # 4))
    by reflexivity.
  assert (A2 : points_quotient (Description (configured sparse_lidar)) (1 # 4) < 1 # 2)
    by reflexivity.
  assert (B1 : points_quotient (Description (configured sparse_lidar)) (-1) <= - (1 # 2))
    by (vm_compute; discriminate).
  destruct (tick_regimes GetSafeNormal_rat Pi_rat empty_world (configured sparse_lidar)
              (1 # 4) HC) as [I _].
  destruct (tick_regimes GetSafeNormal_rat Pi_rat empty_world (configured sparse_lidar)
              (-1) HC) as [_ [U _]].
  split; [exact HC|]. split; [exact A1|]. split; [exact A2|].
  split; [exact (I A1 A2)|]. split; [exact B1 | exact (U B1)].
Defined.
